(** * gpt4all Python bindings: download protocol, embeddings front end and
      chat-session state machine of [gpt4all/gpt4all.py], as a shallow
      embedding, with the properties of the design document proved or
      refuted against it. *)

From Stdlib Require Import ZArith String Ascii List Lia Bool DecimalString.
From Stdlib Require Import Init.Byte.
From stdpp Require Import gmap strings list.

Local Open Scope Z_scope.

(* ===================================================================== *)
(** * Python values shared by all parts                                   *)
(* ===================================================================== *)

Module Py.

Abbreviation bytes := (list byte).

(** [str(n)] for an [int]. *)
Definition str (n : Z) : string := NilZero.string_of_int (Z.to_int n).

(** [needle in hay] for two [str]. *)
Fixpoint contains (needle hay : string) {struct hay} : bool :=
  if String.prefix needle hay then true
  else match hay with
       | EmptyString => false
       | String _ rest => contains needle rest
       end.

(** [len(data)] as Python returns it. *)
Definition len {A} (l : list A) : Z := Z.of_nat (List.length l).

(** Arguments of a [ProtocolError]: the code only asks whether
    [pe.args[1]] is an [IncompleteRead] and reads its [partial]. *)
Inductive pe_arg :=
| PeIncompleteRead (partial : Z)
| PeOther.

(** Arguments of a [ChunkedEncodingError]: the code only asks whether
    [cee.args[0]] is a [ProtocolError] and reads its [args]. *)
Inductive cee_arg :=
| ArgProtocolError (args : list pe_arg)
| ArgOther.

(** The exceptions the module raises or lets through.  The two
    [ValueError]s of the download and the [RuntimeError] are told apart
    by their messages, as in the source. *)
Inductive exn :=
| ValueError (msg : string)
| RuntimeError (msg : string)
| AssertionError
| ChunkedEncodingError (args : list cee_arg)
| OSError
| IndexError
| KeyError
| TypeError
| OtherException (name : string).

(** What a call does: return a value or raise. *)
Inductive outcome (A : Type) :=
| Ok (a : A)
| Raise (e : exn).
Arguments Ok {A} a.
Arguments Raise {A} e.

End Py.
Import Py.

(* ===================================================================== *)
(** * [GPT4All.download_model]                                            *)
(* ===================================================================== *)

Module Download.

(** How the iteration over [response.iter_content(block_size)] ends:
    the body is exhausted, or the iterator raises. *)
Inductive stream_end :=
| EndOfStream
| StreamRaises (e : exn).

(** A [requests.Response] as far as [download_model] looks at it.
    [content_length] is the header as [int()] reads it, [None] when the
    header is absent; [iter_content] gives the chunks the iterator
    yields before it ends. *)
Record response := {
  status_code : Z;
  reason : string;
  content_length : option Z;
  content_range : option string;
  iter_content : Z -> list bytes * stream_end
}.

Abbreviation headers := (list (string * string)).

(** The environment of one call: [requests_get i url hs] is what the
    [i]-th call [requests.get(url, stream=True, headers=hs)] does
    (an exception, or a response); [remove_denied] says whether
    [os.remove] of an existing file raises [OSError]. *)
Record env := {
  requests_get : nat -> string -> headers -> exn + response;
  remove_denied : bool
}.

(** The mutable world: the files by path and the headers of the GET
    requests issued so far, oldest first. *)
Record world := {
  fs : gmap string bytes;
  sent : list headers
}.

Definition DEFAULT_URL (model_filename : string) : string :=
  "https://gpt4all.io/models/gguf/" +:+ model_filename.

(** [Path(model_path) / model_filename] *)
Definition path_join (model_path model_filename : string) : string :=
  model_path +:+ "/" +:+ model_filename.

Definition block_size : Z := 2 ^ 20.

Definition MSG_NO_PROGRESS : string := "Download not making progress, aborting.".
Definition MSG_NO_RANGE : string :=
  "Connection was interrupted and server does not support range requests".
Definition MSG_REQUEST_FAILED (status : Z) (rsn : string) : string :=
  "Request failed: HTTP " +:+ str status +:+ " " +:+ rsn.

(** The names the design document gives to the three download errors. *)
Definition StalledDownloadError : exn := RuntimeError MSG_NO_PROGRESS.
Definition RangeUnsupportedError : exn := ValueError MSG_NO_RANGE.
Definition RemoteError (status : Z) (rsn : string) : exn :=
  ValueError (MSG_REQUEST_FAILED status rsn).

(** Truth value of [offset] in [if offset:], for [None] or an [int]. *)
Definition truthy (offset : option Z) : bool :=
  match offset with
  | None => false
  | Some o => negb (o =? 0)
  end.

Definition range_headers (offset : option Z) : headers :=
  match offset with
  | Some o => if negb (o =? 0) then [("Range", "bytes=" +:+ str o +:+ "-")] else []
  | None => []
  end.

(** [str(offset) not in response.headers.get('Content-Range', '')] *)
Definition offset_not_in_content_range (offset : option Z) (r : response) : bool :=
  match offset with
  | Some o => negb (contains (str o) (default "" (content_range r)))
  | None => false
  end.

(** The nested function [make_request(offset=None)]. *)
Definition make_request (E : env) (url : string) (offset : option Z)
    (w : world) : outcome response * world :=
  let hs := range_headers offset in
  let w' := {| fs := fs w; sent := sent w ++ [hs] |} in
  match requests_get E (List.length (sent w)) url hs with
  | inl e => (Raise e, w')
  | inr resp =>
      if negb ((status_code resp =? 200) || (status_code resp =? 206)) then
        (Raise (ValueError (MSG_REQUEST_FAILED (status_code resp) (reason resp))), w')
      else if truthy offset
              && (negb (status_code resp =? 206) || offset_not_in_content_range offset resp) then
        (Raise (ValueError MSG_NO_RANGE), w')
      else (Ok resp, w')
  end.

(** State of the open destination file and of the progress bar. *)
Record progress := {
  file : bytes;
  progress_bar_n : Z
}.

(** The body of [for data in response.iter_content(block_size)]. *)
Definition write_chunk (p : progress) (data : bytes) : progress :=
  {| file := file p ++ data; progress_bar_n := progress_bar_n p + len data |}.

Definition write_chunks (p : progress) (chunks : list bytes) : progress :=
  fold_left write_chunk chunks p.

(** The tests of the [except ChunkedEncodingError] handler:
    [cee.args[0]] is a [ProtocolError] whose [args[1]] is an
    [IncompleteRead]; gives its [partial]. *)
Definition incomplete_read (args : list cee_arg) : option Z :=
  match args with
  | ArgProtocolError pargs :: _ =>
      match pargs with
      | _ :: PeIncompleteRead partial :: _ => Some partial
      | _ => None
      end
  | _ => None
  end.

(** The [while True] loop inside the [try].  [None] is a loop that has
    not left after [fuel] rounds. *)
Fixpoint download_loop (E : env) (url : string) (total_size_in_bytes : Z)
    (fuel : nat) (resp : response) (p : progress) (w : world)
    : option (outcome unit * progress * world) :=
  match fuel with
  | O => None
  | S fuel' =>
      let last_progress := progress_bar_n p in
      let '(chunks, ending) := iter_content resp block_size in
      let p' := write_chunks p chunks in
      match ending with
      | StreamRaises (ChunkedEncodingError args) =>
          match incomplete_read args with
          | Some partial =>
              if progress_bar_n p' <=? partial then
                match make_request E url (Some (progress_bar_n p')) w with
                | (Ok resp', w') =>
                    download_loop E url total_size_in_bytes fuel' resp' p' w'
                | (Raise e, w') => Some (Raise e, p', w')
                end
              else Some (Raise AssertionError, p', w)
          | None => Some (Raise (ChunkedEncodingError args), p', w)
          end
      | StreamRaises e => Some (Raise e, p', w)
      | EndOfStream =>
          if negb (total_size_in_bytes =? 0) && (progress_bar_n p' <? total_size_in_bytes) then
            if progress_bar_n p' =? last_progress then
              Some (Raise (RuntimeError MSG_NO_PROGRESS), p', w)
            else
              match make_request E url (Some (progress_bar_n p')) w with
              | (Ok resp', w') =>
                  download_loop E url total_size_in_bytes fuel' resp' p' w'
              | (Raise e, w') => Some (Raise e, p', w')
              end
          else Some (Ok tt, p', w)
      end
  end.

(** [os.remove(path)]: raises [OSError] (as [FileNotFoundError]) when
    the file is absent, or when the system refuses. *)
Definition os_remove (E : env) (path : string) (files : gmap string bytes)
    : outcome (gmap string bytes) :=
  match files !! path with
  | None => Raise OSError
  | Some _ => if remove_denied E then Raise OSError else Ok (delete path files)
  end.

(** The [except Exception] handler: [try: os.remove(...) except OSError: pass],
    then [raise]. *)
Definition cleanup (E : env) (path : string) (files : gmap string bytes)
    : gmap string bytes :=
  match os_remove E path files with
  | Ok files' => files'
  | Raise _ => files
  end.

(** [download_model(model_filename, model_path, verbose, url)].  The
    messages printed to stderr are left out. *)
Definition download_model (E : env) (fuel : nat)
    (model_filename model_path : string) (verbose : bool) (url : option string)
    (w : world) : option (outcome string * world) :=
  let download_path := path_join model_path model_filename in
  let url := default (DEFAULT_URL model_filename) url in
  match make_request E url None w with
  | (Raise e, w1) => Some (Raise e, w1)
  | (Ok resp, w1) =>
      let total_size_in_bytes := default 0 (content_length resp) in
      (* open(download_path, "wb") *)
      let p0 := {| file := []; progress_bar_n := 0 |} in
      match download_loop E url total_size_in_bytes fuel resp p0 w1 with
      | None => None
      | Some (Ok _, p, w2) =>
          Some (Ok download_path,
                {| fs := <[download_path := file p]> (fs w2); sent := sent w2 |})
      | Some (Raise e, p, w2) =>
          Some (Raise e,
                {| fs := cleanup E download_path (<[download_path := file p]> (fs w2));
                   sent := sent w2 |})
      end
  end.

(** ** Server behaviours the properties speak about *)

(** The body of [r] delivers exactly [pre] and is then cut: the stream
    ends early, or the read breaks with an [IncompleteRead] that has
    seen at least the bytes delivered. *)
Definition disconnects_after (r : response) (pre : bytes) : Prop :=
  exists chunks ending,
    iter_content r block_size = (chunks, ending)
    /\ concat chunks = pre
    /\ (ending = EndOfStream
        \/ exists args partial,
             ending = StreamRaises (ChunkedEncodingError args)
             /\ incomplete_read args = Some partial
             /\ len pre <= partial).

(** The body of [r] delivers exactly [body] and ends. *)
Definition serves (r : response) (body : bytes) : Prop :=
  exists chunks,
    iter_content r block_size = (chunks, EndOfStream) /\ concat chunks = body.

(** The header [make_request] sends to resume at byte [k]. *)
Definition range_from (k : nat) : headers :=
  [("Range", "bytes=" +:+ str (Z.of_nat k) +:+ "-")].

End Download.

(* ===================================================================== *)
(** * [Embed4All.embed]                                                   *)
(* ===================================================================== *)

Module Embed.

Definition MIN_DIMENSIONALITY : Z := 64.

(** [text: str | list[str]] *)
Inductive text_arg :=
| TextStr (s : string)
| TextList (l : list string).

(** The arguments of [self.gpt4all.model.generate_embeddings], in the
    order of the call. *)
Record embed_call := {
  ec_text : text_arg;
  ec_prefix : option string;
  ec_dimensionality : Z;
  ec_do_mean : bool;
  ec_atlas : bool
}.

(** The dict the engine returns; a component of an embedding is kept
    as an opaque number, no arithmetic is done on it here. *)
Record EmbedResult := {
  embeddings : list (list Z);
  n_prompt_tokens : Z
}.

(** What [embed] returns: the whole dict with [return_dict=True], else
    its ['embeddings'] entry. *)
Inductive embed_return :=
| ReturnDict (r : EmbedResult)
| ReturnEmbeddings (e : list (list Z)).

(** The engine behind [generate_embeddings], which is not part of this
    module: any function of the call. *)
Record env := {
  generate_embeddings : embed_call -> outcome EmbedResult
}.

(** Warnings emitted through [warnings.warn] and engine calls made,
    oldest first. *)
Record world := {
  warnings : list string;
  calls : list embed_call
}.

Definition MSG_DIMENSIONALITY (d : Z) : string :=
  "Dimensionality must be None or a positive integer, got " +:+ str d.
Definition MSG_LOW_DIMENSIONALITY (d : Z) : string :=
  "Dimensionality " +:+ str d +:+ " is less than the suggested minimum of "
    +:+ str MIN_DIMENSIONALITY +:+ ". Performance may be degraded.".
(** [long_text_mode!r] is left as the bare string in the message. *)
Definition MSG_LONG_TEXT_MODE (mode : string) : string :=
  "Long text mode must be one of 'mean' or 'truncate', got " +:+ mode.

(** The name the design document gives to the [ValueError]s of [embed]. *)
Definition is_ConfigError (e : exn) : Prop :=
  (exists d, e = ValueError (MSG_DIMENSIONALITY d))
  \/ (exists mode, e = ValueError (MSG_LONG_TEXT_MODE mode)).

(** [{"mean": True, "truncate": False}[long_text_mode]] *)
Definition do_mean_of (long_text_mode : string) : option bool :=
  ({[ "mean" := true; "truncate" := false ]} : gmap string bool) !! long_text_mode.

Definition embed (E : env) (text : text_arg) (prefix : option string)
    (dimensionality : option Z) (long_text_mode : string)
    (return_dict atlas : bool) (w : world) : outcome embed_return * world :=
  let checked : outcome Z * world :=
    match dimensionality with
    | None => (Ok (-1), w)
    | Some d =>
        if d <=? 0 then (Raise (ValueError (MSG_DIMENSIONALITY d)), w)
        else if d <? MIN_DIMENSIONALITY then
          (Ok d, {| warnings := warnings w ++ [MSG_LOW_DIMENSIONALITY d];
                    calls := calls w |})
        else (Ok d, w)
    end in
  match checked with
  | (Raise e, w1) => (Raise e, w1)
  | (Ok d, w1) =>
      match do_mean_of long_text_mode with
      | None => (Raise (ValueError (MSG_LONG_TEXT_MODE long_text_mode)), w1)
      | Some do_mean =>
          let c := {| ec_text := text; ec_prefix := prefix; ec_dimensionality := d;
                      ec_do_mean := do_mean; ec_atlas := atlas |} in
          let w2 := {| warnings := warnings w1; calls := calls w1 ++ [c] |} in
          match generate_embeddings E c with
          | Raise e => (Raise e, w2)
          | Ok result =>
              (Ok (if return_dict then ReturnDict result
                   else ReturnEmbeddings (embeddings result)), w2)
          end
      end
  end.

End Embed.

(* ===================================================================== *)
(** * [GPT4All]: chat sessions and [generate]                             *)
(* ===================================================================== *)

Module Chat.

(** ** The store of Python objects

    Messages are dicts and the transcript is a list of them; both are
    mutable objects that several names can refer to, so they live in a
    store and are handled through references.  A reference is the
    position of the object in the store; objects are never freed. *)

Abbreviation ref := nat.

Inductive pyobj :=
| PyDict (d : gmap string string)
| PyList (items : list ref).

(** A value of the [dict[str, Any]] of sampling parameters.  A float is
    kept as the decimal [mantissa * 10 ^ exponent] the caller wrote; no
    arithmetic is done on it. *)
Inductive pyany :=
| PyInt (z : Z)
| PyFloat (mantissa exponent : Z)
| PyBool (b : bool).

(** A callback [(token_id: int, response: str) -> bool], taken to be a
    function of its two arguments. *)
Abbreviation ResponseCallbackType := (Z -> string -> bool).

(** The two callbacks [generate] hands to the engine:
    [_pyllmodel.empty_response_callback], and the closure [_callback]
    made by [_callback_wrapper(callback, output_collector)]. *)
Inductive engine_callback :=
| empty_response_callback
| _callback (callback : ResponseCallbackType) (output_collector : ref).

Inductive engine_method :=
| prompt_model
| prompt_model_streaming.

(** One call [self.model.<method>(prompt, prompt_template, callback, **kwargs)]. *)
Record engine_call := {
  call_method : engine_method;
  call_prompt : string;
  call_prompt_template : string;
  call_callback : engine_callback;
  call_kwargs : gmap string pyany
}.

(** What does not change during a session, and what lies outside the
    module: the catalog entry [self.config]; the method a subclass puts
    in place of [_format_chat_prompt_template], if any; the engine,
    which for a call (given the calls made before) emits
    [(token_id, response)] pairs and then returns or raises; the
    function [_pyllmodel.empty_response_callback]; and Python's
    [str.format]. *)
Record env := {
  config : gmap string string;
  format_override :
    option (list (gmap string string) -> string -> string -> outcome string);
  engine : list engine_call -> engine_call -> list (Z * string) * option exn;
  empty_callback : ResponseCallbackType;
  str_format : string -> list string -> outcome string
}.

(** The attributes of [self] that change, the store, the calls made to
    the engine and the warnings emitted, oldest first. *)
Record world := {
  _history : option ref;
  _current_prompt_template : string;
  heap : list pyobj;
  calls : list engine_call;
  warnings : list string
}.

(** ** A state and exception monad over the world *)

Definition M (A : Type) : Type := world -> outcome A * world.

#[global] Instance M_ret : MRet M := fun A a w => (Ok a, w).
#[global] Instance M_bind : MBind M := fun A B f m w =>
  match m w with
  | (Ok a, w') => f a w'
  | (Raise e, w') => (Raise e, w')
  end.

Definition raise {A} (e : exn) : M A := fun w => (Raise e, w).

Definition lift {A} (o : outcome A) : M A := fun w => (o, w).

Definition get_history : M (option ref) := fun w => (Ok (_history w), w).

Definition get_template : M string :=
  fun w => (Ok (_current_prompt_template w), w).

Definition set_history (h : option ref) : M unit := fun w =>
  (Ok tt, {| _history := h; _current_prompt_template := _current_prompt_template w;
             heap := heap w; calls := calls w; warnings := warnings w |}).

Definition set_template (t : string) : M unit := fun w =>
  (Ok tt, {| _history := _history w; _current_prompt_template := t;
             heap := heap w; calls := calls w; warnings := warnings w |}).

Definition set_heap (h : list pyobj) (w : world) : world :=
  {| _history := _history w; _current_prompt_template := _current_prompt_template w;
     heap := h; calls := calls w; warnings := warnings w |}.

(** [warnings.warn(msg, ...)] *)
Definition warn (msg : string) : M unit := fun w =>
  (Ok tt, {| _history := _history w; _current_prompt_template := _current_prompt_template w;
             heap := heap w; calls := calls w; warnings := warnings w ++ [msg] |}).

Definition log_call (c : engine_call) : M unit := fun w =>
  (Ok tt, {| _history := _history w; _current_prompt_template := _current_prompt_template w;
             heap := heap w; calls := calls w ++ [c]; warnings := warnings w |}).

(** ** Operations on stored objects

    A reference that does not name an object of the kind the operation
    needs raises [TypeError], as subscripting the wrong kind of object
    does in Python. *)

(** A new object; its reference is the next free position. *)
Definition alloc (o : pyobj) : M ref := fun w =>
  (Ok (List.length (heap w)), set_heap (heap w ++ [o]) w).

Definition load_list (r : ref) : M (list ref) := fun w =>
  match heap w !! r with
  | Some (PyList items) => (Ok items, w)
  | _ => (Raise TypeError, w)
  end.

Definition load_dict (r : ref) : M (gmap string string) := fun w =>
  match heap w !! r with
  | Some (PyDict d) => (Ok d, w)
  | _ => (Raise TypeError, w)
  end.

Definition store (r : ref) (o : pyobj) : M unit := fun w =>
  (Ok tt, set_heap (<[r := o]> (heap w)) w).

(** [len(l)] *)
Definition list_len (l : ref) : M Z :=
  items ← load_list l; mret (len items).

(** [l.append(x)] *)
Definition list_append (l : ref) (x : ref) : M unit :=
  items ← load_list l; store l (PyList (items ++ [x])).

(** [l[i]], with Python's negative indices and [IndexError]. *)
Definition list_getitem (l : ref) (i : Z) : M ref :=
  items ← load_list l;
  let j := if i <? 0 then len items + i else i in
  if j <? 0 then raise IndexError
  else match items !! Z.to_nat j with
       | Some x => mret x
       | None => raise IndexError
       end.

(** [l[-1:]], read out as the list of the dicts' contents. *)
Definition list_last_slice (l : ref) : M (list (gmap string string)) :=
  items ← load_list l;
  match last items with
  | Some x => d ← load_dict x; mret [d]
  | None => mret []
  end.

(** [d[k]] *)
Definition dict_getitem (d : ref) (k : string) : M string :=
  m ← load_dict d;
  match m !! k with
  | Some v => mret v
  | None => raise KeyError
  end.

(** [d[k] = v] *)
Definition dict_setitem (d : ref) (k v : string) : M unit :=
  m ← load_dict d; store d (PyDict (<[k := v]> m)).

(** ** The engine binding *)

(** One call of a callback by the engine; for the closure it is the
    body of [_callback(token_id, response)] in [_callback_wrapper]. *)
Definition invoke (E : env) (cb : engine_callback) (token_id : Z) (response : string)
    : M bool :=
  match cb with
  | empty_response_callback => mret (empty_callback E token_id response)
  | _callback callback output_collector =>
      msg ← list_getitem output_collector (-1);
      content ← dict_getitem msg "content";
      dict_setitem msg "content" (content +:+ response);;
      mret (callback token_id response)
  end.

(** Modelled from the spec: the generation loop of the engine is not in
    this file.  Every token is delivered to the callback, in order, and
    the engine ceases at the first token for which the callback returns
    a false value.  Gives [true] when every token was delivered. *)
Fixpoint feed (E : env) (cb : engine_callback) (tokens : list (Z * string)) : M bool :=
  match tokens with
  | [] => mret true
  | (token_id, response) :: rest =>
      go_on ← invoke E cb token_id response;
      if go_on : bool then feed E cb rest else mret false
  end.

(** Modelled from the spec: [_pyllmodel.LLModel.prompt_model] is not in
    this file.  The call blocks until the engine has delivered its
    tokens or was stopped by the callback, and raises when the engine
    fails. *)
Definition call_prompt_model (E : env) (c : engine_call) : M unit :=
  fun w =>
    let '(tokens, failure) := engine E (calls w) c in
    (log_call c;;
     finished ← feed E (call_callback c) tokens;
     match failure with
     | Some e => if finished : bool then raise e else mret tt
     | None => mret tt
     end) w.

(** Modelled from the spec: [_pyllmodel.LLModel.prompt_model_streaming]
    is not in this file.  The call gives a lazy sequence of text
    fragments; nothing runs until it is iterated. *)
Definition call_prompt_model_streaming (c : engine_call) : M engine_call :=
  log_call c;; mret c.

(** ** [GPT4All] *)

Definition nl : string := String (ascii_of_nat 10) EmptyString.

Definition DEFAULT_PROMPT_TEMPLATE : string :=
  "### Human:" +:+ nl +:+ "{0}" +:+ nl +:+ nl +:+ "### Assistant:" +:+ nl.

Definition MSG_NO_TEMPLATE : string :=
  "Use of a sideloaded model or allow_download=False without specifying a prompt template is deprecated. Defaulting to Alpaca.".
Definition MSG_LITERAL_MARKER : string :=
  "Prompt template containing a literal '%1' is not supported. For a prompt placeholder, please use '{0}' instead.".
Definition MSG_FORMAT_DEPRECATED : string :=
  "_format_chat_prompt_template is deprecated. Please use a chat session with a prompt template.".

(** The name the design document gives to the error of session entry. *)
Definition TemplateError : exn := ValueError MSG_LITERAL_MARKER.

(** The character class [[0-9]]. *)
Definition is_digit (c : ascii) : bool :=
  (48 <=? nat_of_ascii c)%nat && (nat_of_ascii c <=? 57)%nat.

Definition starts_with_digit (s : string) : bool :=
  match s with
  | String c _ => is_digit c
  | EmptyString => false
  end.

(** [re.search(r"%1(?![0-9])", s)] as a truth value: a match is tried
    at every position from left to right. *)
Fixpoint re_search_marker (s : string) : bool :=
  match s with
  | EmptyString => false
  | String c rest =>
      (Ascii.eqb c "%"
       && match rest with
          | String d rest' => Ascii.eqb d "1" && negb (starts_with_digit rest')
          | EmptyString => false
          end)
      || re_search_marker rest
  end.

(** The keyword arguments of [generate]. *)
Record generate_args := {
  max_tokens : Z;
  temp : pyany;
  top_k : Z;
  top_p : pyany;
  min_p : pyany;
  repeat_penalty : pyany;
  repeat_last_n : Z;
  n_batch : Z;
  n_predict : option Z;
  streaming : bool;
  callback : ResponseCallbackType
}.

(** The defaults of the signature, with a callback that never stops
    the engine. *)
Definition default_args : generate_args :=
  {| max_tokens := 200; temp := PyFloat 7 (-1); top_k := 40; top_p := PyFloat 4 (-1);
     min_p := PyFloat 0 0; repeat_penalty := PyFloat 118 (-2); repeat_last_n := 64;
     n_batch := 8; n_predict := None; streaming := false;
     callback := fun _ _ => true |}.

(** The dict [generate_kwargs] as first built. *)
Definition generate_kwargs (a : generate_args) : gmap string pyany :=
  {[ "temp" := temp a;
     "top_k" := PyInt (top_k a);
     "top_p" := top_p a;
     "min_p" := min_p a;
     "repeat_penalty" := repeat_penalty a;
     "repeat_last_n" := PyInt (repeat_last_n a);
     "n_batch" := PyInt (n_batch a);
     "n_predict" := PyInt (match n_predict a with
                           | Some v => v
                           | None => max_tokens a
                           end) ]}.

(** The keyword arguments of the call that ingests the system prompt. *)
Definition priming_kwargs (a : generate_args) : gmap string pyany :=
  {[ "n_batch" := PyInt (n_batch a); "n_predict" := PyInt 0; "special" := PyBool true ]}.

(** What [generate] returns: the completion, or with [streaming=True]
    the generator made by the streaming call. *)
Inductive generate_return :=
| Completion (text : string)
| TokenStream (c : engine_call).

(** The call that ingests the system prompt. *)
Definition priming_call (content : string) (a : generate_args) : engine_call :=
  {| call_method := prompt_model; call_prompt := content;
     call_prompt_template := "%1"; call_callback := empty_response_callback;
     call_kwargs := priming_kwargs a |}.

(** The two ways of the session branch to get the prompt and the prompt
template of the main call, by [fct_func is GPT4All._format_chat_prompt_template]:
ingest the system prompt on a reset turn and derive the template from
the session's, or call the overriding method and use ["%1"]. *)
Definition format_turn (E : env) (history : ref) (prompt : string)
    (a : generate_args) (reset : bool) : M (string * string) :=
  match format_override E with
  | None =>
      (if reset then
         system ← list_getitem history 0;
         content ← dict_getitem system "content";
         call_prompt_model E (priming_call content a)
       else mret tt);;
      tmpl ← get_template;
      prompt_template ← lift (str_format E tmpl ["%1"; "%2"]);
      mret (prompt, prompt_template)
  | Some fct =>
      warn MSG_FORMAT_DEPRECATED;;
      messages ← list_last_slice history;
      header ← (if reset then
                  system ← list_getitem history 0;
                  dict_getitem system "content"
                else mret "");
      prompt' ← lift (fct messages header "");
      mret (prompt', "%1")
  end.

(** The part of [generate] under [if self._history is not None] that
follows [reset = len(self._history) == 1]; gives the prompt, the prompt
template and the keyword arguments of the main call. *)
Definition user_turn (E : env) (history : ref) (prompt : string)
    (a : generate_args) (reset : bool) : M (string * string * gmap string pyany) :=
  let kwargs := <["reset_context" := PyBool reset]> (generate_kwargs a) in
  user ← alloc (PyDict {[ "role" := "user"; "content" := prompt ]});
  list_append history user;;
  '(prompt, prompt_template) ← format_turn E history prompt a reset;
  mret (prompt, prompt_template, kwargs).

Definition session_turn (E : env) (history : ref) (prompt : string)
    (a : generate_args) : M (string * string * gmap string pyany) :=
  n ← list_len history;
  user_turn E history prompt a (n =? 1).

(** The part of [generate] that sets [output_collector]: a placeholder
list, or the transcript with a new assistant message. *)
Definition prepare_callback (hist : option ref) : M ref :=
  placeholder ← alloc (PyDict {[ "content" := "" ]});
  output_collector ← alloc (PyList [placeholder]);
  match hist with
  | Some history =>
      assistant ← alloc (PyDict {[ "role" := "assistant"; "content" := "" ]});
      list_append history assistant;;
      mret history
  | None => mret output_collector
  end.

(** The main call: [prompt_model_streaming], or [prompt_model]
followed by [return output_collector[-1]["content"]]. *)
Definition main_call (prompt prompt_template : string) (kwargs : gmap string pyany)
    (a : generate_args) (output_collector : ref) : engine_call :=
  {| call_method := if streaming a then prompt_model_streaming else prompt_model;
     call_prompt := prompt; call_prompt_template := prompt_template;
     call_callback := _callback (callback a) output_collector;
     call_kwargs := kwargs |}.

Definition send_request (E : env) (prompt prompt_template : string)
    (kwargs : gmap string pyany) (a : generate_args) (output_collector : ref)
    : M generate_return :=
  let c := main_call prompt prompt_template kwargs a output_collector in
  if streaming a then
    g ← call_prompt_model_streaming c; mret (TokenStream g)
  else
    call_prompt_model E c;;
    msg ← list_getitem output_collector (-1);
    text ← dict_getitem msg "content";
    mret (Completion text).

Definition generate (E : env) (prompt : string) (a : generate_args)
    : M generate_return :=
  hist ← get_history;
  '(prompt, prompt_template, kwargs) ←
    match hist with
    | Some history => session_turn E history prompt a
    | None =>
        mret (prompt, "%1", <["reset_context" := PyBool true]> (generate_kwargs a))
    end;
  output_collector ← prepare_callback hist;
  send_request E prompt prompt_template kwargs a output_collector.

(** [system_prompt] after
    [if system_prompt is None: system_prompt = self.config.get("systemPrompt", "")]. *)
Definition effective_system_prompt (E : env) (system_prompt : option string) : string :=
  match system_prompt with
  | Some s => s
  | None => default "" (config E !! "systemPrompt")
  end.

(** The code of [chat_session] before [yield]. *)
Definition chat_session_enter (E : env) (system_prompt prompt_template : option string)
    : M unit :=
  let system_prompt := effective_system_prompt E system_prompt in
  prompt_template ←
    match prompt_template with
    | Some t => mret t
    | None =>
        match config E !! "promptTemplate" with
        | Some tmpl => mret tmpl
        | None => warn MSG_NO_TEMPLATE;; mret DEFAULT_PROMPT_TEMPLATE
        end
    end;
  if re_search_marker prompt_template then raise (ValueError MSG_LITERAL_MARKER)
  else
    system ← alloc (PyDict {[ "role" := "system"; "content" := system_prompt ]});
    history ← alloc (PyList [system]);
    set_history (Some history);;
    set_template prompt_template.

(** The [finally] clause of [chat_session]. *)
Definition chat_session_exit : M unit :=
  set_history None;; set_template "{0}".

(** How the body of a [with] statement is left. *)
Inductive leave (A : Type) :=
| FallsThrough
| Returns (a : A)
| Raises (e : exn).
Arguments FallsThrough {A}.
Arguments Returns {A} a.
Arguments Raises {A} e.

(** [with self.chat_session(system_prompt, prompt_template): body].
    When entry raises, the body does not run and the exception leaves
    the statement; otherwise the [finally] clause runs however the body
    is left, and the body's way of leaving is passed on. *)
Definition with_chat_session {A} (E : env) (system_prompt prompt_template : option string)
    (body : world -> leave A * world) (w : world) : leave A * world :=
  match chat_session_enter E system_prompt prompt_template w with
  | (Raise e, w1) => (Raises e, w1)
  | (Ok _, w1) =>
      let '(l, w2) := body w1 in
      (l, snd (chat_session_exit w2))
  end.

(** The property [current_chat_session]: [list(self._history)] makes a
    new list object with the same elements. *)
Definition current_chat_session : M (option ref) :=
  hist ← get_history;
  match hist with
  | None => mret None
  | Some history =>
      items ← load_list history;
      copy ← alloc (PyList items);
      mret (Some copy)
  end.

(** ** Notions the properties speak about *)

(** The ten decimal digits. *)
Definition decimal_digits : list ascii := list_ascii_of_string "0123456789".

(** The marker [%1] stands in [s] at a place where no decimal digit
    follows it (so it is the marker itself, not the start of [%10] and
    the like). *)
Definition has_bare_marker (s : string) : Prop :=
  exists pre post,
    s = pre +:+ "%1" +:+ post
    /\ forall c rest, post = String c rest -> ~ In c decimal_digits.

(** Any change made in place to the list object [l]: [append],
    [insert], [pop], [clear], [sort], item or slice assignment. *)
Definition list_mutate (l : ref) (f : list ref -> list ref) : M unit :=
  items ← load_list l; store l (PyList (f items)).

(** Any change made in place to the dict object [d]. *)
Definition dict_mutate (d : ref) (f : gmap string string -> gmap string string) : M unit :=
  m ← load_dict d; store d (PyDict (f m)).

#[global] Instance pyany_eq_dec : EqDecision pyany.
Proof. solve_decision. Defined.

(** A zero-output call: no token is asked for and the callback drops
    whatever comes. *)
Definition is_priming (c : engine_call) : bool :=
  match call_callback c with
  | empty_response_callback =>
      bool_decide (call_kwargs c !! "n_predict" = Some (PyInt 0))
  | _callback _ _ => false
  end.

(** The transcript as the list of its messages, when a session is
    active and the transcript is in the store. *)
Definition transcript (w : world) : option (list (gmap string string)) :=
  match _history w with
  | None => None
  | Some history =>
      match heap w !! history with
      | Some (PyList items) =>
          mapM (fun r => match heap w !! r with
                         | Some (PyDict d) => Some d
                         | _ => None
                         end) items
      | _ => None
      end
  end.

Definition role (m : gmap string string) : option string := m !! "role".

(** [k] user/assistant pairs. *)
Fixpoint turns (k : nat) : list (option string) :=
  match k with
  | O => []
  | S k' => Some "user" :: Some "assistant" :: turns k'
  end.

(** Calls to [generate] one after the other; an exception ends the
    sequence. *)
Fixpoint generate_all (E : env) (requests : list (string * generate_args)) : M unit :=
  match requests with
  | [] => mret tt
  | (prompt, a) :: rest => generate E prompt a;; generate_all E rest
  end.

(** Calls to [generate] one after the other by a caller that catches
    every exception and goes on. *)
Fixpoint generate_each (E : env) (requests : list (string * generate_args))
    (w : world) : world :=
  match requests with
  | [] => w
  | (prompt, a) :: rest => generate_each E rest (snd (generate E prompt a w))
  end.

(** ** Relations between the world before and after a piece of code *)

(** [m] takes the world to one related to it by [R], whatever its
outcome, and its value satisfies [Q] when it returns. *)
Definition keeps {A} (R : relation world) (Q : A -> Prop) (m : M A) : Prop :=
  forall w r w', m w = (r, w') -> R w w' /\ forall a, r = Ok a -> Q a.

(** The engine calls made in between all satisfy [φ]. *)
Definition emits (φ : engine_call -> Prop) (w w' : world) : Prop :=
  exists new, calls w' = calls w ++ new /\ Forall φ new.

(** The attributes of [self] and every list object are as before, and
every dict that existed still exists with the same role. *)
Definition frame (w w' : world) : Prop :=
  _history w' = _history w
  /\ _current_prompt_template w' = _current_prompt_template w
  /\ (forall r items, heap w !! r = Some (PyList items) ->
                      heap w' !! r = Some (PyList items))
  /\ (forall r d, heap w !! r = Some (PyDict d) ->
                  exists d', heap w' !! r = Some (PyDict d') /\ role d' = role d).

(** As [frame], but a list object may have got further elements. *)
Definition grows (w w' : world) : Prop :=
  _history w' = _history w
  /\ _current_prompt_template w' = _current_prompt_template w
  /\ (forall r items, heap w !! r = Some (PyList items) ->
                      exists more, heap w' !! r = Some (PyList (items ++ more)))
  /\ (forall r d, heap w !! r = Some (PyDict d) ->
                  exists d', heap w' !! r = Some (PyDict d') /\ role d' = role d).

(** [frame], and no engine call in between. *)
Definition quiet (w w' : world) : Prop :=
  frame w w' /\ calls w' = calls w.

(** [frame], with engine calls that satisfy [φ]. *)
Definition settles (φ : engine_call -> Prop) (w w' : world) : Prop :=
  frame w w' /\ emits φ w w'.

(** [grows], with engine calls that satisfy [φ]. *)
Definition advances (φ : engine_call -> Prop) (w w' : world) : Prop :=
  grows w w' /\ emits φ w w'.

(** The session is past its first turn: the transcript holds more than
the system message. *)
Definition past_first_turn (w : world) : Prop :=
  exists history items,
    _history w = Some history
    /\ heap w !! history = Some (PyList items)
    /\ (2 <= List.length items)%nat.

(** Every dict of [w] is still there in [w'], with the same role. *)
Definition roles_kept (w w' : world) : Prop :=
  forall r d, heap w !! r = Some (PyDict d) ->
              exists d', heap w' !! r = Some (PyDict d') /\ role d' = role d.

(** The references [items] name, in the store [h], the messages [msgs]. *)
Definition reads (h : list pyobj) (items : list ref) (msgs : list (gmap string string))
    : Prop :=
  Forall2 (fun r m => h !! r = Some (PyDict m)) items msgs.

End Chat.

(* ===================================================================== *)
(** * Concrete servers, engines and sessions                              *)
(* ===================================================================== *)

Module Scenario.
Import Download.

Definition no_files : world := {| fs := ∅; sent := [] |}.

(** The socket is closed during a read: [ChunkedEncodingError] around
    a [ProtocolError] whose second argument is [IncompleteRead(partial, _)]. *)
Definition broken_read (partial : Z) : stream_end :=
  StreamRaises (ChunkedEncodingError [ArgProtocolError [PeOther; PeIncompleteRead partial]]).

(** A server that announces ten bytes and closes the connection before
    the first byte of the body, on every request. *)
Definition stalled_response : response :=
  {| status_code := 200; reason := "OK"; content_length := Some 10;
     content_range := None; iter_content := fun _ => ([], broken_read 0) |}.

Definition stalled_server : env :=
  {| requests_get := fun _ _ _ => inr stalled_response; remove_denied := false |}.

(** A three-byte file. *)
Definition abc : bytes := [x61; x62; x63].

Definition serve (status : Z) (rsn : string) (range : option string)
    (chunks : list bytes) (ending : stream_end) : response :=
  {| status_code := status; reason := rsn; content_length := Some 3;
     content_range := range; iter_content := fun _ => (chunks, ending) |}.

(** The first response carries [first] and ends with [ending]; every
    later request gets [resumed]. *)
Definition two_step_server (first : list bytes) (ending : stream_end)
    (resumed : response) (denied : bool) : env :=
  {| requests_get := fun i _ _ =>
       match i with
       | O => inr (serve 200 "OK" None first ending)
       | S _ => inr resumed
       end;
     remove_denied := denied |}.

(** An embedding engine that answers every call with one vector. *)
Definition one_vector : Embed.EmbedResult :=
  {| Embed.embeddings := [[1; 2; 3]]; Embed.n_prompt_tokens := 4 |}.

Definition embedder : Embed.env :=
  {| Embed.generate_embeddings := fun _ => Ok one_vector |}.

Definition no_warnings : Embed.world := {| Embed.warnings := []; Embed.calls := [] |}.

(** A fragment of [str.format]: in a template made of plain text and
    the fields [{0}] and [{1}], each field is replaced by the argument
    of that number. *)
Fixpoint simple_format (args : list string) (s : string) : string :=
  match s with
  | EmptyString => EmptyString
  | String c rest =>
      match rest with
      | String d (String e rest') =>
          if Ascii.eqb c "{" && Ascii.eqb e "}" && Ascii.eqb d "0" then
            nth 0 args "" +:+ simple_format args rest'
          else if Ascii.eqb c "{" && Ascii.eqb e "}" && Ascii.eqb d "1" then
            nth 1 args "" +:+ simple_format args rest'
          else String c (simple_format args rest)
      | _ => String c (simple_format args rest)
      end
  end.

(** An engine that emits two tokens for every call that asks for
    output, and none for a call with [n_predict = 0]. *)
Definition chatty : list Chat.engine_call -> Chat.engine_call -> list (Z * string) * option exn :=
  fun _ c =>
    if bool_decide (Chat.call_kwargs c !! "n_predict" = Some (Chat.PyInt 0))
    then ([], None)
    else ([(1, "Hel"); (2, "lo")], None).

(** An engine that emits one token and then fails. *)
Definition failing : list Chat.engine_call -> Chat.engine_call -> list (Z * string) * option exn :=
  fun _ _ => ([(1, "Hel")], Some (RuntimeError "engine failure")).

Definition catalog_entry : gmap string string :=
  {[ "systemPrompt" := "Be brief."; "promptTemplate" := "Q: {0} A: " ]}.

Definition model (eng : list Chat.engine_call -> Chat.engine_call -> list (Z * string) * option exn)
    : Chat.env :=
  {| Chat.config := catalog_entry; Chat.format_override := None; Chat.engine := eng;
     Chat.empty_callback := fun _ _ => true;
     Chat.str_format := fun t args => Ok (simple_format args t) |}.

(** A subclass that overrides [_format_chat_prompt_template]: the
    header, then the content of each message. *)
Definition legacy_model : Chat.env :=
  {| Chat.config := catalog_entry;
     Chat.format_override :=
       Some (fun messages header _ =>
               Ok (header +:+ " " +:+
                   foldr (fun m acc => default "" (m !! "content") +:+ acc) "" messages));
     Chat.engine := chatty;
     Chat.empty_callback := fun _ _ => true;
     Chat.str_format := fun t args => Ok (simple_format args t) |}.

(** A [GPT4All] object as [__init__] leaves it. *)
Definition inactive : Chat.world :=
  {| Chat._history := None; Chat._current_prompt_template := "{0}";
     Chat.heap := []; Chat.calls := []; Chat.warnings := [] |}.

(** A [with] body that makes one [generate] call and lets its
    exception, if any, leave the scope. *)
Definition one_turn (E : Chat.env) (prompt : string) (w : Chat.world)
    : Chat.leave Chat.generate_return * Chat.world :=
  match Chat.generate E prompt Chat.default_args w with
  | (Ok r, w') => (Chat.Returns r, w')
  | (Raise e, w') => (Chat.Raises e, w')
  end.

(** The world after a session is entered with the catalog's defaults. *)
Definition entered (E : Chat.env) : Chat.world :=
  snd (Chat.chat_session_enter E None None inactive).

(** The world after one completed turn of such a session. *)
Definition after_one_turn : Chat.world :=
  snd (Chat.generate (model chatty) "Hi" Chat.default_args (entered (model chatty))).

End Scenario.

(* ===================================================================== *)
(** * [GPT4All.list_models], [GPT4All.retrieve_model] and
      [append_extension_if_missing]                                       *)
(* ===================================================================== *)

Module Retrieve.
Import Download.

(** [s.endswith(suffix)] *)
Definition endswith (s suffix : string) : bool :=
  (String.length suffix <=? String.length s)%nat
  && String.eqb (substring (String.length s - String.length suffix)
                   (String.length suffix) s) suffix.

(** [model_name.endswith((".bin", ".gguf"))] decides. *)
Definition append_extension_if_missing (model_name : string) : string :=
  if negb (endswith model_name ".bin" || endswith model_name ".gguf")
  then model_name +:+ ".gguf"
  else model_name.

(** [s[n:]] *)
Fixpoint skip (n : nat) (s : string) : string :=
  match n, s with
  | O, _ => s
  | S n', String _ rest => skip n' rest
  | S _, EmptyString => EmptyString
  end.

(** [s.replace(old, new, 1)]: the leftmost occurrence, if any. *)
Fixpoint replace_first (old new s : string) {struct s} : string :=
  if String.prefix old s then new +:+ skip (String.length old) s
  else match s with
       | EmptyString => EmptyString
       | String c rest => String c (replace_first old new rest)
       end.

(** [tmpl.replace("%1", "{0}", 1).replace("%2", "{1}", 1)] *)
Definition to_python_format (tmpl : string) : string :=
  replace_first "%2" "{1}" (replace_first "%1" "{0}" tmpl).

Abbreviation ConfigType := (gmap string string).

(** The answer to [requests.get("https://gpt4all.io/models/models3.json")]
    as far as [list_models] looks at it; [models_json] is what
    [resp.json()] gives. *)
Record catalog_response := {
  models_status_code : Z;
  models_reason : string;
  models_json : outcome (list ConfigType)
}.

(** The environment: the server of the model files; what the request
    for the catalog does; the string of [DEFAULT_MODEL_DIRECTORY]; and
    whether [os.makedirs] is refused. *)
Record env := {
  net : Download.env;
  models_get : exn + catalog_response;
  DEFAULT_MODEL_DIRECTORY : string;
  makedirs_denied : bool
}.

(** The world: files and download requests, the directories that
    exist, and the number of catalog requests made. *)
Record world := {
  disk : Download.world;
  dirs : gset string;
  catalog_requests : nat
}.

Definition MSG_MAKEDIRS : string := "Failed to create model download directory".

(** The two [FileNotFoundError]s of [retrieve_model]; the path that ends
    their messages is left out. *)
Definition DirectoryNotFound : exn :=
  OtherException "FileNotFoundError: Model directory does not exist".
Definition FileNotFound : exn :=
  OtherException "FileNotFoundError: Model file does not exist".

Definition list_models (E : env) (w : world) : outcome (list ConfigType) * world :=
  let w' := {| disk := disk w; dirs := dirs w;
               catalog_requests := S (catalog_requests w) |} in
  match models_get E with
  | inl e => (Raise e, w')
  | inr resp =>
      if negb (models_status_code resp =? 200) then
        (Raise (ValueError (MSG_REQUEST_FAILED (models_status_code resp) (models_reason resp))),
         w')
      else (models_json resp, w')
  end.

(** The loop [for m in available_models] of [retrieve_model], from the
    empty [config]: the first entry with the filename is converted and
    copied into [config], and the loop is left. *)
Fixpoint find_model (model_filename : string) (available_models : list ConfigType)
    (config : ConfigType) : outcome ConfigType :=
  match available_models with
  | [] => Ok config
  | m :: rest =>
      match m !! "filename" with
      | None => Raise KeyError
      | Some filename =>
          if String.eqb model_filename filename then
            let tmpl := default Chat.DEFAULT_PROMPT_TEMPLATE (m !! "promptTemplate") in
            let m' := <["promptTemplate" := to_python_format tmpl]> m in
            Ok (m' ∪ config)
          else find_model model_filename rest config
      end
  end.

(** [Path.exists()], for a directory or a file. *)
Definition path_exists (p : string) (w : world) : bool :=
  bool_decide (p ∈ dirs w) || bool_decide (is_Some (fs (disk w) !! p)).

(** [os.makedirs(DEFAULT_MODEL_DIRECTORY, exist_ok=True)] inside its
    [try]: an [OSError] (the system refuses, or a file has that name)
    becomes the [RuntimeError]. *)
Definition make_default_directory (E : env) (w : world) : outcome string * world :=
  if makedirs_denied E
     || bool_decide (is_Some (fs (disk w) !! DEFAULT_MODEL_DIRECTORY E)) then
    (Raise (RuntimeError MSG_MAKEDIRS), w)
  else (Ok (DEFAULT_MODEL_DIRECTORY E),
        {| disk := disk w; dirs := {[DEFAULT_MODEL_DIRECTORY E]} ∪ dirs w;
           catalog_requests := catalog_requests w |}).

(** [retrieve_model(model_name, model_path, allow_download, verbose)].
    Paths are strings already normalised; [None] stands for a download
    that has not left after [fuel] rounds. *)
Definition retrieve_model (E : env) (fuel : nat) (model_name : string)
    (model_path : option string) (allow_download verbose : bool) (w : world)
    : option (outcome ConfigType * world) :=
  let model_filename := append_extension_if_missing model_name in
  let fetched : outcome ConfigType * world :=
    if allow_download then
      match list_models E w with
      | (Ok available_models, w1) => (find_model model_filename available_models ∅, w1)
      | (Raise e, w1) => (Raise e, w1)
      end
    else (Ok ∅, w) in
  match fetched with
  | (Raise e, w1) => Some (Raise e, w1)
  | (Ok config, w1) =>
      let located : outcome string * world :=
        match model_path with
        | None => make_default_directory E w1
        | Some given => (Ok given, w1)
        end in
      match located with
      | (Raise e, w2) => Some (Raise e, w2)
      | (Ok model_path, w2) =>
          if negb (path_exists model_path w2) then Some (Raise DirectoryNotFound, w2)
          else
            let model_dest := path_join model_path model_filename in
            if path_exists model_dest w2 then
              Some (Ok (<["path" := model_dest]> config), w2)
            else if allow_download then
              match download_model (net E) fuel model_filename model_path verbose
                      (config !! "url") (disk w2) with
              | None => None
              | Some (Ok path, d) =>
                  Some (Ok (<["path" := path]> config),
                        {| disk := d; dirs := dirs w2;
                           catalog_requests := catalog_requests w2 |})
              | Some (Raise e, d) =>
                  Some (Raise e,
                        {| disk := d; dirs := dirs w2;
                           catalog_requests := catalog_requests w2 |})
              end
            else Some (Raise FileNotFound, w2)
      end
  end.

(** ** Notions the properties speak about *)

(** The character [%] does not occur in [s]. *)
Fixpoint percent_free (s : string) : Prop :=
  match s with
  | EmptyString => True
  | String c rest => c <> "%"%char /\ percent_free rest
  end.

End Retrieve.

(* ===================================================================== *)
(** * [GPT4All._format_chat_prompt_template]                              *)
(* ===================================================================== *)

Module Formatter.
Import Chat.

(** The body of the loop [for message in messages], from the prompt
    built so far: the two [if]s on [message["role"]], one after the
    other.  A message without the key raises [KeyError]. *)
Definition format_message (E : env) (_current_prompt_template : string)
    (message : gmap string string) (full_prompt : string) : outcome string :=
  match message !! "role" with
  | None => Raise KeyError
  | Some r =>
      let after_user :=
        if String.eqb r "user" then
          match message !! "content" with
          | None => Raise KeyError
          | Some content =>
              match str_format E _current_prompt_template [content] with
              | Ok user_message => Ok (full_prompt +:+ user_message)
              | Raise e => Raise e
              end
          end
        else Ok full_prompt in
      match after_user with
      | Raise e => Raise e
      | Ok full_prompt =>
          if String.eqb r "assistant" then
            match message !! "content" with
            | None => Raise KeyError
            | Some content => Ok (full_prompt +:+ (content +:+ nl))
            end
          else Ok full_prompt
      end
  end.

Fixpoint format_messages (E : env) (_current_prompt_template : string)
    (messages : list (gmap string string)) (full_prompt : string) : outcome string :=
  match messages with
  | [] => Ok full_prompt
  | message :: rest =>
      match format_message E _current_prompt_template message full_prompt with
      | Ok full_prompt => format_messages E _current_prompt_template rest full_prompt
      | Raise e => Raise e
      end
  end.

(** [self._format_chat_prompt_template(messages, default_prompt_header,
    default_prompt_footer)], with the template of the object at the
    time of the call. *)
Definition _format_chat_prompt_template (E : env) (_current_prompt_template : string)
    (messages : list (gmap string string))
    (default_prompt_header default_prompt_footer : string) : outcome string :=
  let full_prompt :=
    if negb (String.eqb default_prompt_header "")
    then default_prompt_header +:+ (nl +:+ nl) else "" in
  match format_messages E _current_prompt_template messages full_prompt with
  | Raise e => Raise e
  | Ok full_prompt =>
      Ok (full_prompt +:+
          (if negb (String.eqb default_prompt_footer "")
           then (nl +:+ nl) +:+ default_prompt_footer else ""))
  end.

End Formatter.

(* ===================================================================== *)
(** * What the engine hands to the callback                               *)
(* ===================================================================== *)

Module Delivery.
Import Chat.

(** The responses handed to the callback before the engine ceases: all
    up to the first one for which the callback returns a false value,
    that one included. *)
Fixpoint delivered (callback : ResponseCallbackType) (tokens : list (Z * string))
    : list string :=
  match tokens with
  | [] => []
  | (token_id, response) :: rest =>
      response :: (if callback token_id response then delivered callback rest else [])
  end.

(** The callback returns a true value for every token. *)
Definition accepts_all (callback : ResponseCallbackType) (tokens : list (Z * string)) : bool :=
  forallb (fun '(token_id, response) => callback token_id response) tokens.

(** The pieces of text one after the other. *)
Definition joined (pieces : list string) : string := foldr String.append "" pieces.

(** The heap, the transcript reference and the template are the same. *)
Definition same_store (w w' : world) : Prop :=
  heap w' = heap w
  /\ _history w' = _history w
  /\ _current_prompt_template w' = _current_prompt_template w.

End Delivery.

(* ===================================================================== *)
(** * Further servers and sessions                                        *)
(* ===================================================================== *)

Module MoreScenarios.
Import Scenario.

(** A response that declares no length and ends cleanly after [chunks]. *)
Definition unsized (chunks : list bytes) : Download.response :=
  {| Download.status_code := 200; Download.reason := "OK";
     Download.content_length := None; Download.content_range := None;
     Download.iter_content := fun _ => (chunks, Download.EndOfStream) |}.

(** A server that gives [resp] to every request. *)
Definition constant_server (resp : Download.response) : Download.env :=
  {| Download.requests_get := fun _ _ _ => inr resp; Download.remove_denied := false |}.

(** A catalog answer with status 200 that lists [entries]. *)
Definition catalog (entries : list (gmap string string)) : Retrieve.catalog_response :=
  {| Retrieve.models_status_code := 200; Retrieve.models_reason := "OK";
     Retrieve.models_json := Ok entries |}.

(** Two catalog entries; the second has a Qt-style template, a system
    prompt and a url of its own. *)
Definition falcon : gmap string string := {[ "filename" := "falcon.gguf" ]}.

Definition orca : gmap string string :=
  {[ "filename" := "orca.gguf"; "promptTemplate" := "### User: %1 ### Response: %2";
     "systemPrompt" := "Be brief."; "url" := "https://example.org/orca.gguf" ]}.

(** The catalog is reachable, and every file request is answered with
    one byte. *)
Definition online : Retrieve.env :=
  {| Retrieve.net := constant_server (unsized [[x61]]);
     Retrieve.models_get := inr (catalog [falcon; orca]);
     Retrieve.DEFAULT_MODEL_DIRECTORY := "/home/u/.cache/gpt4all";
     Retrieve.makedirs_denied := false |}.

(** No server can be reached. *)
Definition unreachable : Retrieve.env :=
  {| Retrieve.net :=
       {| Download.requests_get := fun _ _ _ => inl (OtherException "ConnectionError");
          Download.remove_denied := false |};
     Retrieve.models_get := inl (OtherException "ConnectionError");
     Retrieve.DEFAULT_MODEL_DIRECTORY := "/home/u/.cache/gpt4all";
     Retrieve.makedirs_denied := false |}.

(** The directory [/models] with the given files, before any request. *)
Definition models_dir (files : gmap string bytes) : Retrieve.world :=
  {| Retrieve.disk := {| Download.fs := files; Download.sent := [] |};
     Retrieve.dirs := {[ "/models" ]};
     Retrieve.catalog_requests := 0 |}.

(** A [GPT4All] object whose [config] is [cfg], as [__init__] takes it
    from [retrieve_model]. *)
Definition loaded (cfg : gmap string string) : Chat.env :=
  {| Chat.config := cfg; Chat.format_override := None; Chat.engine := chatty;
     Chat.empty_callback := fun _ _ => true;
     Chat.str_format := fun t args => Ok (simple_format args t) |}.

End MoreScenarios.

(* ===================================================================== *)
(** * Properties of [download_model]                                      *)
(* ===================================================================== *)

Section DownloadFacts.
Import Download Scenario.

Lemma write_chunks_concat (chunks : list bytes) (p : progress) :
  write_chunks p chunks
  = {| file := file p ++ concat chunks;
       progress_bar_n := progress_bar_n p + len (concat chunks) |}.
Proof.
  revert p. induction chunks as [|c cs IH]; intros p; cbn.
  - destruct p; cbn. rewrite app_nil_r. f_equal. unfold len; cbn. lia.
  - unfold write_chunks in IH. rewrite IH. cbn. f_equal.
    + by rewrite app_assoc.
    + unfold len. rewrite !length_app. lia.
Qed.

(** Every response [make_request] hands back was given by the server. *)
Lemma make_request_from_server E url offset w resp w' :
  make_request E url offset w = (Ok resp, w') ->
  requests_get E (List.length (sent w)) url (range_headers offset) = inr resp.
Proof.
  unfold make_request. intros H.
  destruct (requests_get E _ url _) as [e|r]; [by inversion H|].
  repeat case_match; inversion H; by subst.
Qed.

Lemma stalled_loop_runs_on url total fuel p w :
  progress_bar_n p = 0 ->
  download_loop stalled_server url total fuel stalled_response p w = None.
Proof.
  revert p w. induction fuel as [|fuel IH]; intros p w Hp; [done|].
  cbn. rewrite Hp. cbn. apply IH. done.
Qed.

(** C1 (the code at the failing input).  Against a server that announces
    ten bytes and breaks every read before the first byte, no number of
    rounds suffices: [download_model] neither returns nor raises, so
    the no-progress guard is never reached. *)
Theorem download_model_retries_forever (fuel : nat) :
  download_model stalled_server fuel "m.gguf" "/models" true None no_files = None.
Proof.
  unfold download_model. cbn. by rewrite stalled_loop_runs_on.
Qed.

(** The loop and [make_request] do not look at [remove_denied]. *)
Lemma make_request_same_server E E' url offset w :
  requests_get E' = requests_get E ->
  make_request E' url offset w = make_request E url offset w.
Proof. intros H. unfold make_request. by rewrite H. Qed.

Lemma download_loop_same_server E E' url total fuel resp p w :
  requests_get E' = requests_get E ->
  download_loop E' url total fuel resp p w = download_loop E url total fuel resp p w.
Proof.
  intros H. revert resp p w. induction fuel as [|fuel IH]; intros resp p w; [done|].
  cbn. destruct (iter_content resp block_size) as [chunks ending].
  rewrite !(make_request_same_server E E') by done.
  destruct ending as [|[]]; repeat case_match; try done; simplify_eq; apply IH.
Qed.

(** C7.  When [download_model] raises [e] after the first request went
    through (so the failure arose inside the [try]), [e] is the error
    the download loop raised; the destination file is gone once
    [os.remove] succeeds, and stays with the bytes written so far when
    [os.remove] is refused; and whether it is refused or not the call
    raises that same [e], never the error of the removal. *)
Theorem partial_file_removed_on_failure
    (E : env) (fuel : nat) (model_filename model_path : string) (verbose : bool)
    (url : option string) (w w' w1 : world) (resp : response) (e : exn) :
  make_request E (default (DEFAULT_URL model_filename) url) None w = (Ok resp, w1) ->
  download_model E fuel model_filename model_path verbose url w = Some (Raise e, w') ->
  (exists p w2,
      download_loop E (default (DEFAULT_URL model_filename) url)
        (default 0 (content_length resp)) fuel resp
        {| file := []; progress_bar_n := 0 |} w1 = Some (Raise e, p, w2)
      /\ (remove_denied E = true ->
          fs w' !! path_join model_path model_filename = Some (file p)))
  /\ (remove_denied E = false -> fs w' !! path_join model_path model_filename = None)
  /\ (forall denied : bool, exists w'',
        download_model {| requests_get := requests_get E; remove_denied := denied |}
          fuel model_filename model_path verbose url w = Some (Raise e, w'')).
Proof.
  intros Hreq Hdl. unfold download_model in Hdl. rewrite Hreq in Hdl.
  destruct (download_loop E _ _ fuel resp _ w1) as [[[[[]|e0] p] w2]|] eqn:Hloop;
    try done.
  injection Hdl as -> <-. split; [|split].
  - exists p, w2. split; [done|]. intros Hrm. cbn. unfold cleanup, os_remove.
    rewrite lookup_insert_eq, Hrm. by rewrite lookup_insert_eq.
  - intros Hrm. cbn. unfold cleanup, os_remove.
    rewrite lookup_insert_eq, Hrm. by rewrite lookup_delete_eq.
  - intros denied. unfold download_model.
    rewrite (make_request_same_server E) by done. rewrite Hreq.
    rewrite (download_loop_same_server E) by done. rewrite Hloop. by eauto.
Qed.

Lemma partial_file_removed_on_failure_witness :
  (exists w',
      download_model
        (two_step_server [[x61]] EndOfStream (serve 200 "OK" None [] EndOfStream) false)
        2 "m.gguf" "/models" true None no_files = Some (Raise RangeUnsupportedError, w')
      /\ fs w' !! path_join "/models" "m.gguf" = None)
  /\ (exists w',
         download_model
           (two_step_server [[x61]] EndOfStream (serve 200 "OK" None [] EndOfStream) true)
           2 "m.gguf" "/models" true None no_files = Some (Raise RangeUnsupportedError, w')
         /\ is_Some (fs w' !! path_join "/models" "m.gguf")).
Proof.
  split.
  - eexists. split; [reflexivity|].
    eapply (partial_file_removed_on_failure
              (two_step_server [[x61]] EndOfStream (serve 200 "OK" None [] EndOfStream) false)
              2 "m.gguf" "/models" true None no_files); reflexivity.
  - eexists. split; [reflexivity|].
    destruct (partial_file_removed_on_failure
                (two_step_server [[x61]] EndOfStream (serve 200 "OK" None [] EndOfStream) true)
                2 "m.gguf" "/models" true None no_files _ _ _ RangeUnsupportedError
                eq_refl eq_refl) as ((p & w2 & _ & Hkept) & _ & _).
    rewrite Hkept; [by eexists|reflexivity].
Defined.

(** ** Resuming after one disconnect *)

Lemma range_headers_pos (k : nat) :
  (0 < k)%nat -> range_headers (Some (Z.of_nat k)) = range_from k.
Proof.
  intros Hk. unfold range_headers, range_from.
  destruct (Z.eqb_spec (Z.of_nat k) 0); [lia|done].
Qed.

(** The first request, answered with status 200 or 206. *)
Lemma make_request_first E url w r :
  requests_get E (List.length (sent w)) url [] = inr r ->
  status_code r = 200 \/ status_code r = 206 ->
  make_request E url None w = (Ok r, {| fs := fs w; sent := sent w ++ [[]] |}).
Proof. intros Hget [Hst|Hst]; unfold make_request; cbn; by rewrite Hget, Hst. Qed.

(** A request to resume at byte [k > 0], by the status and the
    [Content-Range] header of the answer. *)
Lemma make_request_resume E url w r (k : nat) :
  (0 < k)%nat ->
  requests_get E (List.length (sent w)) url (range_from k) = inr r ->
  make_request E url (Some (Z.of_nat k)) w
  = (if negb ((status_code r =? 200) || (status_code r =? 206)) then
       Raise (RemoteError (status_code r) (reason r))
     else if negb (status_code r =? 206)
             || negb (contains (str (Z.of_nat k)) (default "" (content_range r))) then
       Raise RangeUnsupportedError
     else Ok r,
     {| fs := fs w; sent := sent w ++ [range_from k] |}).
Proof.
  intros Hk Hget. unfold make_request. rewrite range_headers_pos, Hget by done.
  unfold truthy, offset_not_in_content_range.
  assert ((Z.of_nat k =? 0) = false) as -> by lia. cbn [negb andb].
  by repeat case_match.
Qed.

(** One round over a body that ends cleanly with the file complete. *)
Lemma download_loop_last_round E url total fuel resp p w body :
  serves resp body ->
  progress_bar_n p + len body = total ->
  download_loop E url total (S fuel) resp p w
  = Some (Ok tt, {| file := file p ++ body; progress_bar_n := total |}, w).
Proof.
  intros (chunks & Hit & Hbody) Hn. cbn. rewrite Hit, write_chunks_concat, Hbody. cbn.
  rewrite Hn, Z.ltb_irrefl, andb_false_r. done.
Qed.

(** A download that is not interrupted writes the body as served. *)
Lemma uninterrupted_download E fuel model_filename model_path verbose url w r data :
  requests_get E (List.length (sent w)) (default (DEFAULT_URL model_filename) url) [] = inr r ->
  status_code r = 200 \/ status_code r = 206 ->
  content_length r = Some (len data) ->
  serves r data ->
  exists w0,
    download_model E (S fuel) model_filename model_path verbose url w
    = Some (Ok (path_join model_path model_filename), w0)
    /\ fs w0 !! path_join model_path model_filename = Some data.
Proof.
  intros Hget Hst Hcl Hserv. unfold download_model.
  rewrite (make_request_first _ _ _ r), Hcl by done.
  change (default 0 (Some (len data))) with (len data).
  rewrite (download_loop_last_round _ _ _ _ _ _ _ data) by done.
  eexists; split; [done|]. cbn. by rewrite lookup_insert_eq.
Qed.

(** The first round of a download cut after [k] bytes, [0 < k < N]:
    the loop asks again, from byte [k]. *)
Lemma download_loop_cut_round E url fuel r0 w data (k : nat) :
  (0 < k < List.length data)%nat ->
  disconnects_after r0 (take k data) ->
  download_loop E url (len data) (S fuel) r0 {| file := []; progress_bar_n := 0 |} w
  = match make_request E url (Some (Z.of_nat k)) w with
    | (Ok resp', w') =>
        download_loop E url (len data) fuel resp'
          {| file := take k data; progress_bar_n := Z.of_nat k |} w'
    | (Raise e, w') =>
        Some (Raise e, {| file := take k data; progress_bar_n := Z.of_nat k |}, w')
    end.
Proof.
  intros Hk (chunks & ending & Hit & Hpre & Hend).
  assert (Hlen : len (take k data) = Z.of_nat k).
  { unfold len. rewrite length_take. lia. }
  cbn [download_loop]. rewrite Hit, write_chunks_concat, Hpre. cbn [file progress_bar_n app].
  rewrite Hlen, Z.add_0_l.
  destruct Hend as [->|(args & partial & -> & Hir & Hpart)].
  - assert ((len data =? 0) = false) as -> by (unfold len; lia).
    assert ((Z.of_nat k <? len data) = true) as -> by (unfold len; lia).
    assert ((Z.of_nat k =? 0) = false) as -> by lia.
    cbn [negb andb]. by repeat case_match.
  - rewrite Hir. rewrite Hlen in Hpart.
    assert ((Z.of_nat k <=? partial) = true) as -> by lia.
    by repeat case_match.
Qed.

(** Resuming as the code does it.  A download of declared size
    [N = len data] whose first response delivers [k] bytes, [0 < k < N],
    and is then cut, sends a second GET with the header
    [Range: bytes=k-]; then
    - if the answer has status 206 and a [Content-Range] in which the
      digits of [k] occur, and serves the bytes from [k] on, the call
      returns with the destination file equal to [data], the file an
      uninterrupted download writes, after exactly those two requests;
    - if the answer has status 200, or status 206 with a [Content-Range]
      in which the digits of [k] do not occur, the call fails with
      [RangeUnsupportedError];
    - if the answer has any other status, the call fails with
      [RemoteError] for that status. *)
Theorem resume_after_single_disconnect
    (E : env) (fuel : nat) (model_filename model_path : string) (verbose : bool)
    (url : option string) (w : world) (data : bytes) (k : nat) (r0 r1 : response) :
  let url' := default (DEFAULT_URL model_filename) url in
  let path := path_join model_path model_filename in
  let i := List.length (sent w) in
  (0 < k < List.length data)%nat ->
  requests_get E i url' [] = inr r0 ->
  status_code r0 = 200 \/ status_code r0 = 206 ->
  content_length r0 = Some (len data) ->
  disconnects_after r0 (take k data) ->
  requests_get E (S i) url' (range_from k) = inr r1 ->
  (status_code r1 = 206 ->
   contains (str (Z.of_nat k)) (default "" (content_range r1)) = true ->
   serves r1 (drop k data) ->
   exists w',
     download_model E (S (S fuel)) model_filename model_path verbose url w
     = Some (Ok path, w')
     /\ fs w' !! path = Some data
     /\ sent w' = sent w ++ [[]; range_from k]
     /\ forall E0 r,
          requests_get E0 i url' [] = inr r ->
          status_code r = 200 \/ status_code r = 206 ->
          content_length r = Some (len data) -> serves r data ->
          exists w0,
            download_model E0 (S (S fuel)) model_filename model_path verbose url w
            = Some (Ok path, w0)
            /\ fs w0 !! path = fs w' !! path)
  /\ (status_code r1 = 200
      \/ (status_code r1 = 206
          /\ contains (str (Z.of_nat k)) (default "" (content_range r1)) = false) ->
      exists w',
        download_model E (S fuel) model_filename model_path verbose url w
        = Some (Raise RangeUnsupportedError, w')
        /\ sent w' = sent w ++ [[]; range_from k])
  /\ (status_code r1 <> 200 -> status_code r1 <> 206 ->
      exists w',
        download_model E (S fuel) model_filename model_path verbose url w
        = Some (Raise (RemoteError (status_code r1) (reason r1)), w')
        /\ sent w' = sent w ++ [[]; range_from k]).
Proof.
  intros url' path i Hk Hget0 Hst0 Hcl0 Hcut Hget1.
  assert (Hsecond : forall f,
    download_model E (S f) model_filename model_path verbose url w
    = match make_request E url' (Some (Z.of_nat k))
              {| fs := fs w; sent := sent w ++ [[]] |} with
      | (Ok resp', w1) =>
          match download_loop E url' (len data) f resp'
                  {| file := take k data; progress_bar_n := Z.of_nat k |} w1 with
          | None => None
          | Some (Ok _, p, w2) =>
              Some (Ok path, {| fs := <[path := file p]> (fs w2); sent := sent w2 |})
          | Some (Raise e, p, w2) =>
              Some (Raise e,
                    {| fs := cleanup E path (<[path := file p]> (fs w2));
                       sent := sent w2 |})
          end
      | (Raise e, w1) =>
          Some (Raise e,
                {| fs := cleanup E path (<[path := take k data]> (fs w1));
                   sent := sent w1 |})
      end).
  { intros f. unfold download_model. fold url' path.
    rewrite (make_request_first _ _ _ r0), Hcl0 by done.
    change (default 0 (Some (len data))) with (len data).
    rewrite (download_loop_cut_round _ _ _ _ _ _ k) by done.
    by destruct (make_request E url' _ _) as [[]]. }
  assert (Hres := make_request_resume E url' {| fs := fs w; sent := sent w ++ [[]] |} r1 k).
  cbn [sent fs] in Hres. rewrite length_app, Nat.add_1_r in Hres.
  specialize (Hres (proj1 Hk) Hget1).
  split; [|split].
  - intros Hst Hcr Hserv. rewrite Hsecond, Hres, Hst, Hcr. cbn [Z.eqb Pos.eqb negb orb].
    rewrite (download_loop_last_round _ _ _ _ _ _ _ (drop k data)); first last.
    { cbn. unfold len. rewrite length_drop. lia. }
    { done. }
    cbn [file fs sent]. rewrite take_drop.
    eexists. split; [done|]. cbn [fs sent]. rewrite lookup_insert_eq.
    split; [done|]. split; [by rewrite <- app_assoc|].
    intros E0 r Hg Hs Hc Hsv.
    destruct (uninterrupted_download E0 (S fuel) model_filename model_path verbose url
                w r data Hg Hs Hc Hsv) as (w0 & Hdl & Hfile).
    exists w0. split; [exact Hdl | exact Hfile].
  - intros Hcase. rewrite Hsecond, Hres.
    destruct Hcase as [->|[-> ->]]; cbn [Z.eqb Pos.eqb negb orb];
      (eexists; split; [done|]; cbn [sent]; by rewrite <- app_assoc).
  - intros H200 H206. rewrite Hsecond, Hres.
    assert ((status_code r1 =? 200) = false) as -> by lia.
    assert ((status_code r1 =? 206) = false) as -> by lia.
    cbn [negb orb]. eexists; split; [done|]. cbn [sent]. by rewrite <- app_assoc.
Qed.

Lemma resume_after_single_disconnect_witness :
  (exists w',
      download_model
        (two_step_server [[x61]] EndOfStream
           (serve 206 "Partial Content" (Some "bytes 1-2/3") [[x62]; [x63]] EndOfStream) false)
        2 "m.gguf" "/models" true None no_files
      = Some (Ok (path_join "/models" "m.gguf"), w')
      /\ fs w' !! path_join "/models" "m.gguf" = Some abc
      /\ sent w' = [[]; range_from 1])
  /\ (exists w',
         download_model
           (two_step_server [[x61]] (broken_read 1)
              (serve 206 "Partial Content" (Some "bytes 0-2/3") [abc] EndOfStream) false)
           2 "m.gguf" "/models" true None no_files
         = Some (Raise RangeUnsupportedError, w'))
  /\ (exists w',
         download_model
           (two_step_server [[x61]] EndOfStream
              (serve 404 "Not Found" None [] EndOfStream) false)
           2 "m.gguf" "/models" true None no_files
         = Some (Raise (RemoteError 404 "Not Found"), w')).
Proof.
  split; [|split].
  - destruct (resume_after_single_disconnect
                (two_step_server [[x61]] EndOfStream
                   (serve 206 "Partial Content" (Some "bytes 1-2/3") [[x62]; [x63]] EndOfStream)
                   false)
                0 "m.gguf" "/models" true None no_files abc 1
                (serve 200 "OK" None [[x61]] EndOfStream)
                (serve 206 "Partial Content" (Some "bytes 1-2/3") [[x62]; [x63]] EndOfStream))
      as (Hok & _ & _).
    + unfold abc; cbn; lia.
    + reflexivity.
    + by left.
    + reflexivity.
    + exists [[x61]], EndOfStream. split; [reflexivity|]. split; [reflexivity|]. by left.
    + reflexivity.
    + destruct Hok as (w' & Hdl & Hfile & Hsent & _).
      * reflexivity.
      * reflexivity.
      * exists [[x62]; [x63]]. split; reflexivity.
      * exists w'. split; [exact Hdl|]. split; [exact Hfile | exact Hsent].
  - destruct (resume_after_single_disconnect
                (two_step_server [[x61]] (broken_read 1)
                   (serve 206 "Partial Content" (Some "bytes 0-2/3") [abc] EndOfStream) false)
                1 "m.gguf" "/models" true None no_files abc 1
                (serve 200 "OK" None [[x61]] (broken_read 1))
                (serve 206 "Partial Content" (Some "bytes 0-2/3") [abc] EndOfStream))
      as (_ & Hrange & _).
    + unfold abc; cbn; lia.
    + reflexivity.
    + by left.
    + reflexivity.
    + exists [[x61]], (broken_read 1). split; [reflexivity|]. split; [reflexivity|].
      right. eexists _, 1. split; [reflexivity|]. split; [reflexivity|].
      unfold len, abc; cbn; lia.
    + reflexivity.
    + destruct Hrange as (w' & Hdl & _).
      * right. split; reflexivity.
      * exists w'. exact Hdl.
  - destruct (resume_after_single_disconnect
                (two_step_server [[x61]] EndOfStream
                   (serve 404 "Not Found" None [] EndOfStream) false)
                1 "m.gguf" "/models" true None no_files abc 1
                (serve 200 "OK" None [[x61]] EndOfStream)
                (serve 404 "Not Found" None [] EndOfStream))
      as (_ & _ & Hremote).
    + unfold abc; cbn; lia.
    + reflexivity.
    + by left.
    + reflexivity.
    + exists [[x61]], EndOfStream. split; [reflexivity|]. split; [reflexivity|]. by left.
    + reflexivity.
    + destruct Hremote as (w' & Hdl & _).
      * cbn; lia.
      * cbn; lia.
      * exists w'. exact Hdl.
Defined.

(** Offset zero and other statuses.  On a three-byte file:
    - cut after byte [k = 0] by an early end of the stream, the call
      sends no second GET and fails with [StalledDownloadError];
    - cut after byte [k = 0] by a broken read, the second GET carries
      no [Range] header at all ([if offset:] takes 0 for no offset);
    - cut after byte [k = 1] and answered with status 503 on resume,
      the call fails with the request-failed [ValueError], which is
      not [RangeUnsupportedError]. *)
Lemma resume_edge_cases :
  (0 < List.length abc)%nat
  /\ disconnects_after (serve 200 "OK" None [] EndOfStream) (take 0 abc)
  /\ (exists w',
         download_model
           (two_step_server [] EndOfStream
              (serve 206 "Partial Content" (Some "bytes 0-2/3") [abc] EndOfStream) false)
           2 "m.gguf" "/models" true None no_files
         = Some (Raise StalledDownloadError, w')
         /\ sent w' = [[]]
         /\ fs w' !! path_join "/models" "m.gguf" = None)
  /\ disconnects_after (serve 200 "OK" None [] (broken_read 0)) (take 0 abc)
  /\ (exists w',
         download_model
           (two_step_server [] (broken_read 0)
              (serve 200 "OK" None [abc] EndOfStream) false)
           2 "m.gguf" "/models" true None no_files
         = Some (Ok (path_join "/models" "m.gguf"), w')
         /\ sent w' = [[]; []])
  /\ (exists w',
         download_model
           (two_step_server [[x61]] EndOfStream
              (serve 503 "Service Unavailable" None [] EndOfStream) false)
           2 "m.gguf" "/models" true None no_files
         = Some (Raise (ValueError "Request failed: HTTP 503 Service Unavailable"), w')
         /\ sent w' = [[]; range_from 1])
  /\ ValueError "Request failed: HTTP 503 Service Unavailable" <> RangeUnsupportedError.
Proof.
  split; [unfold abc; cbn; lia|].
  split; [exists [], EndOfStream; split; [reflexivity|]; split; [reflexivity|]; by left|].
  split; [eexists; split; [reflexivity|]; split; reflexivity|].
  split.
  { exists [], (broken_read 0). split; [reflexivity|]. split; [reflexivity|].
    right. eexists _, 0. split; [reflexivity|]. split; [reflexivity|].
    unfold len, abc; cbn; lia. }
  split; [eexists; split; reflexivity|].
  split; [eexists; split; reflexivity|].
  discriminate.
Qed.

(** ** The test of the [Content-Range] header *)

(** One round over a body that ends cleanly with at least the declared
    number of bytes in the file. *)
Lemma download_loop_final_round E url total fuel resp p w body :
  serves resp body ->
  total <= progress_bar_n p + len body ->
  download_loop E url total (S fuel) resp p w
  = Some (Ok tt, {| file := file p ++ body;
                    progress_bar_n := progress_bar_n p + len body |}, w).
Proof.
  intros (chunks & Hit & Hbody) Hn. cbn. rewrite Hit, write_chunks_concat, Hbody. cbn.
  assert ((progress_bar_n p + len body <? total) = false) as -> by lia.
  by rewrite andb_false_r.
Qed.

(** The resumed response is accepted as soon as it has status 206 and
    the digits of [k] occur somewhere in its [Content-Range]: what it
    serves is appended to the [k] bytes of the file, whatever it is. *)
Lemma resumed_body_is_appended
    (E : env) (fuel : nat) (model_filename model_path : string) (verbose : bool)
    (url : option string) (w : world) (data body : bytes) (k : nat) (r0 r1 : response) :
  let url' := default (DEFAULT_URL model_filename) url in
  let path := path_join model_path model_filename in
  let i := List.length (sent w) in
  (0 < k < List.length data)%nat ->
  requests_get E i url' [] = inr r0 ->
  status_code r0 = 200 \/ status_code r0 = 206 ->
  content_length r0 = Some (len data) ->
  disconnects_after r0 (take k data) ->
  requests_get E (S i) url' (range_from k) = inr r1 ->
  status_code r1 = 206 ->
  contains (str (Z.of_nat k)) (default "" (content_range r1)) = true ->
  serves r1 body ->
  len data <= Z.of_nat k + len body ->
  exists w',
    download_model E (S (S fuel)) model_filename model_path verbose url w
    = Some (Ok path, w')
    /\ fs w' !! path = Some (take k data ++ body)
    /\ sent w' = sent w ++ [[]; range_from k].
Proof.
  intros url' path i Hk Hget0 Hst0 Hcl0 Hcut Hget1 Hst1 Hcr Hserv Hlen.
  unfold download_model. fold url' path.
  rewrite (make_request_first _ _ _ r0), Hcl0 by done.
  change (default 0 (Some (len data))) with (len data).
  rewrite (download_loop_cut_round _ _ _ _ _ _ k) by done.
  assert (Hres := make_request_resume E url' {| fs := fs w; sent := sent w ++ [[]] |} r1 k).
  cbn [sent fs] in Hres. rewrite length_app, Nat.add_1_r in Hres.
  rewrite (Hres (proj1 Hk) Hget1), Hst1, Hcr. cbn [Z.eqb Pos.eqb negb orb].
  rewrite (download_loop_final_round _ _ _ _ _ _ _ body) by done.
  eexists. split; [done|]. cbn [fs sent file]. rewrite lookup_insert_eq.
  split; [done|]. by rewrite <- app_assoc.
Qed.

(** C2 (the code at the failing input).  A file of three bytes; the
    first response delivers two of them and the read breaks, so the
    second GET asks for [Range: bytes=2-].  The resumed response has
    status 206 and the header [Content-Range: bytes 0-2/3], a range that
    starts at byte 0 and not at byte 2, and it serves the file from its
    first byte.  The digit 2 occurs in the header, so the test of
    [make_request] lets the response through: for every number of rounds
    from two on, [download_model] returns after those two requests with
    a destination file of five bytes, where the same server, not cut,
    gives the three bytes of the file.  [RangeUnsupportedError] is not
    raised. *)
Theorem resume_accepts_unmatched_range (fuel : nat) :
  let resumed := serve 206 "Partial Content" (Some "bytes 0-2/3") [abc] EndOfStream in
  disconnects_after (serve 200 "OK" None [[x61; x62]] (broken_read 2)) (take 2 abc)
  /\ String.prefix "bytes 2-" "bytes 0-2/3" = false
  /\ (exists w',
        download_model (two_step_server [[x61; x62]] (broken_read 2) resumed false)
          (S (S fuel)) "m.gguf" "/models" true None no_files
        = Some (Ok (path_join "/models" "m.gguf"), w')
        /\ sent w' = [[]; range_from 2]
        /\ fs w' !! path_join "/models" "m.gguf" = Some [x61; x62; x61; x62; x63])
  /\ (exists w0,
        download_model (two_step_server [abc] EndOfStream resumed false)
          (S (S fuel)) "m.gguf" "/models" true None no_files
        = Some (Ok (path_join "/models" "m.gguf"), w0)
        /\ sent w0 = [[]]
        /\ fs w0 !! path_join "/models" "m.gguf" = Some abc).
Proof.
  intros resumed.
  assert (Hcut : disconnects_after (serve 200 "OK" None [[x61; x62]] (broken_read 2))
                   (take 2 abc)).
  { exists [[x61; x62]], (broken_read 2). split; [reflexivity|]. split; [reflexivity|].
    right. eexists _, 2. split; [reflexivity|]. split; [reflexivity|].
    unfold len, abc; cbn; lia. }
  split; [exact Hcut|]. split; [reflexivity|]. split.
  - destruct (resumed_body_is_appended
                (two_step_server [[x61; x62]] (broken_read 2) resumed false)
                fuel "m.gguf" "/models" true None no_files abc abc 2
                (serve 200 "OK" None [[x61; x62]] (broken_read 2)) resumed)
      as (w' & Hdl & Hfile & Hsent).
    + unfold abc; cbn; lia.
    + reflexivity.
    + by left.
    + reflexivity.
    + exact Hcut.
    + reflexivity.
    + reflexivity.
    + reflexivity.
    + exists [abc]. split; reflexivity.
    + unfold len, abc; cbn; lia.
    + exists w'. split; [exact Hdl|]. split; [exact Hsent|exact Hfile].
  - destruct (uninterrupted_download (two_step_server [abc] EndOfStream resumed false)
                (S fuel) "m.gguf" "/models" true None no_files
                (serve 200 "OK" None [abc] EndOfStream) abc)
      as (w0 & Hdl & Hfile).
    + reflexivity.
    + by left.
    + reflexivity.
    + exists [abc]. split; reflexivity.
    + exists w0. split; [exact Hdl|]. split; [|exact Hfile].
      revert Hdl. unfold download_model. cbn. by intros [= <-].
Qed.

(** ** The no-progress guard, where the code has it *)

(** A round that ends with the stream exhausted, adds no byte and is
    short of the declared total aborts in that very round. *)
Lemma no_progress_guard_on_early_end E url total fuel resp p w chunks :
  iter_content resp block_size = (chunks, EndOfStream) ->
  concat chunks = [] ->
  total <> 0 ->
  progress_bar_n p < total ->
  exists p',
    download_loop E url total (S fuel) resp p w = Some (Raise StalledDownloadError, p', w).
Proof.
  intros Hit Hnil Htot Hshort. cbn [download_loop].
  rewrite Hit, write_chunks_concat, Hnil. cbn [file progress_bar_n].
  replace (progress_bar_n p + len []) with (progress_bar_n p) by (unfold len; cbn; lia).
  assert ((total =? 0) = false) as -> by lia.
  assert ((progress_bar_n p <? total) = true) as -> by lia.
  rewrite Z.eqb_refl. cbn. by eexists.
Qed.

(** When no response ever raises while it is read, the loop leaves
    within [total - n + 1] rounds: each further round needs a byte. *)
Lemma download_loop_bounded_on_early_ends E url total :
  (forall i u hs r, requests_get E i u hs = inr r ->
                    snd (iter_content r block_size) = EndOfStream) ->
  forall fuel resp p w,
    snd (iter_content resp block_size) = EndOfStream ->
    (Z.to_nat (total - progress_bar_n p) < fuel)%nat ->
    exists res, download_loop E url total fuel resp p w = Some res.
Proof.
  intros Hsrv. induction fuel as [|fuel IH]; intros resp p w Hend Hfuel; [lia|].
  cbn [download_loop]. destruct (iter_content resp block_size) as [chunks ending].
  cbn in Hend. subst ending. rewrite write_chunks_concat. cbn [progress_bar_n].
  assert (0 <= len (concat chunks)) by (unfold len; lia).
  destruct (negb (total =? 0) && (progress_bar_n p + len (concat chunks) <? total)) eqn:Hc;
    [|by eexists].
  apply andb_true_iff in Hc as [_ Hlt%Z.ltb_lt].
  destruct (Z.eqb_spec (progress_bar_n p + len (concat chunks)) (progress_bar_n p));
    [by eexists|].
  destruct (make_request E url _ w) as [[resp'|e] w'] eqn:Hreq; [|by eexists].
  apply IH.
  - apply make_request_from_server in Hreq. by eapply Hsrv.
  - cbn [progress_bar_n]. lia.
Qed.

End DownloadFacts.

(* ===================================================================== *)
(** * Properties of [Embed4All.embed]                                     *)
(* ===================================================================== *)

Section EmbedFacts.
Import Embed Scenario.

Lemma do_mean_of_valid (mode : string) :
  mode = "mean" \/ mode = "truncate" ->
  do_mean_of mode = Some (bool_decide (mode = "mean")).
Proof. by intros [->| ->]. Qed.

(** C8.  For every integer [d] passed as [dimensionality]:
    - [d <= 0]: the call raises the [ValueError] on the dimensionality
      (a [ConfigError]) and leaves the world as it was, so no engine
      call and no warning precede it;
    - [0 < d < 64], with a valid [long_text_mode] and an engine that
      answers: the call returns the engine's result, and exactly the
      low-dimensionality warning is emitted;
    - [d >= 64], likewise: the call returns the engine's result and
      emits no warning. *)
Theorem embed_dimensionality
    (E : env) (text : text_arg) (prefix : option string) (d : Z)
    (long_text_mode : string) (return_dict atlas : bool) (w : world)
    (result : EmbedResult) :
  let c := {| ec_text := text; ec_prefix := prefix; ec_dimensionality := d;
              ec_do_mean := bool_decide (long_text_mode = "mean"); ec_atlas := atlas |} in
  let ret := if return_dict then ReturnDict result
             else ReturnEmbeddings (embeddings result) in
  (d <= 0 ->
   embed E text prefix (Some d) long_text_mode return_dict atlas w
   = (Raise (ValueError (MSG_DIMENSIONALITY d)), w)
   /\ is_ConfigError (ValueError (MSG_DIMENSIONALITY d)))
  /\ (long_text_mode = "mean" \/ long_text_mode = "truncate" ->
      generate_embeddings E c = Ok result ->
      (0 < d < MIN_DIMENSIONALITY ->
       embed E text prefix (Some d) long_text_mode return_dict atlas w
       = (Ok ret, {| warnings := warnings w ++ [MSG_LOW_DIMENSIONALITY d];
                     calls := calls w ++ [c] |}))
      /\ (MIN_DIMENSIONALITY <= d ->
          embed E text prefix (Some d) long_text_mode return_dict atlas w
          = (Ok ret, {| warnings := warnings w; calls := calls w ++ [c] |}))).
Proof.
  intros c ret. split.
  - intros Hd. split; [|left; by eexists].
    unfold embed. by assert ((d <=? 0) = true) as -> by lia.
  - intros Hmode Heng. unfold embed. rewrite (do_mean_of_valid _ Hmode). split.
    + intros [Hpos Hlow].
      assert ((d <=? 0) = false) as -> by lia.
      assert ((d <? MIN_DIMENSIONALITY) = true) as -> by lia.
      cbn [warnings calls]. fold c. by rewrite Heng.
    + intros Hbig. unfold MIN_DIMENSIONALITY in Hbig.
      assert ((d <=? 0) = false) as -> by lia.
      assert ((d <? MIN_DIMENSIONALITY) = false) as -> by (unfold MIN_DIMENSIONALITY; lia).
      fold c. by rewrite Heng.
Qed.

Lemma embed_dimensionality_witness :
  fst (embed embedder (TextStr "hello") None (Some 0) "mean" false false no_warnings)
  = Raise (ValueError "Dimensionality must be None or a positive integer, got 0")
  /\ snd (embed embedder (TextStr "hello") None (Some 32) "mean" false false no_warnings)
     = {| warnings := [MSG_LOW_DIMENSIONALITY 32];
          calls := [{| ec_text := TextStr "hello"; ec_prefix := None;
                       ec_dimensionality := 32; ec_do_mean := true;
                       ec_atlas := false |}] |}
  /\ embed embedder (TextStr "hello") None (Some 64) "truncate" false false no_warnings
     = (Ok (ReturnEmbeddings [[1; 2; 3]]),
        {| warnings := [];
           calls := [{| ec_text := TextStr "hello"; ec_prefix := None;
                        ec_dimensionality := 64; ec_do_mean := false;
                        ec_atlas := false |}] |}).
Proof.
  split; [|split].
  - destruct (embed_dimensionality embedder (TextStr "hello") None 0 "mean" false false
                no_warnings one_vector) as [Hbad _].
    destruct Hbad as [Heq _]; [lia|]. by rewrite Heq.
  - destruct (embed_dimensionality embedder (TextStr "hello") None 32 "mean" false false
                no_warnings one_vector) as [_ Hgood].
    destruct Hgood as [Hlow _]; [by left|reflexivity|].
    rewrite Hlow; [reflexivity|unfold MIN_DIMENSIONALITY; lia].
  - destruct (embed_dimensionality embedder (TextStr "hello") None 64 "truncate" false false
                no_warnings one_vector) as [_ Hgood].
    destruct Hgood as [_ Hbig]; [by right|reflexivity|].
    rewrite Hbig; [reflexivity|unfold MIN_DIMENSIONALITY; lia].
Defined.

End EmbedFacts.

(* ===================================================================== *)
(** * Properties of chat sessions and [generate]                          *)
(* ===================================================================== *)

Section ChatFacts.
Import Chat Scenario.

(** ** Template validation *)

Lemma is_digit_spec (c : ascii) : is_digit c = true <-> In c decimal_digits.
Proof.
  destruct c as [[] [] [] [] [] [] [] []]; vm_compute; split;
    first [discriminate | reflexivity | intuition discriminate | tauto].
Qed.

Lemma starts_with_digit_spec (s : string) :
  starts_with_digit s = false <->
  forall c rest, s = String c rest -> ~ In c decimal_digits.
Proof.
  destruct s as [|c rest]; cbn [starts_with_digit].
  - split; [by intros _ ? ? ?|done].
  - rewrite <- not_true_iff_false, is_digit_spec. split.
    + by intros Hc ? ? [= <- <-].
    + intros Hc. by eapply Hc.
Qed.

Lemma re_search_marker_spec (s : string) :
  re_search_marker s = true <-> has_bare_marker s.
Proof.
  unfold has_bare_marker. setoid_rewrite <- starts_with_digit_spec. split.
  - induction s as [|c rest IH]; [done|]. cbn [re_search_marker].
    intros [Hhead|Htail]%orb_true_iff.
    + apply andb_true_iff in Hhead as [Hc Hrest]. apply Ascii.eqb_eq in Hc as ->.
      destruct rest as [|d rest']; [done|].
      apply andb_true_iff in Hrest as [Hd Hnd]. apply Ascii.eqb_eq in Hd as ->.
      exists "", rest'. split; [done|]. by apply negb_true_iff.
    + destruct (IH Htail) as (pre & post & -> & Hpost).
      by exists (String c pre), post.
  - intros (pre & post & -> & Hpost). induction pre as [|c pre IH].
    + change ("" +:+ "%1" +:+ post) with (String "%" (String "1" post)).
      cbn [re_search_marker]. by rewrite Hpost.
    + change (String c pre +:+ "%1" +:+ post) with (String c (pre +:+ "%1" +:+ post)).
      cbn [re_search_marker]. rewrite IH. by rewrite orb_true_r.
Qed.

(** C5.  For every template string passed to [chat_session]: when the
    marker [%1] stands in it as a bare literal, entry raises
    [TemplateError] and changes nothing; when it does not, entry
    succeeds and the session is active with that template; a template
    in which [%1] does not occur at all is of the second kind. *)
Theorem template_validated_on_entry
    (E : env) (system_prompt : option string) (tmpl : string) (w : world) :
  (has_bare_marker tmpl ->
   chat_session_enter E system_prompt (Some tmpl) w = (Raise TemplateError, w))
  /\ (~ has_bare_marker tmpl ->
      exists w', chat_session_enter E system_prompt (Some tmpl) w = (Ok tt, w')
                 /\ _current_prompt_template w' = tmpl
                 /\ is_Some (_history w'))
  /\ ((forall pre post, tmpl <> pre +:+ "%1" +:+ post) -> ~ has_bare_marker tmpl).
Proof.
  split; [|split].
  - intros Hbare%re_search_marker_spec.
    unfold chat_session_enter, mbind, M_bind, mret, M_ret. by rewrite Hbare.
  - intros Hnone. unfold chat_session_enter, mbind, M_bind, mret, M_ret.
    destruct (re_search_marker tmpl) eqn:Hre; [by apply re_search_marker_spec in Hre|].
    cbn. eexists. split; [done|]. cbn. by eauto.
  - intros Habsent (pre & post & Heq & _). by eapply Habsent.
Qed.

Lemma template_validated_on_entry_witness :
  fst (chat_session_enter (model chatty) None (Some "Q: %1 A: ") inactive)
  = Raise TemplateError
  /\ fst (chat_session_enter (model chatty) None (Some "Q: {0} A: ") inactive) = Ok tt
  /\ fst (chat_session_enter (model chatty) None (Some "Q: %10 A: ") inactive) = Ok tt.
Proof.
  split; [|split].
  - destruct (template_validated_on_entry (model chatty) None "Q: %1 A: " inactive)
      as (Hbad & _ & _).
    rewrite Hbad; [done|]. by apply re_search_marker_spec.
  - destruct (template_validated_on_entry (model chatty) None "Q: {0} A: " inactive)
      as (_ & Hgood & Habsent).
    destruct Hgood as (w' & -> & _); [|done].
    by intros Hbare%re_search_marker_spec.
  - destruct (template_validated_on_entry (model chatty) None "Q: %10 A: " inactive)
      as (_ & Hgood & _).
    destruct Hgood as (w' & -> & _); [|done].
    by intros Hbare%re_search_marker_spec.
Defined.

(** ** Leaving the session scope *)

(** C4.  Once entry has succeeded, however the body of the [with]
    statement is left (it falls through, returns, or raises) the
    object is inactive afterwards: [_history] is [None] and the prompt
    template is back to ["{0}"]; and the body's way of leaving is what
    leaves the statement. *)
Theorem session_exit_restores_inactive
    {A : Type} (E : env) (system_prompt prompt_template : option string)
    (body : world -> leave A * world) (w w1 : world) :
  chat_session_enter E system_prompt prompt_template w = (Ok tt, w1) ->
  _history (snd (with_chat_session E system_prompt prompt_template body w)) = None
  /\ _current_prompt_template
       (snd (with_chat_session E system_prompt prompt_template body w)) = "{0}"
  /\ fst (with_chat_session E system_prompt prompt_template body w) = fst (body w1).
Proof.
  intros Henter. unfold with_chat_session. rewrite Henter.
  by destruct (body w1) as [l w2].
Qed.

Lemma session_exit_restores_inactive_witness :
  let after := with_chat_session (model failing) None None
                 (one_turn (model failing) "Hi") inactive in
  fst after = Raises (RuntimeError "engine failure")
  /\ _history (snd after) = None
  /\ _current_prompt_template (snd after) = "{0}".
Proof.
  destruct (session_exit_restores_inactive (model failing) None None
              (one_turn (model failing) "Hi") inactive
              (snd (chat_session_enter (model failing) None None inactive)))
    as (Hhist & Htmpl & Hleave); [reflexivity|].
  cbv zeta. split; [|split].
  - rewrite Hleave. reflexivity.
  - exact Hhist.
  - exact Htmpl.
Defined.

(** ** The accessor [current_chat_session] *)

Lemma mapM_pointwise {A B} (f g : A -> option B) (l : list A) :
  (forall x, f x = g x) -> mapM f l = mapM g l.
Proof. intros Hfg. induction l as [|x l IH]; [done|]. cbn. by rewrite Hfg, IH. Qed.

(** C10.  [current_chat_session] returns [None] exactly when no
    session is active.  In an active session it returns a reference
    [copy] to a list object that did not exist before, differs from
    the internal transcript list, and holds the same elements; the
    attributes of the object, the calls, the warnings and every object
    of the store are as before, so the transcript reads the same; and
    whatever change is made in place to the returned list, the
    internal list and the transcript stay as they were. *)
Theorem current_chat_session_is_a_copy (w : world) :
  (fst (current_chat_session w) = Ok None <-> _history w = None)
  /\ (_history w = None -> current_chat_session w = (Ok None, w))
  /\ (forall history items,
        _history w = Some history ->
        heap w !! history = Some (PyList items) ->
        exists copy w',
          current_chat_session w = (Ok (Some copy), w')
          /\ copy <> history
          /\ heap w !! copy = None
          /\ heap w' !! copy = Some (PyList items)
          /\ _history w' = _history w
          /\ _current_prompt_template w' = _current_prompt_template w
          /\ calls w' = calls w
          /\ warnings w' = warnings w
          /\ (forall r o, heap w !! r = Some o -> heap w' !! r = Some o)
          /\ transcript w' = transcript w
          /\ (forall f, exists w'',
                list_mutate copy f w' = (Ok tt, w'')
                /\ heap w'' !! copy = Some (PyList (f items))
                /\ heap w'' !! history = Some (PyList items)
                /\ _history w'' = _history w
                /\ transcript w'' = transcript w)).
Proof.
  split; [|split].
  - unfold current_chat_session, get_history, load_list, alloc, mbind, M_bind, mret, M_ret.
    destruct (_history w) as [history|]; [|done].
    split; [|done]. by repeat case_match.
  - intros Hnone.
    unfold current_chat_session, get_history, mbind, M_bind, mret, M_ret. by rewrite Hnone.
  - intros history items Hhist Hlist.
    assert (Hlt : (history < List.length (heap w))%nat) by by eapply lookup_lt_Some.
    exists (List.length (heap w)), (set_heap (heap w ++ [PyList items]) w).
    assert (Hold : forall r o, heap w !! r = Some o ->
              (heap w ++ [PyList items]) !! r = Some o).
    { intros r o Hr. by apply lookup_app_l_Some. }
    assert (Hnew : (heap w ++ [PyList items]) !! List.length (heap w) = Some (PyList items)).
    { by rewrite lookup_app_r, Nat.sub_diag by lia. }
    split.
    { unfold current_chat_session, get_history, load_list, alloc, mbind, M_bind, mret, M_ret.
      by rewrite Hhist, Hlist. }
    split; [lia|]. split; [by apply lookup_ge_None_2|]. split; [done|].
    do 4 (split; [done|]). split; [done|].
    split.
    { unfold transcript. cbn [_history heap set_heap]. rewrite Hhist, Hlist, (Hold _ _ Hlist).
      apply mapM_pointwise. intros r.
      destruct (heap w !! r) as [o|] eqn:Hr; [by rewrite (Hold _ _ Hr)|].
      apply lookup_ge_None_1 in Hr.
      destruct (decide (r = List.length (heap w))) as [->|Hne]; [by rewrite Hnew|].
      by rewrite lookup_ge_None_2 by (rewrite length_app; cbn; lia). }
    intros f. eexists.
    split.
    { unfold list_mutate, load_list, store, mbind, M_bind. cbn [heap set_heap].
      by rewrite Hnew. }
    cbn [heap set_heap _history].
    split; [by rewrite list_lookup_insert_eq by (rewrite length_app; cbn; lia)|].
    split; [by rewrite list_lookup_insert_ne by lia; apply Hold|].
    split; [done|].
    unfold transcript. cbn [_history heap set_heap]. rewrite Hhist, Hlist.
    rewrite list_lookup_insert_ne by lia. rewrite (Hold _ _ Hlist).
    apply mapM_pointwise. intros r.
    destruct (decide (r = List.length (heap w))) as [->|Hne].
    + rewrite list_lookup_insert_eq by (rewrite length_app; cbn; lia).
      by rewrite lookup_ge_None_2 by lia.
    + rewrite list_lookup_insert_ne by done.
      destruct (heap w !! r) as [o|] eqn:Hr; [by rewrite (Hold _ _ Hr)|].
      apply lookup_ge_None_1 in Hr.
      by rewrite lookup_ge_None_2 by (rewrite length_app; cbn; lia).
Qed.

Lemma current_chat_session_is_a_copy_witness :
  exists copy w' w'',
    current_chat_session after_one_turn = (Ok (Some copy), w')
    /\ _history after_one_turn = Some 1%nat
    /\ copy <> 1%nat
    /\ heap w' !! copy = Some (PyList [0; 2; 5]%nat)
    /\ list_mutate copy (fun _ => []) w' = (Ok tt, w'')
    /\ heap w'' !! copy = Some (PyList [])
    /\ heap w'' !! 1%nat = Some (PyList [0; 2; 5]%nat)
    /\ transcript w'' = transcript after_one_turn.
Proof.
  destruct (current_chat_session_is_a_copy after_one_turn) as (_ & _ & Hactive).
  destruct (Hactive 1%nat [0; 2; 5]%nat) as
    (copy & w' & Hcall & Hne & _ & Hcopy & _ & _ & _ & _ & _ & _ & Hmut);
    [reflexivity|reflexivity|].
  destruct (Hmut (fun _ => [])) as (w'' & Hrun & Hcleared & Hkept & _ & Htr).
  exists copy, w', w''. repeat split; try assumption.
Defined.

(** The copy is shallow: its elements are the message dicts of the
transcript themselves, so a change made in place to a message reached
through the copy shows in the transcript. *)
Lemma current_chat_session_shares_messages :
  exists copy w' w'' first,
    current_chat_session after_one_turn = (Ok (Some copy), w')
    /\ list_getitem copy 0 w' = (Ok first, w')
    /\ dict_mutate first (fun m => <["content" := "changed"]> m) w' = (Ok tt, w'')
    /\ (fun m => m !! "content") <$> (transcript after_one_turn ≫= (.!! 0%nat))
       = Some (Some "Be brief.")
    /\ (fun m => m !! "content") <$> (transcript w'' ≫= (.!! 0%nat))
       = Some (Some "changed").
Proof. do 4 eexists. repeat split. Qed.

(** ** Running monadic code step by step *)

Lemma bind_run {A B} (m : M A) (f : A -> M B) (w : world) :
  (m ≫= f) w = match m w with
               | (Ok a, w') => f a w'
               | (Raise e, w') => (Raise e, w')
               end.
Proof. reflexivity. Qed.

Lemma bind_inv {A B} (m : M A) (f : A -> M B) (w w' : world) (r : outcome B) :
  (m ≫= f) w = (r, w') ->
  (exists a w1, m w = (Ok a, w1) /\ f a w1 = (r, w'))
  \/ (exists e, m w = (Raise e, w') /\ r = Raise e).
Proof.
  rewrite bind_run. destruct (m w) as [[a|e] w1]; intros H.
  - left. by eauto.
  - right. inversion H. by eauto.
Qed.

Lemma bind_Ok_inv {A B} (m : M A) (f : A -> M B) (w w' : world) (b : B) :
  (m ≫= f) w = (Ok b, w') ->
  exists a w1, m w = (Ok a, w1) /\ f a w1 = (Ok b, w').
Proof. intros [H|(e & _ & H)]%bind_inv; [done|discriminate]. Qed.

Lemma keeps_ret {A} (R : relation world) `{!Reflexive R} (Q : A -> Prop) (a : A) :
  Q a -> keeps R Q (mret a).
Proof. intros HQ w r w' H. inversion H; subst. split; [done|]. by intros ? [= <-]. Qed.

Lemma keeps_bind {A B} (R : relation world) `{!Transitive R}
    (Q : A -> Prop) (Q' : B -> Prop) (m : M A) (f : A -> M B) :
  keeps R Q m -> (forall a, Q a -> keeps R Q' (f a)) -> keeps R Q' (m ≫= f).
Proof.
  intros Hm Hf w r w' [(a & w1 & H1 & H2)|(e & H1 & ->)]%bind_inv.
  - destruct (Hm _ _ _ H1) as [HR HQ]. destruct (Hf a (HQ _ eq_refl) _ _ _ H2) as [HR' HQ'].
    split; [by etrans|done].
  - destruct (Hm _ _ _ H1) as [HR _]. split; [done|]. by intros.
Qed.

Lemma keeps_weaken {A} (R R' : relation world) (Q Q' : A -> Prop) (m : M A) :
  keeps R Q m -> (forall w w', R w w' -> R' w w') -> (forall a, Q a -> Q' a) ->
  keeps R' Q' m.
Proof. intros Hm HR HQ w r w' H. destruct (Hm _ _ _ H). split; [|intros ? ->]; eauto. Qed.

(** ** The relations are preorders, from the finest to the coarsest *)

#[local] Instance frame_preorder : PreOrder frame.
Proof.
  split.
  - intros w. repeat split; by eauto.
  - intros w1 w2 w3 (Hh1 & Ht1 & Hl1 & Hd1) (Hh2 & Ht2 & Hl2 & Hd2).
    split; [congruence|]. split; [congruence|]. split; [by eauto|].
    intros r d Hr. destruct (Hd1 _ _ Hr) as (d1 & Hr1 & Hrole1).
    destruct (Hd2 _ _ Hr1) as (d2 & Hr2 & Hrole2). exists d2. split; [done|congruence].
Qed.

#[local] Instance grows_preorder : PreOrder grows.
Proof.
  split.
  - intros w. split; [done|]. split; [done|]. split.
    + intros r items Hr. exists []. by rewrite app_nil_r.
    + by eauto.
  - intros w1 w2 w3 (Hh1 & Ht1 & Hl1 & Hd1) (Hh2 & Ht2 & Hl2 & Hd2).
    split; [congruence|]. split; [congruence|]. split.
    + intros r items Hr. destruct (Hl1 _ _ Hr) as (more1 & Hr1).
      destruct (Hl2 _ _ Hr1) as (more2 & Hr2). exists (more1 ++ more2).
      by rewrite app_assoc.
    + intros r d Hr. destruct (Hd1 _ _ Hr) as (d1 & Hr1 & Hrole1).
      destruct (Hd2 _ _ Hr1) as (d2 & Hr2 & Hrole2). exists d2. split; [done|congruence].
Qed.

#[local] Instance emits_preorder (φ : engine_call -> Prop) : PreOrder (emits φ).
Proof.
  split.
  - intros w. exists []. by rewrite app_nil_r.
  - intros w1 w2 w3 (n1 & H1 & F1) (n2 & H2 & F2). exists (n1 ++ n2).
    split; [by rewrite H2, H1, app_assoc|by apply Forall_app].
Qed.

#[local] Instance quiet_preorder : PreOrder quiet.
Proof.
  split.
  - intros w. by split.
  - intros w1 w2 w3 [F1 C1] [F2 C2]. split; [by etrans|congruence].
Qed.

Lemma frame_grows (w w' : world) : frame w w' -> grows w w'.
Proof.
  intros (Hh & Ht & Hl & Hd). split; [done|]. split; [done|]. split; [|done].
  intros r items Hr. exists []. rewrite app_nil_r. by eauto.
Qed.

Lemma quiet_frame (w w' : world) : quiet w w' -> frame w w'.
Proof. by intros [? _]. Qed.

Lemma quiet_emits (φ : engine_call -> Prop) (w w' : world) : quiet w w' -> emits φ w w'.
Proof. intros [_ Hc]. exists []. by rewrite app_nil_r. Qed.

(** ** What the operations on the store do *)

Lemma quiet_alloc (w : world) (o : pyobj) : quiet w (set_heap (heap w ++ [o]) w).
Proof.
  split; [|done]. split; [done|]. split; [done|]. split.
  - intros r items Hr. by apply lookup_app_l_Some.
  - intros r d Hr. exists d. split; [|done]. by apply lookup_app_l_Some.
Qed.

Lemma quiet_set_content (w : world) (r : ref) (m : gmap string string) (v : string) :
  heap w !! r = Some (PyDict m) ->
  quiet w (set_heap (<[r := PyDict (<["content" := v]> m)]> (heap w)) w).
Proof.
  intros Hr. assert (Hlt : (r < List.length (heap w))%nat) by by eapply lookup_lt_Some.
  split; [|done]. split; [done|]. split; [done|]. split.
  - intros r' items Hr'. cbn. rewrite list_lookup_insert_ne; [done|congruence].
  - intros r' d Hr'. cbn. destruct (decide (r = r')) as [<-|Hne].
    + rewrite list_lookup_insert_eq by done. eexists. split; [done|].
      unfold role. rewrite lookup_insert_ne by done. congruence.
    + rewrite list_lookup_insert_ne by done. by eauto.
Qed.

Lemma grows_append (w : world) (l x : ref) (items : list ref) :
  heap w !! l = Some (PyList items) ->
  grows w (set_heap (<[l := PyList (items ++ [x])]> (heap w)) w).
Proof.
  intros Hl. assert (Hlt : (l < List.length (heap w))%nat) by by eapply lookup_lt_Some.
  split; [done|]. split; [done|]. split.
  - intros r items' Hr. cbn. destruct (decide (l = r)) as [<-|Hne].
    + rewrite list_lookup_insert_eq by done. exists [x]. congruence.
    + rewrite list_lookup_insert_ne by done. exists []. by rewrite app_nil_r.
  - intros r d Hr. cbn. rewrite list_lookup_insert_ne; [by eauto|congruence].
Qed.

(** An operation that only reads leaves the world as it is. *)
Lemma keeps_reader {A} (R : relation world) `{!Reflexive R} (m : M A) :
  (forall w, snd (m w) = w) -> keeps R (fun _ => True) m.
Proof.
  intros Hread w r w' H. specialize (Hread w). rewrite H in Hread. cbn in Hread. by subst.
Qed.

Lemma load_list_reads (r : ref) (w : world) : snd (load_list r w) = w.
Proof. unfold load_list. by repeat case_match. Qed.

Lemma load_dict_reads (r : ref) (w : world) : snd (load_dict r w) = w.
Proof. unfold load_dict. by repeat case_match. Qed.

Lemma list_len_reads (l : ref) (w : world) : snd (list_len l w) = w.
Proof.
  unfold list_len. rewrite bind_run. pose proof (load_list_reads l w).
  by destruct (load_list l w) as [[] ?].
Qed.

Lemma list_getitem_reads (l : ref) (i : Z) (w : world) : snd (list_getitem l i w) = w.
Proof.
  unfold list_getitem. rewrite bind_run. pose proof (load_list_reads l w).
  destruct (load_list l w) as [[items|] ?]; [|done]. cbn in *. subst.
  by repeat case_match.
Qed.

Lemma dict_getitem_reads (d : ref) (k : string) (w : world) : snd (dict_getitem d k w) = w.
Proof.
  unfold dict_getitem. rewrite bind_run. pose proof (load_dict_reads d w).
  destruct (load_dict d w) as [[m|] ?]; [|done]. cbn in *. subst.
  by repeat case_match.
Qed.

Lemma list_last_slice_reads (l : ref) (w : world) : snd (list_last_slice l w) = w.
Proof.
  unfold list_last_slice. rewrite bind_run. pose proof (load_list_reads l w).
  destruct (load_list l w) as [[items|] ?]; [|done]. cbn in *. subst.
  destruct (last items) as [x|]; [|done]. rewrite bind_run.
  pose proof (load_dict_reads x w). by destruct (load_dict x w) as [[] ?].
Qed.

Lemma keeps_alloc (o : pyobj) : keeps quiet (fun _ => True) (alloc o).
Proof. intros w r w' [= <- <-]. split; [apply quiet_alloc|done]. Qed.

Lemma keeps_warn (msg : string) : keeps quiet (fun _ => True) (warn msg).
Proof. intros w r w' [= <- <-]. split; [|done]. split; [|done]. repeat split; by eauto. Qed.

Lemma keeps_set_content (d : ref) (v : string) :
  keeps quiet (fun _ => True) (dict_setitem d "content" v).
Proof.
  intros w r w' H. unfold dict_setitem, load_dict, store in H. rewrite bind_run in H.
  destruct (heap w !! d) as [[m|]|] eqn:Hd; simplify_eq; split; try done.
  by apply quiet_set_content.
Qed.

Lemma keeps_list_append (l x : ref) :
  keeps (fun w w' => grows w w' /\ calls w' = calls w) (fun _ => True) (list_append l x).
Proof.
  intros w r w' H. unfold list_append, load_list, store in H. rewrite bind_run in H.
  destruct (heap w !! l) as [[|items]|] eqn:Hl; simplify_eq; split; try done.
  split; [|done]. by apply grows_append.
Qed.

Lemma keeps_invoke (E : env) (cb : engine_callback) (token_id : Z) (response : string) :
  keeps quiet (fun _ => True) (invoke E cb token_id response).
Proof.
  destruct cb as [|callback output_collector]; cbn [invoke].
  - by apply keeps_ret.
  - eapply keeps_bind; [apply _|apply keeps_reader, list_getitem_reads; apply _|].
    intros msg _.
    eapply keeps_bind; [apply _|apply keeps_reader, dict_getitem_reads; apply _|].
    intros content _.
    eapply keeps_bind; [apply _|apply keeps_set_content|].
    intros _ _. by apply keeps_ret.
Qed.

Lemma keeps_feed (E : env) (cb : engine_callback) (tokens : list (Z * string)) :
  keeps quiet (fun _ => True) (feed E cb tokens).
Proof.
  induction tokens as [|[token_id response] rest IH]; cbn [feed].
  - by apply keeps_ret.
  - eapply keeps_bind; [apply _|apply keeps_invoke|].
    intros [] _; [done|by apply keeps_ret].
Qed.

(** A blocking call to the engine: the one call is logged; the store
changes in message contents only. *)
Lemma call_prompt_model_effect (E : env) (c : engine_call) (w w' : world) (r : outcome unit) :
  call_prompt_model E c w = (r, w') -> frame w w' /\ calls w' = calls w ++ [c].
Proof.
  intros H. unfold call_prompt_model in H.
  destruct (engine E (calls w) c) as [tokens failure].
  apply bind_inv in H as [(u & w1 & Hlog & H)|(e & Hlog & ->)]; [|done].
  injection Hlog as _ <-.
  assert (Hrest : quiet
            {| _history := _history w; _current_prompt_template := _current_prompt_template w;
               heap := heap w; calls := calls w ++ [c]; warnings := warnings w |} w').
  { apply bind_inv in H as [(fin & w2 & Hfeed & H)|(e & Hfeed & ->)].
    - destruct (keeps_feed _ _ _ _ _ _ Hfeed) as [Hq _].
      destruct failure as [e|]; [destruct fin|]; by inversion H; subst.
    - by destruct (keeps_feed _ _ _ _ _ _ Hfeed) as [Hq _]. }
  destruct Hrest as [Hframe Hcalls]. split; [|done].
  destruct Hframe as (Hh & Ht & Hl & Hd). repeat split; by eauto.
Qed.

#[local] Instance settles_preorder (φ : engine_call -> Prop) : PreOrder (settles φ).
Proof.
  split.
  - intros w. by split.
  - intros w1 w2 w3 [F1 C1] [F2 C2]. split; by etrans.
Qed.

#[local] Instance advances_preorder (φ : engine_call -> Prop) : PreOrder (advances φ).
Proof.
  split.
  - intros w. by split.
  - intros w1 w2 w3 [F1 C1] [F2 C2]. split; by etrans.
Qed.

Lemma quiet_settles (φ : engine_call -> Prop) (w w' : world) : quiet w w' -> settles φ w w'.
Proof. intros Hq. split; [by apply quiet_frame|by apply quiet_emits]. Qed.

Lemma settles_advances (φ : engine_call -> Prop) (w w' : world) :
  settles φ w w' -> advances φ w w'.
Proof. intros [Hf He]. split; [by apply frame_grows|done]. Qed.

Lemma quiet_advances (φ : engine_call -> Prop) (w w' : world) : quiet w w' -> advances φ w w'.
Proof. intros Hq. by apply settles_advances, quiet_settles. Qed.

Lemma emits_nothing (w w' : world) : emits (fun _ => False) w w' -> calls w' = calls w.
Proof.
  intros (new & Hc & Hall). destruct new as [|c new]; [by rewrite app_nil_r in Hc|].
  by inversion Hall.
Qed.

Lemma keeps_call_prompt_model (E : env) (c : engine_call) (φ : engine_call -> Prop) :
  φ c -> keeps (settles φ) (fun _ => True) (call_prompt_model E c).
Proof.
  intros Hφ w r w' [Hf Hc]%call_prompt_model_effect. split; [|done]. split; [done|].
  exists [c]. split; [done|]. by apply Forall_singleton.
Qed.

(** Readers and other quiet steps, for any relation above [quiet]. *)
Lemma keeps_quiet {A} (R : relation world) (m : M A) :
  (forall w w', quiet w w' -> R w w') ->
  keeps quiet (fun _ => True) m -> keeps R (fun _ => True) m.
Proof. intros HR Hm. eapply keeps_weaken; [exact Hm|exact HR|done]. Qed.

(** ** The blocks of [generate] *)

#[local] Ltac kbind := eapply keeps_bind with (Q := fun _ => True); [apply _| |].
#[local] Ltac kret := apply keeps_ret; [apply _|done].
#[local] Ltac kread :=
  apply keeps_reader;
  [apply _
  |first [done
         |intros; first [apply list_getitem_reads | apply dict_getitem_reads
                        |apply list_last_slice_reads | apply list_len_reads]]].

(** Without a reset, or with an overriding method, rendering the turn
calls the engine not at all. *)
Lemma keeps_format_turn_quiet (E : env) (history : ref) (prompt : string)
    (a : generate_args) (reset : bool) :
  reset = false \/ format_override E <> None ->
  keeps quiet (fun _ => True) (format_turn E history prompt a reset).
Proof.
  intros Hcase. unfold format_turn. destruct (format_override E) as [fct|] eqn:Hov.
  - kbind; [apply keeps_warn|]. intros _ _.
    kbind; [kread|]. intros messages _.
    kbind.
    { destruct reset; [|kret]. kbind; [kread|]. intros system _. kread. }
    intros header _. kbind; [kread|]. intros prompt' _. kret.
  - destruct Hcase as [->|]; [|done].
    kbind; [kret|]. intros _ _.
    kbind; [kread|]. intros tmpl _.
    kbind; [kread|]. intros prompt_template _. kret.
Qed.

(** With a reset and no overriding method, it makes the priming call
and no other. *)
Lemma keeps_format_turn_priming (E : env) (history : ref) (prompt : string)
    (a : generate_args) (φ : engine_call -> Prop) :
  format_override E = None ->
  (forall content, φ (priming_call content a)) ->
  keeps (settles φ) (fun _ => True) (format_turn E history prompt a true).
Proof.
  intros Hov Hφ. unfold format_turn. rewrite Hov.
  kbind.
  { kbind; [kread|]. intros system _. kbind; [kread|]. intros content _.
    by apply keeps_call_prompt_model. }
  intros _ _. kbind; [kread|]. intros tmpl _.
  kbind; [kread|]. intros prompt_template _. kret.
Qed.

Lemma keeps_list_append_advances (l x : ref) (φ : engine_call -> Prop) :
  keeps (advances φ) (fun _ => True) (list_append l x).
Proof.
  eapply keeps_weaken; [apply keeps_list_append| |done].
  intros w w' [Hg Hc]. split; [done|]. exists []. by rewrite app_nil_r.
Qed.

(** The session branch: the transcript gets longer, the engine is
called at most for priming, and the keyword arguments handed on are the
sampling parameters with [reset_context]. *)
Lemma keeps_user_turn (E : env) (history : ref) (prompt : string)
    (a : generate_args) (reset : bool) (φ : engine_call -> Prop) :
  (reset = true -> format_override E = None -> forall content, φ (priming_call content a)) ->
  keeps (advances φ)
    (fun x => x.2 = <["reset_context" := PyBool reset]> (generate_kwargs a))
    (user_turn E history prompt a reset).
Proof.
  intros Hφ. unfold user_turn.
  kbind; [apply keeps_quiet; [apply quiet_advances|apply keeps_alloc]|].
  intros user _.
  kbind; [apply keeps_list_append_advances|]. intros _ _.
  kbind.
  { destruct reset; [destruct (format_override E) eqn:Hov|].
    - apply keeps_quiet; [apply quiet_advances|]. apply keeps_format_turn_quiet.
      right. congruence.
    - eapply keeps_weaken; [|apply settles_advances|done].
      apply keeps_format_turn_priming; [done|]. by apply Hφ.
    - apply keeps_quiet; [apply quiet_advances|]. apply keeps_format_turn_quiet. by left. }
  intros [p t] _. by apply keeps_ret.
Qed.

Lemma keeps_session_turn (E : env) (history : ref) (prompt : string)
    (a : generate_args) (φ : engine_call -> Prop) :
  (format_override E = None -> forall content, φ (priming_call content a)) ->
  keeps (advances φ)
    (fun x => exists reset, x.2 = <["reset_context" := PyBool reset]> (generate_kwargs a))
    (session_turn E history prompt a).
Proof.
  intros Hφ. unfold session_turn.
  kbind; [kread|]. intros n _.
  eapply keeps_weaken; [apply keeps_user_turn| |].
  - intros _. exact Hφ.
  - done.
  - intros x Hx. exists (n =? 1). exact Hx.
Qed.

Lemma keeps_prepare_callback (hist : option ref) (φ : engine_call -> Prop) :
  keeps (advances φ) (fun _ => True) (prepare_callback hist).
Proof.
  unfold prepare_callback.
  kbind; [apply keeps_quiet; [apply quiet_advances|apply keeps_alloc]|].
  intros placeholder _.
  kbind; [apply keeps_quiet; [apply quiet_advances|apply keeps_alloc]|].
  intros output_collector _. destruct hist as [history|]; [|kret].
  kbind; [apply keeps_quiet; [apply quiet_advances|apply keeps_alloc]|].
  intros assistant _.
  kbind; [apply keeps_list_append_advances|]. intros _ _. kret.
Qed.

(** The main call: exactly that call is made, in either mode. *)
Lemma send_request_effect (E : env) (prompt prompt_template : string)
    (kwargs : gmap string pyany) (a : generate_args) (output_collector : ref)
    (w w' : world) (r : outcome generate_return) :
  send_request E prompt prompt_template kwargs a output_collector w = (r, w') ->
  frame w w'
  /\ calls w' = calls w ++ [main_call prompt prompt_template kwargs a output_collector].
Proof.
  unfold send_request. destruct (streaming a).
  - unfold call_prompt_model_streaming, log_call. rewrite !bind_run. intros [= <- <-].
    split; [|done]. repeat split; by eauto.
  - intros [(u & w1 & Hcall & H)|(e & Hcall & ->)]%bind_inv.
    + apply call_prompt_model_effect in Hcall as [Hf Hc].
      assert (Hread : w' = w1); [|by subst].
      pose proof (list_getitem_reads output_collector (-1) w1) as Hg.
      apply bind_inv in H as [(msg & w2 & Hget & H)|(e & Hget & ->)];
        rewrite Hget in Hg; cbn in Hg; subst; [|done].
      pose proof (dict_getitem_reads msg "content" w1) as Hd.
      apply bind_inv in H as [(text & w3 & Hdict & H)|(e & Hdict & ->)];
        rewrite Hdict in Hd; cbn in Hd; subst; [|done].
      by inversion H.
    + by apply call_prompt_model_effect in Hcall.
Qed.

Lemma keeps_send_request (E : env) (prompt prompt_template : string)
    (kwargs : gmap string pyany) (a : generate_args) (output_collector : ref)
    (φ : engine_call -> Prop) :
  φ (main_call prompt prompt_template kwargs a output_collector) ->
  keeps (settles φ) (fun _ => True)
    (send_request E prompt prompt_template kwargs a output_collector).
Proof.
  intros Hφ w r w' [Hf Hc]%send_request_effect. split; [|done]. split; [done|].
  eexists. split; [done|]. by apply Forall_singleton.
Qed.

(** The whole of [generate], for calls that satisfy [φ]. *)
Lemma keeps_generate (E : env) (prompt : string) (a : generate_args)
    (φ : engine_call -> Prop) :
  (format_override E = None -> forall content, φ (priming_call content a)) ->
  (forall p t reset oc,
      φ (main_call p t (<["reset_context" := PyBool reset]> (generate_kwargs a)) a oc)) ->
  keeps (advances φ) (fun _ => True) (generate E prompt a).
Proof.
  intros Hprime Hmain. unfold generate.
  kbind; [kread|]. intros hist _.
  eapply keeps_bind with
    (Q := fun x => exists reset, x.2 = <["reset_context" := PyBool reset]> (generate_kwargs a));
    [apply _| |].
  { destruct hist as [history|]; [by apply keeps_session_turn|].
    apply keeps_ret; [apply _|]. by exists true. }
  intros [[p t] kwargs] [reset Hkw]. cbn in Hkw. subst kwargs.
  eapply keeps_bind; [apply _|apply keeps_prepare_callback|].
  intros output_collector _.
  eapply keeps_weaken;
    [apply (keeps_send_request _ _ _ _ _ _ φ), Hmain|apply settles_advances|done].
Qed.

(** ** The token cap *)

Lemma is_priming_priming_call (content : string) (a : generate_args) :
  is_priming (priming_call content a) = true.
Proof. unfold is_priming, priming_call, priming_kwargs. cbn. by apply bool_decide_eq_true. Qed.

Lemma kwargs_n_predict (a : generate_args) (reset : bool) :
  (<["reset_context" := PyBool reset]> (generate_kwargs a)) !! "n_predict"
  = Some (PyInt (match n_predict a with
                 | Some v => v
                 | None => max_tokens a
                 end)).
Proof. unfold generate_kwargs. by simplify_map_eq. Qed.

(** A [generate] call that returns has made, after at most priming
calls, exactly its main call. *)
Lemma generate_Ok_calls (E : env) (prompt : string) (a : generate_args)
    (w w' : world) (r : generate_return) :
  generate E prompt a w = (Ok r, w') ->
  exists earlier p t reset oc,
    calls w' = calls w ++ earlier
               ++ [main_call p t (<["reset_context" := PyBool reset]> (generate_kwargs a)) a oc]
    /\ Forall (fun c => is_priming c = true) earlier
    /\ (format_override E = None -> p = prompt).
Proof.
  unfold generate. intros (hist & w0 & Hhist & H)%bind_Ok_inv. injection Hhist as <- <-.
  apply bind_Ok_inv in H as ([[p t] kwargs] & w1 & Hturn & H).
  apply bind_Ok_inv in H as (oc & w2 & Hprep & Hsend).
  assert (Hfirst : emits (fun c => is_priming c = true) w w1
                   /\ (exists reset, kwargs = <["reset_context" := PyBool reset]> (generate_kwargs a))
                   /\ (format_override E = None -> p = prompt)).
  { destruct (_history w) as [history|].
    - destruct (keeps_session_turn E history prompt a (fun c => is_priming c = true)
                  (fun _ content => is_priming_priming_call content a) _ _ _ Hturn)
        as [[_ Hem] HQ].
      split; [exact Hem|]. split; [exact (HQ _ eq_refl)|].
      intros Hov. unfold session_turn in Hturn.
        apply bind_Ok_inv in Hturn as (n & wa & _ & Hturn). unfold user_turn in Hturn.
        apply bind_Ok_inv in Hturn as (user & wb & _ & Hturn).
        apply bind_Ok_inv in Hturn as (u & wc & _ & Hturn).
        apply bind_Ok_inv in Hturn as ([p' t'] & wd & Hfmt & Hret).
        injection Hret as <- <- _ _. unfold format_turn in Hfmt. rewrite Hov in Hfmt.
        apply bind_Ok_inv in Hfmt as (u1 & we & _ & Hfmt).
        apply bind_Ok_inv in Hfmt as (tmpl & wf & _ & Hfmt).
        apply bind_Ok_inv in Hfmt as (pt & wg & _ & Hfmt). by injection Hfmt as <- _ _.
    - injection Hturn as <- <- <- <-. split; [done|]. split; [by exists true|done]. }
  destruct Hfirst as ((earlier & Hcalls1 & Hall) & [reset ->] & Hprompt).
  assert (Hcalls2 : calls w2 = calls w1).
  { apply emits_nothing.
    by destruct (keeps_prepare_callback (_history w) (fun _ => False) _ _ _ Hprep) as [[_ ?] _]. }
  apply send_request_effect in Hsend as [_ Hcalls3].
  exists earlier, p, t, reset, oc. split; [|done].
  by rewrite Hcalls3, Hcalls2, Hcalls1, <- app_assoc.
Qed.

(** C9.  The engine calls one [generate] call makes, apart from the
zero-output priming call, all carry as [n_predict] the one value
[n_predict] when it was supplied and [max_tokens] otherwise; and when
[generate] returns, the last of its calls is such a call (the main call),
every earlier one being a priming call. *)
Theorem effective_token_cap (E : env) (prompt : string) (a : generate_args) (w : world) :
  let cap := match n_predict a with
             | Some v => v
             | None => max_tokens a
             end in
  (exists new,
      calls (snd (generate E prompt a w)) = calls w ++ new
      /\ Forall (fun c => is_priming c = false ->
                          call_kwargs c !! "n_predict" = Some (PyInt cap)) new)
  /\ (forall r, fst (generate E prompt a w) = Ok r ->
      exists earlier c,
        calls (snd (generate E prompt a w)) = calls w ++ earlier ++ [c]
        /\ Forall (fun c' => is_priming c' = true) earlier
        /\ is_priming c = false
        /\ call_kwargs c !! "n_predict" = Some (PyInt cap)).
Proof.
  intros cap. destruct (generate E prompt a w) as [res w'] eqn:Hgen. cbn [fst snd]. split.
  - destruct (keeps_generate E prompt a
                (fun c => is_priming c = false ->
                          call_kwargs c !! "n_predict" = Some (PyInt cap))) with w res w'
      as [[_ Hem] _]; [| |exact Hgen|exact Hem].
    + intros _ content. by rewrite is_priming_priming_call.
    + intros p t reset oc _. apply kwargs_n_predict.
  - intros r ->. apply generate_Ok_calls in Hgen
      as (earlier & p & t & reset & oc & Hcalls & Hall & _).
    eexists earlier, _. split; [exact Hcalls|]. split; [done|]. split; [done|].
    apply kwargs_n_predict.
Qed.

Lemma effective_token_cap_witness :
  (exists earlier c,
      calls (snd (generate (model chatty) "Hi"
                    {| max_tokens := 200; temp := PyFloat 7 (-1); top_k := 40;
                       top_p := PyFloat 4 (-1); min_p := PyFloat 0 0;
                       repeat_penalty := PyFloat 118 (-2); repeat_last_n := 64;
                       n_batch := 8; n_predict := Some 5; streaming := false;
                       callback := fun _ _ => true |} inactive)) = earlier ++ [c]
      /\ call_kwargs c !! "n_predict" = Some (PyInt 5))
  /\ (exists earlier c,
         calls (snd (generate (model chatty) "Hi" default_args inactive)) = earlier ++ [c]
         /\ call_kwargs c !! "n_predict" = Some (PyInt 200)).
Proof.
  split.
  - destruct (effective_token_cap (model chatty) "Hi"
                {| max_tokens := 200; temp := PyFloat 7 (-1); top_k := 40;
                   top_p := PyFloat 4 (-1); min_p := PyFloat 0 0;
                   repeat_penalty := PyFloat 118 (-2); repeat_last_n := 64;
                   n_batch := 8; n_predict := Some 5; streaming := false;
                   callback := fun _ _ => true |} inactive) as [_ Hret].
    destruct (Hret (Completion "Hello")) as (earlier & c & Hcalls & _ & _ & Hcap);
      [reflexivity|].
    exists earlier, c. split; [exact Hcalls|exact Hcap].
  - destruct (effective_token_cap (model chatty) "Hi" default_args inactive) as [_ Hret].
    destruct (Hret (Completion "Hello")) as (earlier & c & Hcalls & _ & _ & Hcap);
      [reflexivity|].
    exists earlier, c. split; [exact Hcalls|exact Hcap].
Defined.

(** ** The first turn of a session and the later ones *)

Lemma list_len_ok (l : ref) (items : list ref) (w : world) :
  heap w !! l = Some (PyList items) -> list_len l w = (Ok (len items), w).
Proof. intros Hl. unfold list_len, load_list. rewrite bind_run. by rewrite Hl. Qed.

Lemma list_getitem_first (l x : ref) (more : list ref) (w : world) :
  heap w !! l = Some (PyList (x :: more)) -> list_getitem l 0 w = (Ok x, w).
Proof. intros Hl. unfold list_getitem, load_list. rewrite bind_run. by rewrite Hl. Qed.

Lemma dict_getitem_ok (d : ref) (m : gmap string string) (k v : string) (w : world) :
  heap w !! d = Some (PyDict m) -> m !! k = Some v -> dict_getitem d k w = (Ok v, w).
Proof.
  intros Hd Hk. unfold dict_getitem, load_dict. rewrite bind_run. rewrite Hd. cbn.
  by rewrite Hk.
Qed.

Lemma list_append_ok (l x : ref) (items : list ref) (w : world) :
  heap w !! l = Some (PyList items) ->
  list_append l x w = (Ok tt, set_heap (<[l := PyList (items ++ [x])]> (heap w)) w).
Proof. intros Hl. unfold list_append, load_list, store. rewrite bind_run. by rewrite Hl. Qed.

(** The world a successful entry leaves: a transcript of one system
message with the effective system prompt, and no engine call. *)
Lemma chat_session_enter_Ok (E : env) (system_prompt prompt_template : option string)
    (w w1 : world) :
  chat_session_enter E system_prompt prompt_template w = (Ok tt, w1) ->
  exists history system,
    _history w1 = Some history
    /\ heap w1 !! history = Some (PyList [system])
    /\ heap w1 !! system
       = Some (PyDict {[ "role" := "system";
                         "content" := effective_system_prompt E system_prompt ]})
    /\ calls w1 = calls w.
Proof.
  unfold chat_session_enter. intros (tmpl & w0 & Htmpl & H)%bind_Ok_inv.
  assert (Hw0 : heap w0 = heap w /\ calls w0 = calls w).
  { destruct prompt_template as [t|]; [by injection Htmpl as <- <-|].
    destruct (config E !! "promptTemplate") as [t|]; [by injection Htmpl as <- <-|].
    by injection Htmpl as <- <-. }
  destruct Hw0 as [Hheap Hcalls].
  destruct (re_search_marker tmpl); [done|].
  unfold alloc, set_history, set_template in H. rewrite !bind_run in H. cbn in H.
  injection H as <-. cbn. rewrite Hheap.
  exists (S (List.length (heap w))), (List.length (heap w)).
  split; [by rewrite length_app, Nat.add_1_r|].
  split; [by rewrite lookup_app_r; rewrite length_app, Nat.add_1_r; [rewrite Nat.sub_diag|lia]|].
  split; [|done].
  rewrite lookup_app_l by (rewrite length_app; cbn; lia).
  by rewrite lookup_app_r, Nat.sub_diag by lia.
Qed.

(** Rendering the first turn with the default method: exactly the
priming call with the system content. *)
Lemma format_turn_first (E : env) (history system : ref) (more : list ref)
    (d : gmap string string) (content prompt : string) (a : generate_args)
    (w w' : world) (r : outcome (string * string)) :
  format_override E = None ->
  heap w !! history = Some (PyList (system :: more)) ->
  heap w !! system = Some (PyDict d) ->
  d !! "content" = Some content ->
  format_turn E history prompt a true w = (r, w') ->
  frame w w'
  /\ calls w' = calls w ++ [priming_call content a]
  /\ forall x, r = Ok x -> x.1 = prompt.
Proof.
  intros Hov Hlist Hsys Hcontent. unfold format_turn. rewrite Hov.
  rewrite bind_run. rewrite bind_run, (list_getitem_first _ _ _ _ Hlist).
  rewrite bind_run, (dict_getitem_ok _ _ _ _ _ Hsys Hcontent).
  destruct (call_prompt_model E (priming_call content a) w) as [[[]|e] w1] eqn:Hcall;
    apply call_prompt_model_effect in Hcall as [Hf Hc].
  - unfold get_template, lift. rewrite !bind_run.
    destruct (str_format E _ _); intros [= <- <-]; split; try done; split; try done.
    by intros ? [= <-].
  - intros [= <- <-]. by split.
Qed.

(** The session branch of the first turn. *)
Lemma user_turn_first (E : env) (history system : ref)
    (d : gmap string string) (content prompt : string) (a : generate_args)
    (w w' : world) (r : outcome (string * string * gmap string pyany)) :
  format_override E = None ->
  heap w !! history = Some (PyList [system]) ->
  heap w !! system = Some (PyDict d) ->
  d !! "content" = Some content ->
  user_turn E history prompt a true w = (r, w') ->
  _history w' = _history w
  /\ (exists items, heap w' !! history = Some (PyList items) /\ (2 <= List.length items)%nat)
  /\ calls w' = calls w ++ [priming_call content a]
  /\ forall x, r = Ok x ->
       x.1.1 = prompt /\ x.2 = <["reset_context" := PyBool true]> (generate_kwargs a).
Proof.
  intros Hov Hlist Hsys Hcontent. unfold user_turn. rewrite bind_run. unfold alloc at 1.
  assert (Hlt : (history < List.length (heap w))%nat) by by eapply lookup_lt_Some.
  assert (Hlt' : (system < List.length (heap w))%nat) by by eapply lookup_lt_Some.
  set (user := PyDict {[ "role" := "user"; "content" := prompt ]}).
  set (wa := set_heap (heap w ++ [user]) w).
  assert (Hlist_a : heap wa !! history = Some (PyList [system])).
  { cbn. by rewrite lookup_app_l. }
  rewrite bind_run, (list_append_ok _ _ _ _ Hlist_a).
  set (wb := set_heap _ wa).
  assert (Hlist_b : heap wb !! history
                    = Some (PyList (system :: [List.length (heap w)]))).
  { cbn. by rewrite list_lookup_insert_eq by (rewrite length_app; lia). }
  assert (Hsys_b : heap wb !! system = Some (PyDict d)).
  { cbn. rewrite list_lookup_insert_ne by congruence. by rewrite lookup_app_l. }
  rewrite bind_run.
  destruct (format_turn E history prompt a true wb) as [[[p t]|e] wc] eqn:Hfmt;
    destruct (format_turn_first _ _ _ _ _ _ _ _ _ _ _ Hov Hlist_b Hsys_b Hcontent Hfmt)
      as ((Hh & _ & Hl & _) & Hcalls & Hp);
    intros [= <- <-]; (split; [done|]); (split; [eexists; split; [by apply Hl|cbn; lia]|]);
    (split; [done|]).
  - intros x [= <-]. split; [|done]. by apply (Hp (p, t)).
  - done.
Qed.

(** What follows the session branch in [generate] makes the main call
and no other. *)
Lemma keeps_respond (E : env) (hist : option ref) (a : generate_args)
    (φ : engine_call -> Prop) (x : string * string * gmap string pyany) :
  (forall p t oc, φ (main_call p t x.2 a oc)) ->
  keeps (advances φ) (fun _ => True)
    (let '(prompt, prompt_template, kwargs) := x in
     output_collector ← prepare_callback hist;
     send_request E prompt prompt_template kwargs a output_collector).
Proof.
  destruct x as [[p t] kwargs]. cbn. intros Hmain.
  kbind; [apply keeps_prepare_callback|]. intros output_collector _.
  eapply keeps_weaken;
    [apply (keeps_send_request _ _ _ _ _ _ φ), Hmain|apply settles_advances|done].
Qed.

Lemma grows_past_first_turn (w w' : world) :
  grows w w' -> past_first_turn w -> past_first_turn w'.
Proof.
  intros (Hh & _ & Hl & _) (history & items & Hhist & Hlist & Hlen).
  destruct (Hl _ _ Hlist) as (more & Hlist').
  exists history, (items ++ more). split; [congruence|]. split; [done|].
  rewrite length_app. lia.
Qed.

(** Past the first turn, a [generate] call makes no priming call,
whatever its outcome, and leaves the session past its first turn. *)
Lemma generate_later (E : env) (prompt : string) (a : generate_args)
    (w w' : world) (r : outcome generate_return) :
  past_first_turn w ->
  generate E prompt a w = (r, w') ->
  past_first_turn w' /\ emits (fun c => is_priming c = false) w w'.
Proof.
  intros Hpast Hgen. pose proof Hpast as (history & items & Hhist & Hlist & Hlen).
  unfold generate in Hgen. rewrite bind_run in Hgen. unfold get_history in Hgen.
  rewrite Hhist in Hgen. unfold session_turn in Hgen.
  rewrite bind_run, bind_run, (list_len_ok _ _ _ Hlist), <- bind_run in Hgen.
  assert ((len items =? 1) = false) as Hreset by (unfold len; lia).
  rewrite Hreset in Hgen.
  assert (Hkeeps : keeps (advances (fun c => is_priming c = false)) (fun _ => True)
            (user_turn E history prompt a false
             ≫= λ '(prompt, prompt_template, kwargs),
                  output_collector ← prepare_callback (Some history);
                  send_request E prompt prompt_template kwargs a output_collector)).
  { eapply keeps_bind; [apply _|apply keeps_user_turn; done|].
    intros x _. by apply (keeps_respond E (Some history) a _ x). }
  destruct (Hkeeps _ _ _ Hgen) as [[Hg He] _].
  split; [by eapply grows_past_first_turn|done].
Qed.

Lemma generate_each_later (E : env) (requests : list (string * generate_args)) (w : world) :
  past_first_turn w ->
  emits (fun c => is_priming c = false) w (generate_each E requests w).
Proof.
  revert w. induction requests as [|[prompt a] rest IH]; intros w Hpast; cbn.
  - reflexivity.
  - destruct (generate E prompt a w) as [r w'] eqn:Hgen.
    destruct (generate_later _ _ _ _ _ _ Hpast Hgen) as [Hpast' He].
    etrans; [exact He|]. by apply IH.
Qed.

(** C3 (amended).  In a session of an object whose
[_format_chat_prompt_template] is not overridden, the first [generate]
call after entry makes first the zero-output priming call that passes
the system message content under the template ["%1"], and no other
priming call; when it returns, the one call after the priming call is
the main call for the user's prompt.  Every later [generate] call of
the session, whatever the outcomes in between, makes no priming call. *)
Theorem first_turn_priming
    (E : env) (system_prompt prompt_template : option string) (w w1 : world)
    (prompt : string) (a : generate_args) (later : list (string * generate_args)) :
  format_override E = None ->
  chat_session_enter E system_prompt prompt_template w = (Ok tt, w1) ->
  (exists rest,
      calls (snd (generate E prompt a w1))
      = calls w1 ++ priming_call (effective_system_prompt E system_prompt) a :: rest
      /\ Forall (fun c => is_priming c = false) rest
      /\ (forall x, fst (generate E prompt a w1) = Ok x ->
          exists t oc,
            rest = [main_call prompt t
                      (<["reset_context" := PyBool true]> (generate_kwargs a)) a oc]))
  /\ (exists others,
         calls (generate_each E later (snd (generate E prompt a w1)))
         = calls (snd (generate E prompt a w1)) ++ others
         /\ Forall (fun c => is_priming c = false) others).
Proof.
  intros Hov (history & system & Hhist & Hlist & Hsys & _)%chat_session_enter_Ok.
  destruct (generate E prompt a w1) as [r w2] eqn:Hgen. cbn [fst snd].
  assert (Hcontent : ({[ "role" := "system";
                         "content" := effective_system_prompt E system_prompt ]}
                      : gmap string string) !! "content"
                     = Some (effective_system_prompt E system_prompt))
    by by simplify_map_eq.
  unfold generate in Hgen. rewrite bind_run in Hgen. unfold get_history in Hgen.
  rewrite Hhist in Hgen. unfold session_turn in Hgen.
  rewrite bind_run, bind_run, (list_len_ok _ _ _ Hlist) in Hgen.
  change (len [system] =? 1) with true in Hgen.
  destruct (user_turn E history prompt a true w1) as [rx wx] eqn:Hturn.
  destruct (user_turn_first _ _ _ _ _ _ _ _ _ _ Hov Hlist Hsys Hcontent Hturn)
    as (Hhx & (items & Hlx & Hlenx) & Hcx & Hrx).
  assert (Hpast : past_first_turn wx).
  { exists history, items. split; [congruence|done]. }
  assert (Hfirst : exists rest,
             calls w2 = calls wx ++ rest
             /\ Forall (fun c => is_priming c = false) rest
             /\ past_first_turn w2
             /\ (forall x, r = Ok x ->
                 exists t oc,
                   rest = [main_call prompt t
                             (<["reset_context" := PyBool true]> (generate_kwargs a)) a oc])).
  { destruct rx as [[[p t] kwargs]|e].
    - destruct (Hrx _ eq_refl) as [Hp Hkw]. cbn in Hp, Hkw. subst p kwargs.
      destruct (keeps_respond E (Some history) a (fun c => is_priming c = false)
                  (prompt, t, <["reset_context" := PyBool true]> (generate_kwargs a))
                  (fun _ _ _ => eq_refl) _ _ _ Hgen) as [[Hg (rest & Hc & Hall)] _].
      exists rest. split; [done|]. split; [done|].
      split; [by eapply grows_past_first_turn|].
      intros x ->. cbn in Hgen.
      apply bind_Ok_inv in Hgen as (oc & w3 & Hprep & Hsend).
      assert (Hc3 : calls w3 = calls wx).
      { apply emits_nothing.
        by destruct (keeps_prepare_callback (Some history) (fun _ => False) _ _ _ Hprep)
          as [[_ ?] _]. }
      apply send_request_effect in Hsend as [_ Hc2].
      rewrite Hc2, Hc3 in Hc. apply app_inv_head in Hc. subst rest. by eauto.
    - injection Hgen as <- <-. exists []. rewrite app_nil_r. by repeat split. }
  destruct Hfirst as (rest & Hc2 & Hall & Hpast2 & Hret). split.
  - exists rest. split; [|done]. by rewrite Hc2, Hcx, <- app_assoc.
  - by apply generate_each_later.
Qed.

Lemma first_turn_priming_witness :
  exists rest others,
    calls (generate_each (model chatty) [("More", default_args)]
             (snd (generate (model chatty) "Hi" default_args (entered (model chatty)))))
    = (priming_call "Be brief." default_args :: rest) ++ others
    /\ Forall (fun c => is_priming c = false) rest
    /\ Forall (fun c => is_priming c = false) others
    /\ List.length rest = 1%nat.
Proof.
  destruct (first_turn_priming (model chatty) None None inactive (entered (model chatty))
              "Hi" default_args [("More", default_args)])
    as [(rest & Hfirst & Hrest & Hret) (others & Hlater & Hothers)];
    [reflexivity|reflexivity|].
  exists rest, others. split; [by rewrite Hlater, Hfirst|]. split; [done|]. split; [done|].
  destruct (Hret (Completion "Hello")) as (t & oc & ->); [reflexivity|done].
Defined.

(** C3 (as stated, refuted).  The claim speaks of every active
session.  For an object of a subclass that overrides
[_format_chat_prompt_template], the session is entered, the transcript
holds the system message only, the first [generate] call returns, and
the one engine call it has made is not a priming call. *)
Lemma priming_claim_counterexample :
  chat_session_enter legacy_model None None inactive = (Ok tt, entered legacy_model)
  /\ List.length <$> transcript (entered legacy_model) = Some 1%nat
  /\ fst (generate legacy_model "Hi" default_args (entered legacy_model))
     = Ok (Completion "Hello")
  /\ is_priming <$> calls (snd (generate legacy_model "Hi" default_args
                                  (entered legacy_model)))
     = [false].
Proof. repeat split. Qed.

(** ** The shape of the transcript *)

Lemma transcript_Some (w : world) (msgs : list (gmap string string)) :
  transcript w = Some msgs <->
  exists history items,
    _history w = Some history
    /\ heap w !! history = Some (PyList items)
    /\ reads (heap w) items msgs.
Proof.
  unfold transcript, reads. split.
  - destruct (_history w) as [history|]; [|done].
    destruct (heap w !! history) as [[|items]|] eqn:Hlist; try done.
    intros H%mapM_Some. exists history, items. split; [done|]. split; [done|].
    eapply Forall2_impl; [exact H|]. intros r m Hr. cbn in Hr. by repeat case_match; simplify_eq.
  - intros (history & items & -> & -> & H). apply mapM_Some.
    eapply Forall2_impl; [exact H|]. intros r m Hr. cbn. by rewrite Hr.
Qed.

Lemma roles_kept_trans (w1 w2 w3 : world) :
  roles_kept w1 w2 -> roles_kept w2 w3 -> roles_kept w1 w3.
Proof.
  intros H12 H23 r d Hr. destruct (H12 _ _ Hr) as (d2 & Hr2 & Hrole2).
  destruct (H23 _ _ Hr2) as (d3 & Hr3 & Hrole3). exists d3. split; [done|congruence].
Qed.

Lemma frame_roles_kept (w w' : world) : frame w w' -> roles_kept w w'.
Proof. by intros (_ & _ & _ & Hd). Qed.

Lemma reads_kept (w w' : world) (items : list ref) (msgs : list (gmap string string)) :
  roles_kept w w' ->
  reads (heap w) items msgs ->
  exists msgs', reads (heap w') items msgs' /\ role <$> msgs' = role <$> msgs.
Proof.
  intros Hkept. unfold reads. induction 1 as [|r m items msgs Hr _ (msgs' & IH & Hroles)].
  - by exists [].
  - destruct (Hkept _ _ Hr) as (m' & Hr' & Hrole). exists (m' :: msgs').
    split; [by constructor|]. cbn. by rewrite Hrole, Hroles.
Qed.

(** Appending a new dict to a list of the store. *)
Lemma append_new (w : world) (l : ref) (items : list ref) (d : gmap string string) :
  heap w !! l = Some (PyList items) ->
  let x := List.length (heap w) in
  let w' := set_heap (<[l := PyList (items ++ [x])]> (heap w ++ [PyDict d])) w in
  heap w' !! l = Some (PyList (items ++ [x]))
  /\ heap w' !! x = Some (PyDict d)
  /\ roles_kept w w'.
Proof.
  intros Hl x w'. assert (Hlt : (l < List.length (heap w))%nat) by by eapply lookup_lt_Some.
  unfold w'. cbn. split; [|split].
  - by rewrite list_lookup_insert_eq by (rewrite length_app; lia).
  - rewrite list_lookup_insert_ne by (unfold x; lia).
    by rewrite lookup_app_r, Nat.sub_diag by (unfold x; lia).
  - intros r d0 Hr. exists d0. split; [|done]. cbn.
    rewrite list_lookup_insert_ne by congruence. by apply lookup_app_l_Some.
Qed.

(** The session branch of a turn that goes through: one user message
more. *)
Lemma user_turn_Ok (E : env) (history : ref) (prompt : string) (a : generate_args)
    (reset : bool) (w w' : world) (items : list ref)
    (x : string * string * gmap string pyany) :
  heap w !! history = Some (PyList items) ->
  user_turn E history prompt a reset w = (Ok x, w') ->
  _history w' = _history w
  /\ roles_kept w w'
  /\ exists u du,
       heap w' !! history = Some (PyList (items ++ [u]))
       /\ heap w' !! u = Some (PyDict du)
       /\ role du = Some "user".
Proof.
  intros Hlist. unfold user_turn.
  intros (u & wa & Halloc & H)%bind_Ok_inv. injection Halloc as <- <-.
  assert (Hlist_a : heap (set_heap (heap w ++ [PyDict {[ "role" := "user"; "content" := prompt ]}]) w)
                    !! history = Some (PyList items)).
  { cbn. by apply lookup_app_l_Some. }
  rewrite bind_run, (list_append_ok _ _ _ _ Hlist_a) in H.
  apply bind_Ok_inv in H as ([p t] & wc & Hfmt & Hret). injection Hret as _ <-.
  destruct (append_new w history items {[ "role" := "user"; "content" := prompt ]} Hlist)
    as (Hl & Hu & Hkept).
  assert (Hframe : frame
            (set_heap (<[history := PyList (items ++ [List.length (heap w)])]>
                         (heap w ++ [PyDict {[ "role" := "user"; "content" := prompt ]}])) w)
            wc).
  { destruct reset; [destruct (format_override E) eqn:Hov|].
    - eapply quiet_frame, keeps_format_turn_quiet; [|exact Hfmt]. right. congruence.
    - by edestruct (keeps_format_turn_priming E history prompt a (fun _ => True) Hov)
        as [[? _] _]; [|exact Hfmt|].
    - eapply quiet_frame, keeps_format_turn_quiet; [|exact Hfmt]. by left. }
  pose proof Hframe as (Hh & _ & Hlists & Hdicts).
  split; [done|]. split; [by eapply roles_kept_trans; [|apply frame_roles_kept]|].
  destruct (Hdicts _ _ Hu) as (du & Hu' & Hrole).
  exists (List.length (heap w)), du. split; [by apply Hlists|]. split; [done|].
  rewrite Hrole. unfold role. by simplify_map_eq.
Qed.

(** Setting the output collector in a session: one assistant message
more, and the collector is the transcript. *)
Lemma prepare_callback_Ok (history oc : ref) (w w' : world) (items : list ref) :
  heap w !! history = Some (PyList items) ->
  prepare_callback (Some history) w = (Ok oc, w') ->
  oc = history
  /\ _history w' = _history w
  /\ roles_kept w w'
  /\ exists v dv,
       heap w' !! history = Some (PyList (items ++ [v]))
       /\ heap w' !! v = Some (PyDict dv)
       /\ role dv = Some "assistant".
Proof.
  intros Hlist. unfold prepare_callback.
  intros (ph & wa & Ha & H)%bind_Ok_inv. injection Ha as <- <-.
  apply bind_Ok_inv in H as (pl & wb & Hb & H). injection Hb as <- <-.
  apply bind_Ok_inv in H as (v & wc & Hc & H). injection Hc as <- <-.
  set (w2 := set_heap ((heap w ++ [PyDict {[ "content" := "" ]}])
                        ++ [PyList [List.length (heap w)]]) w).
  assert (Hlist2 : heap w2 !! history = Some (PyList items)).
  { cbn. by do 2 apply lookup_app_l_Some. }
  assert (Hkept2 : roles_kept w w2).
  { intros r d Hr. exists d. split; [|done]. cbn. by do 2 apply lookup_app_l_Some. }
  destruct (append_new w2 history items {[ "role" := "assistant"; "content" := "" ]} Hlist2)
    as (Hl & Hv & Hkept).
  assert (Hlist_c : heap (set_heap (heap w2 ++ [PyDict {[ "role" := "assistant"; "content" := "" ]}]) w2)
                    !! history = Some (PyList items)).
  { cbn. by do 3 apply lookup_app_l_Some. }
  change (set_heap _ (set_heap _ (set_heap _ w)))
    with (set_heap (heap w2 ++ [PyDict {[ "role" := "assistant"; "content" := "" ]}]) w2) in H.
  change (List.length (heap (set_heap _ (set_heap _ w)))) with (List.length (heap w2)) in H.
  rewrite bind_run, (list_append_ok _ _ _ _ Hlist_c) in H. injection H as <- <-.
  split; [done|]. split; [done|]. split; [by eapply roles_kept_trans|].
  eexists _, _. split; [exact Hl|]. split; [exact Hv|]. unfold role. by simplify_map_eq.
Qed.

(** A [generate] call that returns in a session: the transcript list
has got a user message and an assistant message, in this order. *)
Lemma generate_Ok_appends (E : env) (prompt : string) (a : generate_args)
    (w w' : world) (r : generate_return) (history : ref) (items : list ref) :
  _history w = Some history ->
  heap w !! history = Some (PyList items) ->
  generate E prompt a w = (Ok r, w') ->
  _history w' = Some history
  /\ roles_kept w w'
  /\ exists u v du dv,
       heap w' !! history = Some (PyList (items ++ [u; v]))
       /\ heap w' !! u = Some (PyDict du) /\ role du = Some "user"
       /\ heap w' !! v = Some (PyDict dv) /\ role dv = Some "assistant".
Proof.
  intros Hhist Hlist. unfold generate.
  intros (hist & w0 & Hget & H)%bind_Ok_inv. unfold get_history in Hget.
  rewrite Hhist in Hget. injection Hget as <- <-.
  apply bind_Ok_inv in H as ([[p t] kwargs] & w1 & Hturn & H).
  apply bind_Ok_inv in H as (oc & w2 & Hprep & Hsend).
  unfold session_turn in Hturn. rewrite bind_run, (list_len_ok _ _ _ Hlist) in Hturn.
  destruct (user_turn_Ok _ _ _ _ _ _ _ _ _ Hlist Hturn)
    as (Hh1 & Hk1 & u & du & Hl1 & Hu1 & Hru).
  destruct (prepare_callback_Ok _ _ _ _ _ Hl1 Hprep)
    as (-> & Hh2 & Hk2 & v & dv & Hl2 & Hv2 & Hrv).
  apply send_request_effect in Hsend as [(Hh3 & _ & Hl3 & Hd3) _].
  split; [congruence|].
  split; [by eapply roles_kept_trans; [eapply roles_kept_trans|]|].
  destruct (Hk2 _ _ Hu1) as (du2 & Hu2 & Hru2).
  destruct (Hd3 _ _ Hu2) as (du3 & Hu3 & Hru3).
  destruct (Hd3 _ _ Hv2) as (dv3 & Hv3 & Hrv3).
  exists u, v, du3, dv3. rewrite <- app_assoc in Hl2.
  split; [by apply Hl3|]. split; [done|]. split; [congruence|]. split; [done|congruence].
Qed.

Lemma generate_Ok_transcript (E : env) (prompt : string) (a : generate_args)
    (w w' : world) (r : generate_return) (msgs : list (gmap string string)) :
  transcript w = Some msgs ->
  generate E prompt a w = (Ok r, w') ->
  exists msgs' mu ma,
    transcript w' = Some (msgs' ++ [mu; ma])
    /\ role <$> msgs' = role <$> msgs
    /\ role mu = Some "user"
    /\ role ma = Some "assistant".
Proof.
  intros (history & items & Hhist & Hlist & Hreads)%transcript_Some Hgen.
  destruct (generate_Ok_appends _ _ _ _ _ _ _ _ Hhist Hlist Hgen)
    as (Hh & Hkept & u & v & du & dv & Hl & Hu & Hru & Hv & Hrv).
  destruct (reads_kept _ _ _ _ Hkept Hreads) as (msgs' & Hreads' & Hroles).
  exists msgs', du, dv. split; [|done].
  apply transcript_Some. exists history, (items ++ [u; v]).
  split; [done|]. split; [done|]. apply Forall2_app; [done|].
  by repeat constructor.
Qed.

Lemma turns_length (k : nat) : List.length (turns k) = (2 * k)%nat.
Proof. induction k as [|k IH]; cbn; lia. Qed.

Lemma turns_not_system (k i : nat) (x : option string) :
  turns k !! i = Some x -> x <> Some "system".
Proof.
  revert i. induction k as [|k IH]; intros i; [done|].
  destruct i as [|[|i]]; cbn; [by intros [= <-]|by intros [= <-]|apply IH].
Qed.

(** The roles after a run of calls that all return. *)
Lemma generate_all_roles (E : env) (requests : list (string * generate_args))
    (w w' : world) (msgs : list (gmap string string)) :
  transcript w = Some msgs ->
  generate_all E requests w = (Ok tt, w') ->
  exists msgs',
    transcript w' = Some msgs'
    /\ role <$> msgs' = (role <$> msgs) ++ turns (List.length requests).
Proof.
  revert w msgs. induction requests as [|[prompt a] rest IH]; intros w msgs Htr; cbn.
  - intros [= <-]. exists msgs. by rewrite app_nil_r.
  - intros (r & w1 & Hgen & Hrest)%bind_Ok_inv.
    destruct (generate_Ok_transcript _ _ _ _ _ _ _ Htr Hgen)
      as (msgs1 & mu & ma & Htr1 & Hroles & Hru & Hra).
    destruct (IH _ _ Htr1 Hrest) as (msgs' & Htr' & Hroles').
    exists msgs'. split; [done|]. rewrite Hroles', fmap_app, Hroles. cbn.
    by rewrite Hru, Hra, <- app_assoc.
Qed.

(** C6.  From session entry on, after [k] calls to [generate] that have
each returned, the transcript has [1 + 2k] messages; their roles are
[system] followed by [k] times [user], [assistant]; and a message has
role [system] exactly when it stands at index 0. *)
Theorem transcript_invariant
    (E : env) (system_prompt prompt_template : option string) (w w1 w' : world)
    (requests : list (string * generate_args)) :
  chat_session_enter E system_prompt prompt_template w = (Ok tt, w1) ->
  generate_all E requests w1 = (Ok tt, w') ->
  exists msgs,
    transcript w' = Some msgs
    /\ List.length msgs = (1 + 2 * List.length requests)%nat
    /\ role <$> msgs = Some "system" :: turns (List.length requests)
    /\ forall i m, msgs !! i = Some m -> role m = Some "system" <-> i = 0%nat.
Proof.
  intros (history & system & Hhist & Hlist & Hsys & _)%chat_session_enter_Ok Hall.
  assert (Htr : transcript w1
                = Some [{[ "role" := "system";
                           "content" := effective_system_prompt E system_prompt ]}]).
  { apply transcript_Some. exists history, [system]. split; [done|]. split; [done|].
    by repeat constructor. }
  destruct (generate_all_roles _ _ _ _ _ Htr Hall) as (msgs & Htr' & Hroles).
  change (role <$> [_]) with [role ({[ "role" := "system";
            "content" := effective_system_prompt E system_prompt ]} : gmap string string)]
    in Hroles.
  assert (Hrole : role ({[ "role" := "system";
                           "content" := effective_system_prompt E system_prompt ]}
                        : gmap string string) = Some "system")
    by (unfold role; by simplify_map_eq).
  rewrite Hrole in Hroles. cbn [app] in Hroles.
  exists msgs. split; [done|]. split; [|split; [done|]].
  - apply (f_equal List.length) in Hroles. rewrite length_fmap in Hroles.
    rewrite Hroles. cbn. by rewrite turns_length.
  - intros i m Hi. assert (Hri : (role <$> msgs) !! i = Some (role m))
      by by rewrite list_lookup_fmap, Hi.
    rewrite Hroles in Hri. destruct i as [|i]; cbn in Hri.
    + by injection Hri as <-.
    + split; [|done]. intros Hm. rewrite Hm in Hri. by apply turns_not_system in Hri.
Qed.

Lemma transcript_invariant_witness :
  exists msgs,
    transcript (snd (generate_all (model chatty)
                       [("Hi", default_args); ("More", default_args)]
                       (entered (model chatty)))) = Some msgs
    /\ List.length msgs = 5%nat
    /\ role <$> msgs = [Some "system"; Some "user"; Some "assistant";
                        Some "user"; Some "assistant"].
Proof.
  destruct (transcript_invariant (model chatty) None None inactive (entered (model chatty))
              (snd (generate_all (model chatty)
                      [("Hi", default_args); ("More", default_args)]
                      (entered (model chatty))))
              [("Hi", default_args); ("More", default_args)])
    as (msgs & Htr & Hlen & Hroles & _);
    [vm_compute; exact eq_refl|vm_compute; exact eq_refl|].
  exists msgs. split; [exact Htr|]. split; [exact Hlen|exact Hroles].
Defined.

End ChatFacts.

(* ===================================================================== *)
(** * Further properties of [download_model]                              *)
(* ===================================================================== *)

Section DownloadMore.
Import Download Scenario MoreScenarios.

(** The progress bar counts the bytes of the file, and the loop leaves
normally only with at least the declared number of bytes. *)
Lemma download_loop_Ok_enough E url total fuel resp p w p' w' :
  progress_bar_n p = len (file p) ->
  download_loop E url total fuel resp p w = Some (Ok tt, p', w') ->
  progress_bar_n p' = len (file p')
  /\ total <= len (file p')
  /\ exists more, file p' = file p ++ more.
Proof.
  revert resp p w. induction fuel as [|fuel IH]; intros resp p w Hn; [done|].
  cbn [download_loop]. destruct (iter_content resp block_size) as [chunks ending].
  rewrite write_chunks_concat.
  set (p1 := {| file := file p ++ concat chunks;
                progress_bar_n := progress_bar_n p + len (concat chunks) |}).
  assert (Hn1 : progress_bar_n p1 = len (file p1)).
  { cbn. unfold len in *. rewrite length_app. lia. }
  assert (Hnext : forall resp' w1,
             download_loop E url total fuel resp' p1 w1 = Some (Ok tt, p', w') ->
             progress_bar_n p' = len (file p') /\ total <= len (file p')
             /\ exists more, file p' = file p ++ more).
  { intros resp' w1 Hloop. destruct (IH _ _ _ Hn1 Hloop) as (Hn' & Htot & more & Hmore).
    split; [done|]. split; [done|]. exists (concat chunks ++ more).
    by rewrite Hmore, app_assoc. }
  destruct ending as [|e].
  - destruct (negb (total =? 0) && (progress_bar_n p1 <? total)) eqn:Hshort.
    + destruct (progress_bar_n p1 =? progress_bar_n p); [done|].
      destruct (make_request E url _ w) as [[resp'|e] w1]; [apply Hnext|done].
    + intros [= <- <-]. split; [done|]. split; [|by eexists].
      rewrite <- Hn1. apply andb_false_iff in Hshort as [Hz|Hlt].
      * apply negb_false_iff, Z.eqb_eq in Hz. subst total. rewrite Hn1. unfold len. lia.
      * apply Z.ltb_ge in Hlt. done.
  - destruct e; try done. destruct (incomplete_read args) as [partial|]; [|done].
    destruct (progress_bar_n p1 <=? partial); [|done].
    destruct (make_request E url _ w) as [[resp'|e] w1]; [apply Hnext|done].
Qed.

(** X1.  Whenever [download_model] returns, the destination file exists
and holds at least as many bytes as the first response declared in its
[content-length] header (zero when the header is absent). *)
Theorem download_returns_declared_length
    (E : env) (fuel : nat) (model_filename model_path : string) (verbose : bool)
    (url : option string) (w w' : world) (path : string) :
  download_model E fuel model_filename model_path verbose url w = Some (Ok path, w') ->
  path = path_join model_path model_filename
  /\ exists resp w1 data,
       make_request E (default (DEFAULT_URL model_filename) url) None w = (Ok resp, w1)
       /\ fs w' !! path = Some data
       /\ default 0 (content_length resp) <= len data.
Proof.
  unfold download_model.
  destruct (make_request E _ None w) as [[resp|e] w1] eqn:Hreq; [|done].
  destruct (download_loop E _ _ fuel resp _ w1) as [[[[[]|e] p] w2]|] eqn:Hloop; try done.
  intros [= <- <-]. split; [done|]. exists resp, w1, (file p). split; [done|].
  cbn. rewrite lookup_insert_eq. split; [done|].
  assert (Hstart : progress_bar_n {| file := []; progress_bar_n := 0 |}
                   = len (file {| file := []; progress_bar_n := 0 |})) by reflexivity.
  by destruct (download_loop_Ok_enough _ _ _ _ _ _ _ _ _ Hstart Hloop) as (_ & ? & _).
Qed.

Lemma download_returns_declared_length_witness :
  exists data,
    fs (snd (default (Raise OSError, no_files)
               (download_model
                  (two_step_server [[x61]] EndOfStream
                     (serve 206 "Partial Content" (Some "bytes 1-2/3") [[x62; x63]] EndOfStream)
                     false)
                  2 "m.gguf" "/models" true None no_files)))
       !! path_join "/models" "m.gguf" = Some data
    /\ 3 <= len data.
Proof.
  destruct (download_returns_declared_length
              (two_step_server [[x61]] EndOfStream
                 (serve 206 "Partial Content" (Some "bytes 1-2/3") [[x62; x63]] EndOfStream)
                 false)
              2 "m.gguf" "/models" true None no_files
              (snd (default (Raise OSError, no_files)
                      (download_model
                         (two_step_server [[x61]] EndOfStream
                            (serve 206 "Partial Content" (Some "bytes 1-2/3")
                               [[x62; x63]] EndOfStream) false)
                         2 "m.gguf" "/models" true None no_files)))
              (path_join "/models" "m.gguf"))
    as (_ & resp & w1 & data & Hreq & Hfile & Hlen); [reflexivity|].
  exists data. split; [exact Hfile|]. by injection Hreq as <- _.
Defined.



(** X3.  When no response ever raises while its body is read, the
download cannot go on for ever: once the first request is through,
any number of rounds above the declared length makes [download_model]
return or raise. *)
Theorem download_terminates_on_clean_ends
    (E : env) (fuel : nat) (model_filename model_path : string) (verbose : bool)
    (url : option string) (w w1 : world) (resp : response) :
  (forall i u hs r, requests_get E i u hs = inr r ->
                    snd (iter_content r block_size) = EndOfStream) ->
  make_request E (default (DEFAULT_URL model_filename) url) None w = (Ok resp, w1) ->
  (Z.to_nat (default 0%Z (content_length resp)) < fuel)%nat ->
  exists result, download_model E fuel model_filename model_path verbose url w = Some result.
Proof.
  intros Hclean Hreq Hfuel. unfold download_model. rewrite Hreq.
  destruct (download_loop_bounded_on_early_ends E (default (DEFAULT_URL model_filename) url)
              (default 0 (content_length resp)) Hclean fuel resp
              {| file := []; progress_bar_n := 0 |} w1) as [[[[[]|e] p] w2] ->].
  - apply make_request_from_server in Hreq. by eapply Hclean.
  - cbn. by rewrite Z.sub_0_r.
  - by eexists.
  - by eexists.
Qed.

Lemma download_terminates_on_clean_ends_witness :
  exists result,
    download_model (constant_server (serve 200 "OK" None [[x61]] EndOfStream)) 4
      "m.gguf" "/models" true None no_files = Some result.
Proof.
  eapply (download_terminates_on_clean_ends
            (constant_server (serve 200 "OK" None [[x61]] EndOfStream)) 4
            "m.gguf" "/models" true None no_files).
  - intros i u hs r [= <-]. reflexivity.
  - reflexivity.
  - cbn. lia.
Defined.

(** X4.  A first response with a status other than 200 and 206 makes
[download_model] raise the request-failed [ValueError] at once, for any
number of rounds allowed: one request has been sent and the file system
is as it was, so no destination file is created or removed. *)
Theorem first_request_refused
    (E : env) (fuel : nat) (model_filename model_path : string) (verbose : bool)
    (url : option string) (w : world) (r : response) :
  requests_get E (List.length (sent w)) (default (DEFAULT_URL model_filename) url) [] = inr r ->
  status_code r <> 200 -> status_code r <> 206 ->
  download_model E fuel model_filename model_path verbose url w
  = Some (Raise (RemoteError (status_code r) (reason r)),
          {| fs := fs w; sent := sent w ++ [[]] |}).
Proof.
  intros Hget H200 H206. unfold download_model, make_request. cbn [range_headers].
  rewrite Hget.
  assert ((status_code r =? 200) = false) as -> by lia.
  by assert ((status_code r =? 206) = false) as -> by lia.
Qed.

Lemma first_request_refused_witness :
  download_model (constant_server (serve 404 "Not Found" None [] EndOfStream)) 0
    "m.gguf" "/models" true None no_files
  = Some (Raise (ValueError "Request failed: HTTP 404 Not Found"), {| fs := ∅; sent := [[]] |}).
Proof.
  apply (first_request_refused (constant_server (serve 404 "Not Found" None [] EndOfStream)) 0
           "m.gguf" "/models" true None no_files (serve 404 "Not Found" None [] EndOfStream));
    [reflexivity|cbn; lia|cbn; lia].
Defined.

End DownloadMore.

(* ===================================================================== *)
(** * Further properties of [Embed4All.embed]                             *)
(* ===================================================================== *)

Section EmbedMore.
Import Embed Scenario.

Lemma do_mean_of_invalid (mode : string) :
  mode <> "mean" -> mode <> "truncate" -> do_mean_of mode = None.
Proof.
  intros Hm Ht. unfold do_mean_of.
  rewrite lookup_insert_ne by done. by rewrite lookup_singleton_ne.
Qed.

(** X5.  For a [long_text_mode] other than ["mean"] and ["truncate"],
[embed] raises the [ValueError] on the mode and makes no engine call,
whenever the dimensionality is [None] or positive; with a dimensionality
that is not positive, the error on the dimensionality comes first. *)
Theorem embed_rejects_long_text_mode
    (E : env) (text : text_arg) (prefix : option string) (dimensionality : option Z)
    (long_text_mode : string) (return_dict atlas : bool) (w : world) :
  long_text_mode <> "mean" -> long_text_mode <> "truncate" ->
  calls (snd (embed E text prefix dimensionality long_text_mode return_dict atlas w))
  = calls w
  /\ fst (embed E text prefix dimensionality long_text_mode return_dict atlas w)
     = match dimensionality with
       | Some d => if d <=? 0 then Raise (ValueError (MSG_DIMENSIONALITY d))
                   else Raise (ValueError (MSG_LONG_TEXT_MODE long_text_mode))
       | None => Raise (ValueError (MSG_LONG_TEXT_MODE long_text_mode))
       end.
Proof.
  intros Hm Ht. unfold embed. rewrite (do_mean_of_invalid _ Hm Ht).
  destruct dimensionality as [d|]; [|done].
  destruct (d <=? 0); [done|]. by destruct (d <? MIN_DIMENSIONALITY).
Qed.

Lemma embed_rejects_long_text_mode_witness :
  embed embedder (TextStr "hello") None None "bogus" false false no_warnings
  = (Raise (ValueError "Long text mode must be one of 'mean' or 'truncate', got bogus"),
     no_warnings).
Proof.
  destruct (embed_rejects_long_text_mode embedder (TextStr "hello") None None "bogus"
              false false no_warnings) as [Hcalls Hres]; [done|done|].
  destruct (embed embedder (TextStr "hello") None None "bogus" false false no_warnings)
    as [r w'] eqn:Hrun.
  cbn in Hres. subst r. by injection Hrun as <-.
Defined.

(** X6.  Whatever its arguments, [embed] makes at most one engine call
and emits at most one warning; it returns a value only after the engine
call was made and returned, and that value comes from the engine's
result: the whole dict with [return_dict], else its embeddings. *)
Theorem embed_one_engine_call
    (E : env) (text : text_arg) (prefix : option string) (dimensionality : option Z)
    (long_text_mode : string) (return_dict atlas : bool) (w : world) :
  let run := embed E text prefix dimensionality long_text_mode return_dict atlas w in
  (warnings (snd run) = warnings w \/ exists msg, warnings (snd run) = warnings w ++ [msg])
  /\ (calls (snd run) = calls w \/ exists c, calls (snd run) = calls w ++ [c])
  /\ forall v, fst run = Ok v ->
       exists c result,
         calls (snd run) = calls w ++ [c]
         /\ generate_embeddings E c = Ok result
         /\ ec_dimensionality c = default (-1) dimensionality
         /\ v = if return_dict then ReturnDict result
                else ReturnEmbeddings (embeddings result).
Proof.
  unfold embed. cbv zeta.
  destruct dimensionality as [d|]; cbn [default];
    [destruct (d <=? 0); [|destruct (d <? MIN_DIMENSIONALITY)]|];
    cbn [fst snd warnings calls];
    try (split; [by eauto|split; [by eauto|done]]);
    (destruct (do_mean_of long_text_mode) as [do_mean|];
     [|cbn; split; [by eauto|split; [by eauto|done]]]);
    match goal with
    | |- context [generate_embeddings E ?c] =>
        destruct (generate_embeddings E c) as [result|e] eqn:Heng
    end;
    cbn; (split; [by eauto|split; [by eauto|]]); intros v Hv; simplify_eq;
    by eexists _, _.
Qed.

Lemma embed_one_engine_call_witness :
  exists c,
    calls (snd (embed embedder (TextStr "hello") None None "mean" false false no_warnings))
    = [c]
    /\ ec_dimensionality c = -1.
Proof.
  destruct (embed_one_engine_call embedder (TextStr "hello") None None "mean" false false
              no_warnings) as (_ & _ & Hret).
  destruct (Hret (ReturnEmbeddings [[1; 2; 3]])) as (c & result & Hcalls & _ & Hdim & _);
    [reflexivity|].
  exists c. split; [exact Hcalls|exact Hdim].
Defined.

End EmbedMore.

(* ===================================================================== *)
(** * Properties of [append_extension_if_missing] and [retrieve_model]    *)
(* ===================================================================== *)

Section RetrieveFacts.
Import Download Retrieve Scenario MoreScenarios.

(** ** Suffixes *)

Lemma string_app_cons (c : ascii) (s t : string) : String c s +:+ t = String c (s +:+ t).
Proof. reflexivity. Qed.

Lemma string_length_app (s t : string) :
  String.length (s +:+ t) = (String.length s + String.length t)%nat.
Proof. induction s as [|c s IH]; [done|]. rewrite string_app_cons. cbn. by rewrite IH. Qed.

Lemma substring_whole (s : string) : substring 0 (String.length s) s = s.
Proof. induction s as [|c s IH]; [done|]. cbn. by rewrite IH. Qed.

Lemma substring_app_r (s t : string) (n : nat) :
  substring (String.length s) n (s +:+ t) = substring 0 n t.
Proof. induction s as [|c s IH]; [done|]. by rewrite string_app_cons. Qed.

Lemma substring_split (s : string) (n m : nat) :
  (n + m)%nat = String.length s -> s = substring 0 n s +:+ substring n m s.
Proof.
  revert s. induction n as [|n IH]; intros s Hlen.
  - cbn in Hlen. subst m. rewrite substring_whole. by destruct s.
  - destruct s as [|c s]; [done|]. cbn in Hlen. cbn [substring].
    rewrite string_app_cons. f_equal. apply IH. lia.
Qed.

Lemma endswith_spec (s suffix : string) :
  endswith s suffix = true <-> exists pre, s = pre +:+ suffix.
Proof.
  unfold endswith. rewrite andb_true_iff, Nat.leb_le, String.eqb_eq. split.
  - intros [Hlen Hsub]. exists (substring 0 (String.length s - String.length suffix) s).
    pose proof (substring_split s (String.length s - String.length suffix)
                  (String.length suffix)) as Hsplit.
    rewrite Hsub in Hsplit. apply Hsplit. lia.
  - intros [pre ->]. rewrite string_length_app. split; [lia|].
    replace (String.length pre + String.length suffix - String.length suffix)%nat
      with (String.length pre) by lia.
    by rewrite substring_app_r, substring_whole.
Qed.

(** X7.  The name [append_extension_if_missing] gives always ends in
[.bin] or [.gguf]; a name that ends so already is given back as it is;
and applying the function twice is the same as applying it once. *)
Theorem append_extension_if_missing_fixes
    (model_name : string) :
  (exists pre, append_extension_if_missing model_name = pre +:+ ".bin"
               \/ append_extension_if_missing model_name = pre +:+ ".gguf")
  /\ ((exists pre, model_name = pre +:+ ".bin" \/ model_name = pre +:+ ".gguf") ->
      append_extension_if_missing model_name = model_name)
  /\ append_extension_if_missing (append_extension_if_missing model_name)
     = append_extension_if_missing model_name.
Proof.
  assert (Hkeep : forall name,
             (exists pre, name = pre +:+ ".bin" \/ name = pre +:+ ".gguf") ->
             append_extension_if_missing name = name).
  { intros name [pre Hpre]. unfold append_extension_if_missing.
    assert (endswith name ".bin" || endswith name ".gguf" = true) as ->; [|done].
    apply orb_true_iff. destruct Hpre as [->| ->]; [left|right]; apply endswith_spec; by eexists. }
  assert (Hends : exists pre, append_extension_if_missing model_name = pre +:+ ".bin"
                              \/ append_extension_if_missing model_name = pre +:+ ".gguf").
  { unfold append_extension_if_missing.
    destruct (endswith model_name ".bin") eqn:Hbin.
    - apply endswith_spec in Hbin as [pre ->]. exists pre. by left.
    - destruct (endswith model_name ".gguf") eqn:Hgguf; cbn.
      + apply endswith_spec in Hgguf as [pre ->]. exists pre. by right.
      + exists model_name. by right. }
  split; [done|]. split; [apply Hkeep|]. by apply Hkeep.
Qed.

Lemma append_extension_if_missing_fixes_witness :
  append_extension_if_missing "orca-mini.gguf" = "orca-mini.gguf"
  /\ append_extension_if_missing "old.bin" = "old.bin"
  /\ append_extension_if_missing "orca-mini" = "orca-mini.gguf".
Proof.
  split; [|split].
  - destruct (append_extension_if_missing_fixes "orca-mini.gguf") as (_ & Hkeep & _).
    apply Hkeep. exists "orca-mini". by right.
  - destruct (append_extension_if_missing_fixes "old.bin") as (_ & Hkeep & _).
    apply Hkeep. exists "old". by left.
  - reflexivity.
Defined.

(** ** [retrieve_model] *)

(** A download that returns has put the file at the path it returns. *)
Lemma download_model_Ok_file E fuel model_filename model_path verbose url w path d :
  download_model E fuel model_filename model_path verbose url w = Some (Ok path, d) ->
  path = path_join model_path model_filename /\ is_Some (fs d !! path).
Proof.
  unfold download_model.
  destruct (make_request E _ None w) as [[resp|e] w1]; [|done].
  destruct (download_loop E _ _ fuel resp _ w1) as [[[[[]|e] p] w2]|]; try done.
  intros [= <- <-]. split; [done|]. cbn. rewrite lookup_insert_eq. by eexists.
Qed.

Lemma path_exists_file (p : string) (w : Retrieve.world) :
  is_Some (fs (disk w) !! p) -> path_exists p w = true.
Proof.
  intros H. unfold path_exists. apply orb_true_iff. right. by apply bool_decide_eq_true.
Qed.



(** X9.  Whenever [retrieve_model] returns a config, the config names
under [path] the file of the model in the directory used (the one
given, or the default one), and that file exists. *)
Theorem retrieve_model_path_exists
    (E : Retrieve.env) (fuel : nat) (model_name : string) (model_path : option string)
    (allow_download verbose : bool) (w w' : Retrieve.world) (config : ConfigType) :
  retrieve_model E fuel model_name model_path allow_download verbose w
  = Some (Ok config, w') ->
  exists dir,
    dir = default (DEFAULT_MODEL_DIRECTORY E) model_path
    /\ config !! "path" = Some (path_join dir (append_extension_if_missing model_name))
    /\ path_exists (path_join dir (append_extension_if_missing model_name)) w' = true.
Proof.
  unfold retrieve_model.
  set (fetched := if allow_download then _ else _).
  destruct fetched as [[cfg|e] w1]; [|done].
  set (located := match model_path with Some _ => _ | None => _ end).
  assert (Hloc : forall p w2, located = (Ok p, w2) ->
                              p = default (DEFAULT_MODEL_DIRECTORY E) model_path).
  { unfold located. destruct model_path as [dir|]; [by intros ? ? [= <- _]|].
    unfold make_default_directory. case_match; [done|]. by intros ? ? [= <- _]. }
  destruct located as [[dir|e] w2]; [|done]. specialize (Hloc _ _ eq_refl).
  destruct (path_exists dir w2); cbn [negb]; [|done].
  destruct (path_exists (path_join dir _) w2) eqn:Hdest.
  - intros [= <- <-]. exists dir. split; [done|]. split; [|done]. by rewrite lookup_insert_eq.
  - destruct allow_download; [|done].
    destruct (download_model _ _ _ _ _ _ _) as [[[path|e] d]|] eqn:Hdl; try done.
    intros [= <- <-]. destruct (download_model_Ok_file _ _ _ _ _ _ _ _ _ Hdl) as [-> Hfile].
    exists dir. split; [done|]. split; [by rewrite lookup_insert_eq|].
    by apply path_exists_file.
Qed.

Lemma retrieve_model_path_exists_witness :
  exists config w',
    retrieve_model online 1 "orca" (Some "/models") true false (models_dir ∅)
    = Some (Ok config, w')
    /\ config !! "path" = Some "/models/orca.gguf"
    /\ path_exists "/models/orca.gguf" w' = true.
Proof.
  assert (Hrun : retrieve_model online 1 "orca" (Some "/models") true false (models_dir ∅)
                 = Some (Ok (<["path" := "/models/orca.gguf"]>
                               (<["promptTemplate" := "### User: {0} ### Response: {1}"]> orca)),
                         {| disk := {| fs := {[ "/models/orca.gguf" := [x61] ]};
                                       sent := [[]] |};
                            dirs := {[ "/models" ]}; catalog_requests := 1 |}))
    by (vm_compute; reflexivity).
  eexists _, _. split; [exact Hrun|].
  destruct (retrieve_model_path_exists online 1 "orca" (Some "/models") true false
              (models_dir ∅) _ _ Hrun) as (dir & -> & Hpath & Hfile).
  split; [exact Hpath|exact Hfile].
Defined.

(** X10.  When the model file is already in the directory given, no
file request is sent and no file or directory changes, whatever
[allow_download] is and for any number of rounds allowed; with
[allow_download=True] the catalog is still asked, once. *)
Theorem local_file_is_not_downloaded
    (E : Retrieve.env) (fuel : nat) (model_name dir : string)
    (allow_download verbose : bool) (w : Retrieve.world) :
  path_exists dir w = true ->
  path_exists (path_join dir (append_extension_if_missing model_name)) w = true ->
  exists r w',
    retrieve_model E fuel model_name (Some dir) allow_download verbose w = Some (r, w')
    /\ disk w' = disk w
    /\ dirs w' = dirs w
    /\ catalog_requests w'
       = (catalog_requests w + if allow_download then 1 else 0)%nat.
Proof.
  intros Hdir Hdest. unfold retrieve_model. destruct allow_download.
  - unfold list_models.
    set (w1 := {| disk := disk w; dirs := dirs w;
                  catalog_requests := S (catalog_requests w) |}).
    assert (Hdir1 : path_exists dir w1 = true) by done.
    assert (Hdest1 : path_exists (path_join dir (append_extension_if_missing model_name)) w1
                     = true) by done.
    assert (Hn : catalog_requests w1 = (catalog_requests w + 1)%nat) by (cbn; lia).
    destruct (models_get E) as [e|resp]; [by eexists _, _|].
    destruct (negb (models_status_code resp =? 200)); [by eexists _, _|].
    destruct (models_json resp) as [available_models|e]; [|by eexists _, _].
    destruct (find_model _ available_models ∅) as [config|e]; [|by eexists _, _].
    rewrite Hdir1, Hdest1. by eexists _, _.
  - rewrite Hdir, Hdest. eexists _, _. split; [done|]. split; [done|]. split; [done|]. lia.
Qed.

Lemma local_file_is_not_downloaded_witness :
  exists r w',
    retrieve_model online 0 "orca" (Some "/models") true false
      (models_dir {[ "/models/orca.gguf" := [x61] ]}) = Some (r, w')
    /\ disk w' = disk (models_dir {[ "/models/orca.gguf" := [x61] ]})
    /\ dirs w' = dirs (models_dir {[ "/models/orca.gguf" := [x61] ]})
    /\ catalog_requests w' = 1%nat.
Proof.
  apply (local_file_is_not_downloaded online 0 "orca" "/models" true false
           (models_dir {[ "/models/orca.gguf" := [x61] ]})); vm_compute; reflexivity.
Defined.

(** The catalog loop passes over entries with another file name. *)
Lemma find_model_skips (model_filename : string) (before rest : list ConfigType) :
  Forall (fun m => exists other, m !! "filename" = Some other /\ other <> model_filename)
    before ->
  find_model model_filename (before ++ rest) ∅ = find_model model_filename rest ∅.
Proof.
  induction 1 as [|m before (other & Hname & Hne) _ IH]; [done|]. cbn. rewrite Hname.
  destruct (String.eqb_spec model_filename other); [congruence|done].
Qed.

(** X11.  The first catalog entry with the file name of the model is
the one used, whatever comes after it: for a model file already in the
directory, the config returned is that entry with its prompt template
(the default one when it has none) converted to the Python style, and
with [path] set to the file. *)
Theorem first_catalog_entry_wins
    (E : Retrieve.env) (fuel : nat) (model_name dir : string) (verbose : bool)
    (w : Retrieve.world) (resp : catalog_response)
    (before after : list ConfigType) (m : ConfigType) :
  models_get E = inr resp ->
  models_status_code resp = 200 ->
  models_json resp = Ok (before ++ m :: after) ->
  Forall (fun m' => exists other, m' !! "filename" = Some other
                                  /\ other <> append_extension_if_missing model_name)
    before ->
  m !! "filename" = Some (append_extension_if_missing model_name) ->
  path_exists dir w = true ->
  path_exists (path_join dir (append_extension_if_missing model_name)) w = true ->
  retrieve_model E fuel model_name (Some dir) true verbose w
  = Some (Ok (<["path" := path_join dir (append_extension_if_missing model_name)]>
                (<["promptTemplate" :=
                     to_python_format
                       (default Chat.DEFAULT_PROMPT_TEMPLATE (m !! "promptTemplate"))]> m)),
          {| disk := disk w; dirs := dirs w;
             catalog_requests := S (catalog_requests w) |}).
Proof.
  intros Hget Hstatus Hjson Hbefore Hname Hdir Hdest.
  unfold retrieve_model, list_models. rewrite Hget, Hstatus, Hjson.
  change (200 =? 200) with true. cbn [negb]. cbv iota.
  rewrite find_model_skips by done. cbn [find_model]. rewrite Hname, String.eqb_refl.
  rewrite map_union_empty.
  change (path_exists dir {| disk := disk w; dirs := dirs w;
                             catalog_requests := S (catalog_requests w) |})
    with (path_exists dir w).
  change (path_exists (path_join dir (append_extension_if_missing model_name))
            {| disk := disk w; dirs := dirs w; catalog_requests := S (catalog_requests w) |})
    with (path_exists (path_join dir (append_extension_if_missing model_name)) w).
  by rewrite Hdir, Hdest.
Qed.

Lemma first_catalog_entry_wins_witness :
  retrieve_model online 0 "orca" (Some "/models") true false
    (models_dir {[ "/models/orca.gguf" := [x61] ]})
  = Some (Ok {[ "filename" := "orca.gguf"; "path" := "/models/orca.gguf";
                "promptTemplate" := "### User: {0} ### Response: {1}";
                "systemPrompt" := "Be brief."; "url" := "https://example.org/orca.gguf" ]},
          {| disk := {| fs := {[ "/models/orca.gguf" := [x61] ]}; sent := [] |};
             dirs := {[ "/models" ]}; catalog_requests := 1 |}).
Proof.
  rewrite (first_catalog_entry_wins online 0 "orca" "/models" false
             (models_dir {[ "/models/orca.gguf" := [x61] ]}) (catalog [falcon; orca])
             [falcon] [] orca).
  - vm_compute; reflexivity.
  - reflexivity.
  - reflexivity.
  - reflexivity.
  - apply Forall_singleton. exists "falcon.gguf". split; [reflexivity|discriminate].
  - reflexivity.
  - vm_compute; reflexivity.
  - vm_compute; reflexivity.
Defined.

Lemma find_model_unlisted (model_filename : string) (entries : list ConfigType) :
  Forall (fun m => exists other, m !! "filename" = Some other /\ other <> model_filename)
    entries ->
  find_model model_filename entries ∅ = Ok ∅.
Proof.
  intros H. rewrite <- (app_nil_r entries). by rewrite find_model_skips.
Qed.

(** X12.  A model file that is not in the directory is fetched from the
[url] of its catalog entry, or from the default address when the entry
has no [url] or the catalog does not list the model.  The config
returned after the download is the converted entry with [path] set; for
an unlisted model it holds [path] alone.  An exception of the download
leaves [retrieve_model] as it is. *)
Theorem download_source
    (E : Retrieve.env) (fuel : nat) (model_name dir : string) (verbose : bool)
    (w : Retrieve.world) (resp : catalog_response)
    (before after : list ConfigType) (listed : option ConfigType) :
  models_get E = inr resp ->
  models_status_code resp = 200 ->
  models_json resp = Ok (before ++ from_option (fun m => m :: after) [] listed) ->
  Forall (fun m' => exists other, m' !! "filename" = Some other
                                  /\ other <> append_extension_if_missing model_name)
    before ->
  (forall m, listed = Some m ->
             m !! "filename" = Some (append_extension_if_missing model_name)) ->
  path_exists dir w = true ->
  path_exists (path_join dir (append_extension_if_missing model_name)) w = false ->
  let config :=
    from_option
      (fun m => <["promptTemplate" :=
                    to_python_format
                      (default Chat.DEFAULT_PROMPT_TEMPLATE (m !! "promptTemplate"))]> m)
      ∅ listed in
  let after_download (d : Download.world) : Retrieve.world :=
    {| disk := d; dirs := dirs w; catalog_requests := S (catalog_requests w) |} in
  retrieve_model E fuel model_name (Some dir) true verbose w
  = match download_model (net E) fuel (append_extension_if_missing model_name) dir verbose
            (listed ≫= (.!! "url")) (disk w) with
    | None => None
    | Some (Ok path, d) => Some (Ok (<["path" := path]> config), after_download d)
    | Some (Raise e, d) => Some (Raise e, after_download d)
    end.
Proof.
  intros Hget Hstatus Hjson Hbefore Hname Hdir Hdest config after_download.
  unfold retrieve_model, list_models. rewrite Hget, Hstatus, Hjson.
  change (200 =? 200) with true. cbn [negb]. cbv iota.
  rewrite find_model_skips by done.
  assert (Hfound : find_model (append_extension_if_missing model_name)
                     (from_option (fun m => m :: after) [] listed) ∅ = Ok config).
  { unfold config. destruct listed as [m|]; [|done]. cbn [from_option find_model].
    by rewrite (Hname m eq_refl), String.eqb_refl, map_union_empty. }
  rewrite Hfound.
  change (path_exists dir {| disk := disk w; dirs := dirs w;
                             catalog_requests := S (catalog_requests w) |})
    with (path_exists dir w).
  change (path_exists (path_join dir (append_extension_if_missing model_name))
            {| disk := disk w; dirs := dirs w; catalog_requests := S (catalog_requests w) |})
    with (path_exists (path_join dir (append_extension_if_missing model_name)) w).
  rewrite Hdir, Hdest. cbn [negb disk dirs catalog_requests].
  assert (config !! "url" = listed ≫= (.!! "url")) as ->; [|done].
  unfold config. destruct listed as [m|]; [|done]. cbn. by rewrite lookup_insert_ne.
Qed.

Lemma download_source_witness :
  retrieve_model online 1 "mistral" (Some "/models") true false (models_dir ∅)
  = match download_model (constant_server (unsized [[x61]])) 1 "mistral.gguf" "/models" false
            None {| fs := ∅; sent := [] |} with
    | None => None
    | Some (Ok path, d) =>
        Some (Ok {[ "path" := path ]},
              {| disk := d; dirs := {[ "/models" ]}; catalog_requests := 1 |})
    | Some (Raise e, d) =>
        Some (Raise e, {| disk := d; dirs := {[ "/models" ]}; catalog_requests := 1 |})
    end.
Proof.
  rewrite (download_source online 1 "mistral" "/models" false (models_dir ∅)
             (catalog [falcon; orca]) [falcon; orca] [] None).
  - vm_compute; reflexivity.
  - reflexivity.
  - reflexivity.
  - reflexivity.
  - repeat constructor.
    + exists "falcon.gguf". split; [reflexivity|]. vm_compute. discriminate.
    + exists "orca.gguf". split; [reflexivity|]. vm_compute. discriminate.
  - discriminate.
  - vm_compute; reflexivity.
  - vm_compute; reflexivity.
Defined.

(** ** The conversion of Qt-style templates *)

Lemma replace_first_passes (c : ascii) (new pre s : string) :
  percent_free pre ->
  replace_first (String "%" (String c "")) new (pre +:+ s)
  = pre +:+ replace_first (String "%" (String c "")) new s.
Proof.
  induction pre as [|a pre IH]; [done|]. intros [Ha Hpre].
  rewrite !string_app_cons. cbn [replace_first String.prefix].
  destruct (ascii_dec "%" a) as [<-|_]; [done|]. by rewrite IH.
Qed.

Lemma replace_first_none (c : ascii) (new s : string) :
  percent_free s -> replace_first (String "%" (String c "")) new s = s.
Proof.
  induction s as [|a s IH]; [done|]. intros [Ha Hs].
  cbn [replace_first String.prefix].
  destruct (ascii_dec "%" a) as [<-|_]; [done|]. by rewrite IH.
Qed.

Lemma replace_first_here (c : ascii) (new s : string) :
  replace_first (String "%" (String c "")) new (String "%" (String c s)) = new +:+ s.
Proof.
  cbn [replace_first String.prefix].
  destruct (ascii_dec "%" "%") as [_|]; [|done].
  destruct (ascii_dec c c) as [_|]; [|done].
  by destruct s.
Qed.

#[local] Ltac no_percent :=
  cbn [percent_free]; repeat (split; [discriminate|]); exact I.

(** X13.  The conversion of a catalog template to the Python style puts
[{0}] for the first [%1] and [{1}] for the first [%2], and leaves every
other character as it is: so a second [%1] stays in the template. *)
Theorem to_python_format_markers (pre mid post : string) :
  percent_free pre -> percent_free mid ->
  to_python_format (pre +:+ "%1" +:+ mid +:+ "%2" +:+ post)
  = pre +:+ "{0}" +:+ mid +:+ "{1}" +:+ post
  /\ (percent_free post ->
      to_python_format (pre +:+ "%1" +:+ mid +:+ "%1" +:+ post)
      = pre +:+ "{0}" +:+ mid +:+ "%1" +:+ post).
Proof.
  intros Hpre Hmid. unfold to_python_format. split.
  - rewrite replace_first_passes by done.
    change ("%1" +:+ mid +:+ "%2" +:+ post)
      with (String "%" (String "1" (mid +:+ "%2" +:+ post))).
    rewrite replace_first_here. rewrite replace_first_passes by done.
    change ("{0}" +:+ mid +:+ "%2" +:+ post)
      with (String "{" (String "0" (String "}" (mid +:+ "%2" +:+ post)))).
    cbn [replace_first String.prefix]. cbn [ascii_dec ascii_rec ascii_rect Bool.bool_dec bool_rec bool_rect sumbool_rec sumbool_rect].
    rewrite replace_first_passes by done.
    change ("%2" +:+ post) with (String "%" (String "2" post)).
    by rewrite replace_first_here.
  - intros Hpost. rewrite replace_first_passes by done.
    change ("%1" +:+ mid +:+ "%1" +:+ post)
      with (String "%" (String "1" (mid +:+ "%1" +:+ post))).
    rewrite replace_first_here. rewrite replace_first_passes by done.
    change ("{0}" +:+ mid +:+ "%1" +:+ post)
      with (String "{" (String "0" (String "}" (mid +:+ String "%" (String "1" post))))).
    cbn [replace_first String.prefix]. cbn [ascii_dec ascii_rec ascii_rect Bool.bool_dec bool_rec bool_rect sumbool_rec sumbool_rect].
    rewrite replace_first_passes by done.
    cbn [replace_first String.prefix]. cbn [ascii_dec ascii_rec ascii_rect Bool.bool_dec bool_rec bool_rect sumbool_rec sumbool_rect].
    by rewrite replace_first_none.
Qed.

Lemma to_python_format_markers_witness :
  to_python_format "### User: %1 ### Response: %2" = "### User: {0} ### Response: {1}"
  /\ to_python_format "%1 and %1" = "{0} and %1".
Proof.
  split.
  - apply (to_python_format_markers "### User: " " ### Response: " ""); no_percent.
  - destruct (to_python_format_markers "" " and " "") as [_ H]; [no_percent..|].
    apply H. no_percent.
Defined.

(** ** From [retrieve_model] to [chat_session]

[GPT4All.__init__] keeps the config [retrieve_model] returns as
[self.config], where [chat_session] looks for the prompt template and
the system prompt. *)

(** What a config returned by [retrieve_model] is made of. *)
Lemma retrieve_model_Ok_config
    (E : Retrieve.env) (fuel : nat) (model_name : string) (model_path : option string)
    (allow_download verbose : bool) (w w' : Retrieve.world) (config : ConfigType) :
  retrieve_model E fuel model_name model_path allow_download verbose w
  = Some (Ok config, w') ->
  exists base path,
    config = <["path" := path]> base
    /\ if allow_download then
         exists entries w1,
           list_models E w = (Ok entries, w1)
           /\ find_model (append_extension_if_missing model_name) entries ∅ = Ok base
       else base = ∅.
Proof.
  unfold retrieve_model.
  set (fetched := if allow_download then _ else _).
  assert (Hfetched : forall base w1, fetched = (Ok base, w1) ->
             if allow_download then
               exists entries w1,
                 list_models E w = (Ok entries, w1)
                 /\ find_model (append_extension_if_missing model_name) entries ∅ = Ok base
             else base = ∅).
  { unfold fetched. destruct allow_download; [|by intros ? ? [= <- _]].
    destruct (list_models E w) as [[entries|e] w1]; [|done].
    intros base w2 [= Hfind _]. by eauto. }
  destruct fetched as [[base|e] w1]; [|done]. specialize (Hfetched _ _ eq_refl).
  destruct (match model_path with Some _ => _ | None => _ end) as [[dir|e] w2]; [|done].
  destruct (path_exists dir w2); cbn [negb]; [|done].
  destruct (path_exists (path_join dir _) w2).
  - intros [= <- _]. by eauto.
  - destruct allow_download; [|done].
    destruct (download_model _ _ _ _ _ _ _) as [[[path|e] d]|]; try done.
    intros [= <- _]. by eauto.
Qed.

Lemma percent_free_app (s t : string) :
  percent_free s -> percent_free t -> percent_free (s +:+ t).
Proof.
  induction s as [|a s IH]; [done|]. intros [Ha Hs] Ht. rewrite string_app_cons.
  split; [done|]. by apply IH.
Qed.

Lemma percent_free_no_marker (s : string) :
  percent_free s -> Chat.re_search_marker s = false.
Proof.
  induction s as [|a s IH]; [done|]. intros [Ha Hs]. cbn [Chat.re_search_marker].
  rewrite (IH Hs), orb_false_r.
  destruct (Ascii.eqb_spec a "%"); [done|done].
Qed.

(** The world a session entry with the template [tmpl] leaves. *)
Lemma chat_session_enter_with (CE : Chat.env) (system_prompt prompt_template : option string)
    (tmpl : string) (warned : list string) (cw : Chat.world) :
  (match prompt_template with
   | Some t => tmpl = t /\ warned = []
   | None =>
       match Chat.config CE !! "promptTemplate" with
       | Some t => tmpl = t /\ warned = []
       | None => tmpl = Chat.DEFAULT_PROMPT_TEMPLATE /\ warned = [Chat.MSG_NO_TEMPLATE]
       end
   end) ->
  Chat.re_search_marker tmpl = false ->
  exists cw',
    Chat.chat_session_enter CE system_prompt prompt_template cw = (Ok tt, cw')
    /\ Chat.warnings cw' = Chat.warnings cw ++ warned
    /\ Chat._current_prompt_template cw' = tmpl
    /\ Chat.transcript cw'
       = Some [{[ "role" := "system";
                  "content" := Chat.effective_system_prompt CE system_prompt ]}].
Proof.
  intros Hsel Hvalid.
  destruct (Chat.chat_session_enter CE system_prompt prompt_template cw) as [r cw'] eqn:Henter.
  assert (Hrun : r = Ok tt /\ Chat.warnings cw' = Chat.warnings cw ++ warned
                 /\ Chat._current_prompt_template cw' = tmpl).
  { revert Henter. unfold Chat.chat_session_enter. rewrite bind_run.
    destruct prompt_template as [t|];
      [|destruct (Chat.config CE !! "promptTemplate") as [t|]];
      destruct Hsel as [-> ->]; cbn; rewrite ?Hvalid;
      unfold Chat.alloc, Chat.set_history, Chat.set_template; rewrite ?bind_run; cbn;
      intros [= <- <-]; cbn; by rewrite ?app_nil_r. }
  destruct Hrun as (-> & Hwarn & Htmpl). exists cw'. split; [done|].
  split; [done|]. split; [done|].
  destruct (chat_session_enter_Ok _ _ _ _ _ Henter) as (history & system & Hh & Hl & Hs & _).
  apply transcript_Some. exists history, [system]. split; [done|]. split; [done|].
  by repeat constructor.
Qed.

(** X14.  An object made with [allow_download=False] has a config
with no prompt template and no system prompt: a chat session entered
without a template of its own always succeeds, emits the deprecation
warning, takes the default template, and starts from the system prompt
given, or the empty one. *)
Theorem offline_session_defaults
    (E : Retrieve.env) (fuel : nat) (model_name : string) (model_path : option string)
    (verbose : bool) (w w' : Retrieve.world) (config : ConfigType)
    (CE : Chat.env) (system_prompt : option string) (cw : Chat.world) :
  retrieve_model E fuel model_name model_path false verbose w = Some (Ok config, w') ->
  Chat.config CE = config ->
  exists cw',
    Chat.chat_session_enter CE system_prompt None cw = (Ok tt, cw')
    /\ Chat.warnings cw' = Chat.warnings cw ++ [Chat.MSG_NO_TEMPLATE]
    /\ Chat._current_prompt_template cw' = Chat.DEFAULT_PROMPT_TEMPLATE
    /\ Chat.transcript cw'
       = Some [{[ "role" := "system"; "content" := default "" system_prompt ]}].
Proof.
  intros (base & path & -> & ->)%retrieve_model_Ok_config Hconfig.
  assert (Htmpl : Chat.config CE !! "promptTemplate" = None).
  { rewrite Hconfig. by rewrite lookup_insert_ne, lookup_empty. }
  assert (Hsys : Chat.effective_system_prompt CE system_prompt = default "" system_prompt).
  { destruct system_prompt as [s|]; [done|]. cbn.
    by rewrite Hconfig, lookup_insert_ne, lookup_empty. }
  rewrite <- Hsys.
  apply chat_session_enter_with; [by rewrite Htmpl|reflexivity].
Qed.

Lemma offline_session_defaults_witness :
  exists cw',
    Chat.chat_session_enter (loaded {[ "path" := "/models/orca.gguf" ]}) None None inactive
    = (Ok tt, cw')
    /\ Chat.warnings cw' = [Chat.MSG_NO_TEMPLATE]
    /\ Chat._current_prompt_template cw' = Chat.DEFAULT_PROMPT_TEMPLATE
    /\ Chat.transcript cw' = Some [{[ "role" := "system"; "content" := "" ]}].
Proof.
  apply (offline_session_defaults unreachable 0 "orca" (Some "/models") false
           (models_dir {[ "/models/orca.gguf" := [x61] ]})
           (models_dir {[ "/models/orca.gguf" := [x61] ]})
           {[ "path" := "/models/orca.gguf" ]}
           (loaded {[ "path" := "/models/orca.gguf" ]}) None inactive).
  - vm_compute; reflexivity.
  - reflexivity.
Defined.

(** X15.  A catalog entry whose template has the one marker [%1] gives
an object whose chat sessions, entered without a template of their own,
pass the check of the template and take the entry's template with
[{0}] at the place of the marker; no deprecation warning is emitted. *)
Theorem catalog_template_session
    (E : Retrieve.env) (fuel : nat) (model_name : string) (model_path : option string)
    (verbose : bool) (w w' : Retrieve.world) (resp : catalog_response)
    (before after : list ConfigType) (m config : ConfigType) (pre post : string)
    (CE : Chat.env) (system_prompt : option string) (cw : Chat.world) :
  models_get E = inr resp ->
  models_status_code resp = 200 ->
  models_json resp = Ok (before ++ m :: after) ->
  Forall (fun m' => exists other, m' !! "filename" = Some other
                                  /\ other <> append_extension_if_missing model_name)
    before ->
  m !! "filename" = Some (append_extension_if_missing model_name) ->
  m !! "promptTemplate" = Some (pre +:+ "%1" +:+ post) ->
  percent_free pre -> percent_free post ->
  retrieve_model E fuel model_name model_path true verbose w = Some (Ok config, w') ->
  Chat.config CE = config ->
  exists cw',
    Chat.chat_session_enter CE system_prompt None cw = (Ok tt, cw')
    /\ Chat.warnings cw' = Chat.warnings cw
    /\ Chat._current_prompt_template cw' = pre +:+ "{0}" +:+ post.
Proof.
  intros Hget Hstatus Hjson Hbefore Hname Htmpl Hpre Hpost
    (base & path & -> & entries & w1 & Hlist & Hfind)%retrieve_model_Ok_config Hconfig.
  unfold list_models in Hlist. rewrite Hget, Hstatus, Hjson in Hlist.
  injection Hlist as <- _.
  rewrite find_model_skips in Hfind by done. cbn [find_model] in Hfind.
  rewrite Hname, String.eqb_refl, Htmpl, map_union_empty in Hfind.
  injection Hfind as <-.
  assert (Hconv : to_python_format (pre +:+ "%1" +:+ post) = pre +:+ "{0}" +:+ post).
  { unfold to_python_format. rewrite replace_first_passes by done.
    change ("%1" +:+ post) with (String "%" (String "1" post)).
    rewrite replace_first_here. apply replace_first_none.
    apply percent_free_app; [done|]. by apply (percent_free_app "{0}"); [no_percent|]. }
  cbn [default] in Hconfig. rewrite Hconv in Hconfig.
  destruct (chat_session_enter_with CE system_prompt None (pre +:+ "{0}" +:+ post) [] cw)
    as (cw' & Henter & Hwarn & Htemplate & _).
  - by rewrite Hconfig, lookup_insert_ne, lookup_insert_eq.
  - apply percent_free_no_marker, percent_free_app; [done|].
    by apply (percent_free_app "{0}"); [no_percent|].
  - exists cw'. rewrite app_nil_r in Hwarn. by repeat split.
Qed.

Lemma catalog_template_session_witness :
  exists cw',
    Chat.chat_session_enter
      (loaded (<["path" := "/models/falcon.gguf"]>
                 (<["promptTemplate" := "Q: {0} A: "]>
                    {[ "filename" := "falcon.gguf"; "promptTemplate" := "Q: %1 A: " ]})))
      None None inactive = (Ok tt, cw')
    /\ Chat.warnings cw' = []
    /\ Chat._current_prompt_template cw' = "Q: {0} A: ".
Proof.
  apply (catalog_template_session
           {| net := constant_server (unsized [[x61]]);
              models_get :=
                inr (catalog [ {[ "filename" := "falcon.gguf";
                                  "promptTemplate" := "Q: %1 A: " ]} ]);
              DEFAULT_MODEL_DIRECTORY := "/home/u/.cache/gpt4all";
              makedirs_denied := false |}
           0 "falcon" (Some "/models") false
           (models_dir {[ "/models/falcon.gguf" := [x61] ]})
           {| disk := {| fs := {[ "/models/falcon.gguf" := [x61] ]}; sent := [] |};
              dirs := {[ "/models" ]}; catalog_requests := 1 |}
           (catalog [ {[ "filename" := "falcon.gguf"; "promptTemplate" := "Q: %1 A: " ]} ])
           [] [] {[ "filename" := "falcon.gguf"; "promptTemplate" := "Q: %1 A: " ]}
           (<["path" := "/models/falcon.gguf"]>
              (<["promptTemplate" := "Q: {0} A: "]>
                 {[ "filename" := "falcon.gguf"; "promptTemplate" := "Q: %1 A: " ]}))
           "Q: " " A: "
           (loaded (<["path" := "/models/falcon.gguf"]>
                      (<["promptTemplate" := "Q: {0} A: "]>
                         {[ "filename" := "falcon.gguf"; "promptTemplate" := "Q: %1 A: " ]})))
           None inactive).
  - reflexivity.
  - reflexivity.
  - reflexivity.
  - constructor.
  - reflexivity.
  - reflexivity.
  - no_percent.
  - no_percent.
  - vm_compute; reflexivity.
  - reflexivity.
Defined.
End RetrieveFacts.

(* ===================================================================== *)
(** * Further properties of [generate] and of the chat session           *)
(* ===================================================================== *)

Section ChatMore.
Import Chat Delivery Scenario MoreScenarios.

Lemma string_app_nil_r (s : string) : s +:+ "" = s.
Proof. induction s as [|c s IH]; [done|]. by rewrite string_app_cons, IH. Qed.

Lemma string_app_assoc (s t u : string) : (s +:+ t) +:+ u = s +:+ t +:+ u.
Proof. induction s as [|c s IH]; [done|]. by rewrite !string_app_cons, IH. Qed.

(** ** The engine at work *)

(** With the callback that drops the text, the store stays as it is. *)
Lemma feed_empty (E : env) (tokens : list (Z * string)) (w : world) :
  feed E empty_response_callback tokens w = (Ok (accepts_all (empty_callback E) tokens), w).
Proof.
  induction tokens as [|[token_id response] rest IH]; [done|].
  cbn [feed invoke accepts_all forallb]. rewrite bind_run. cbn.
  destruct (empty_callback E token_id response); [exact IH|done].
Qed.

Lemma getitem_last (l : ref) (items : list ref) (x : ref) (w : world) :
  heap w !! l = Some (PyList (items ++ [x])) -> list_getitem l (-1) w = (Ok x, w).
Proof.
  intros Hl. unfold list_getitem, load_list. rewrite bind_run, Hl. cbn.
  assert (len (items ++ [x]) + -1 = Z.of_nat (List.length items)) as ->.
  { unfold len. rewrite length_app. cbn. lia. }
  destruct (Z.ltb_spec (Z.of_nat (List.length items)) 0); [lia|].
  rewrite Nat2Z.id. by rewrite lookup_app_r, Nat.sub_diag by lia.
Qed.

(** With the closure of [_callback_wrapper], the text delivered is
appended to the content of the last message of the collector, and
nothing else changes. *)
Lemma feed_collects (E : env) (callback : ResponseCallbackType) (oc msg : ref)
    (items : list ref) (m : gmap string string) (c : string)
    (tokens : list (Z * string)) (w : world) :
  heap w !! oc = Some (PyList (items ++ [msg])) ->
  heap w !! msg = Some (PyDict m) ->
  m !! "content" = Some c ->
  feed E (_callback callback oc) tokens w
  = (Ok (accepts_all callback tokens),
     set_heap (<[msg := PyDict (<["content" := c +:+ joined (delivered callback tokens)]> m)]>
                 (heap w)) w).
Proof.
  revert m c w. induction tokens as [|[token_id response] rest IH]; intros m c w Hoc Hmsg Hc.
  - cbn. rewrite string_app_nil_r, (insert_id m) by done.
    rewrite list_insert_id by done. by destruct w.
  - assert (Hne : oc <> msg) by congruence.
    assert (Hlt : (msg < List.length (heap w))%nat) by by eapply lookup_lt_Some.
    cbn [feed invoke]. rewrite !bind_run, (getitem_last _ _ _ _ Hoc).
    rewrite bind_run, (dict_getitem_ok _ _ _ _ _ Hmsg Hc).
    unfold dict_setitem, load_dict, store. rewrite !bind_run, Hmsg. cbn [mret M_ret].
    cbn [accepts_all forallb delivered].
    destruct (callback token_id response) eqn:Hcb.
    + rewrite (IH (<["content" := c +:+ response]> m) (c +:+ response)).
      * cbn. rewrite list_insert_insert_eq, insert_insert_eq. by rewrite string_app_assoc.
      * cbn. by rewrite list_lookup_insert_ne.
      * cbn. by rewrite list_lookup_insert_eq.
      * by rewrite lookup_insert_eq.
    + cbn. by rewrite string_app_nil_r.
Qed.

Lemma call_prompt_model_empty (E : env) (c : engine_call) (w : world) :
  call_callback c = empty_response_callback ->
  snd (call_prompt_model E c w) = snd (log_call c w).
Proof.
  intros Hcb. unfold call_prompt_model. destruct (engine E (calls w) c) as [tokens failure].
  rewrite bind_run. cbn [log_call]. rewrite bind_run, Hcb, feed_empty.
  by destruct failure as [e|]; [destruct (accepts_all _ _)|].
Qed.

Lemma call_prompt_model_collects (E : env) (c : engine_call)
    (callback : ResponseCallbackType) (oc msg : ref)
    (items : list ref) (m : gmap string string) (c0 : string)
    (tokens : list (Z * string)) (failure : option exn) (w : world) :
  call_callback c = _callback callback oc ->
  heap w !! oc = Some (PyList (items ++ [msg])) ->
  heap w !! msg = Some (PyDict m) ->
  m !! "content" = Some c0 ->
  engine E (calls w) c = (tokens, failure) ->
  call_prompt_model E c w
  = (match failure with
     | Some e => if accepts_all callback tokens then Raise e else Ok tt
     | None => Ok tt
     end,
     set_heap (<[msg := PyDict (<["content" := c0 +:+ joined (delivered callback tokens)]> m)]>
                 (heap w)) (snd (log_call c w))).
Proof.
  intros Hcb Hoc Hmsg Hc Heng. unfold call_prompt_model. rewrite Heng.
  rewrite bind_run. cbn [log_call]. rewrite bind_run, Hcb.
  rewrite (feed_collects E callback oc msg items m c0) by done.
  by destruct failure as [e|]; [destruct (accepts_all _ _)|].
Qed.

(** X16.  Outside a chat session, [generate] makes one engine call, for
the prompt as given under the template [%1] and with [reset_context]
true; no session is opened and no object that existed is changed.
Without [streaming], when the engine does not fail the call returns the
responses delivered to the callback, joined in order: all up to the
first one for which the callback of the caller returns a false value,
that one included. *)
Theorem generate_outside_session
    (E : env) (prompt : string) (a : generate_args) (w : world)
    (tokens : list (Z * string)) :
  _history w = None ->
  streaming a = false ->
  engine E (calls w)
    (main_call prompt "%1" (<["reset_context" := PyBool true]> (generate_kwargs a)) a
       (S (List.length (heap w)))) = (tokens, None) ->
  exists w',
    generate E prompt a w = (Ok (Completion (joined (delivered (callback a) tokens))), w')
    /\ calls w'
       = calls w ++ [main_call prompt "%1"
                       (<["reset_context" := PyBool true]> (generate_kwargs a)) a
                       (S (List.length (heap w)))]
    /\ _history w' = None
    /\ _current_prompt_template w' = _current_prompt_template w
    /\ warnings w' = warnings w
    /\ forall r o, heap w !! r = Some o -> heap w' !! r = Some o.
Proof.
  intros Hhist Hstream Heng.
  set (kwargs := <["reset_context" := PyBool true]> (generate_kwargs a)) in *.
  set (n := List.length (heap w)) in *.
  set (c := main_call prompt "%1" kwargs a (S n)) in *.
  unfold generate. rewrite bind_run. unfold get_history. rewrite Hhist.
  rewrite bind_run. cbn [mret M_ret].
  unfold prepare_callback. rewrite !bind_run. unfold alloc at 1. rewrite bind_run.
  unfold alloc at 1. cbn [mret M_ret heap set_heap].
  rewrite length_app. cbn [List.length]. rewrite Nat.add_1_r. fold n.
  unfold send_request. rewrite Hstream. fold c.
  set (w2 := set_heap ((heap w ++ [PyDict {[ "content" := "" ]}]) ++ [PyList [n]]) _).
  assert (Hoc : heap w2 !! S n = Some (PyList ([] ++ [n]))).
  { cbn. rewrite lookup_app_r; rewrite length_app; cbn; fold n; [|lia].
    by replace (S n - (n + 1))%nat with 0%nat by lia. }
  assert (Hmsg : heap w2 !! n = Some (PyDict {[ "content" := "" ]})).
  { cbn. rewrite lookup_app_l by (rewrite length_app; cbn; fold n; lia).
    by rewrite lookup_app_r, Nat.sub_diag by (fold n; lia). }
  rewrite bind_run.
  change (main_call prompt "%1" _ a (S n)) with c.
  rewrite (call_prompt_model_collects E c (callback a) (S n) n [] {[ "content" := "" ]} ""
             tokens None w2 eq_refl Hoc Hmsg) by (by rewrite ?lookup_singleton_eq).
  set (w3 := set_heap _ _).
  assert (Hoc3 : heap w3 !! S n = Some (PyList ([] ++ [n]))).
  { unfold w3. cbn [heap set_heap]. rewrite list_lookup_insert_ne by lia. exact Hoc. }
  assert (Hmsg3 : heap w3 !! n
                  = Some (PyDict (<["content" := "" +:+ joined (delivered (callback a) tokens)]>
                                    {[ "content" := "" ]}))).
  { unfold w3. cbn [heap set_heap]. apply list_lookup_insert_eq.
    by eapply lookup_lt_Some. }
  rewrite bind_run, (getitem_last _ _ _ _ Hoc3).
  rewrite bind_run, (dict_getitem_ok _ _ _ _ _ Hmsg3 (lookup_insert_eq _ _ _)).
  cbn [mret M_ret]. eexists. split; [reflexivity|].
  split; [done|]. split; [done|]. split; [done|]. split; [done|].
  intros r o Hr. assert (r < n)%nat by by eapply lookup_lt_Some.
  unfold w3. cbn [heap set_heap]. rewrite list_lookup_insert_ne by lia.
  unfold w2. cbn [heap set_heap]. by do 2 apply lookup_app_l_Some.
Qed.

Lemma generate_outside_session_witness :
  exists w',
    generate (model chatty) "Hi" default_args inactive = (Ok (Completion "Hello"), w')
    /\ List.length (calls w') = 1%nat
    /\ _history w' = None.
Proof.
  destruct (generate_outside_session (model chatty) "Hi" default_args inactive
              [(1, "Hel"); (2, "lo")] eq_refl eq_refl eq_refl)
    as (w' & Hgen & Hcalls & Hhist & _).
  exists w'. split; [exact Hgen|]. split; [by rewrite Hcalls|exact Hhist].
Defined.

(** ** A turn of a session, step by step *)

#[local] Instance same_store_preorder : PreOrder same_store.
Proof.
  split.
  - by intros w.
  - intros w1 w2 w3 (H1 & H2 & H3) (H1' & H2' & H3'). repeat split; congruence.
Qed.

Lemma same_store_reader {A} (m : M A) :
  (forall w, snd (m w) = w) -> keeps same_store (fun _ => True) m.
Proof. intros H. by apply keeps_reader; [apply _|]. Qed.

(** Rendering the turn reads the store and may call the engine with
the callback that drops the text: no object changes. *)
Lemma format_turn_same_store (E : env) (history : ref) (prompt : string)
    (a : generate_args) (reset : bool) :
  keeps same_store (fun _ => True) (format_turn E history prompt a reset).
Proof.
  assert (Hbind : forall A B (m : M A) (f : A -> M B),
             keeps same_store (fun _ => True) m ->
             (forall x, keeps same_store (fun _ => True) (f x)) ->
             keeps same_store (fun _ => True) (m ≫= f)).
  { intros A B m f Hm Hf. eapply keeps_bind with (Q := fun _ => True); [apply _|exact Hm|].
    intros x _. apply Hf. }
  assert (Hret : forall A (x : A), keeps same_store (fun _ => True) (mret x)).
  { intros A x. by apply keeps_ret; [apply _|]. }
  assert (Hitem : forall l i, keeps same_store (fun _ => True) (list_getitem l i)).
  { intros l i. apply same_store_reader, list_getitem_reads. }
  assert (Hkey : forall d k, keeps same_store (fun _ => True) (dict_getitem d k)).
  { intros d k. apply same_store_reader, dict_getitem_reads. }
  assert (Hlift : forall A (o : outcome A), keeps same_store (fun _ => True) (lift o)).
  { intros A o. by apply same_store_reader. }
  unfold format_turn. destruct (format_override E) as [fct|].
  - apply Hbind; [by intros w r w' [= <- <-]|]. intros _.
    apply Hbind; [apply same_store_reader, list_last_slice_reads|]. intros messages.
    apply Hbind.
    + destruct reset; [|apply Hret]. apply Hbind; [apply Hitem|]. intros system. apply Hkey.
    + intros header. apply Hbind; [apply Hlift|]. intros prompt'. apply Hret.
  - apply Hbind.
    + destruct reset; [|apply Hret]. apply Hbind; [apply Hitem|]. intros system.
      apply Hbind; [apply Hkey|]. intros content w r w' Hcall.
      pose proof (call_prompt_model_empty E (priming_call content a) w eq_refl) as Hw.
      rewrite Hcall in Hw. cbn in Hw. subst w'. by split.
    + intros _. apply Hbind; [by apply same_store_reader|]. intros tmpl.
      apply Hbind; [apply Hlift|]. intros t. apply Hret.
Qed.

(** The session branch up to the rendering: the user message is new
and stands last in the transcript. *)
Lemma user_turn_run (E : env) (history : ref) (prompt : string) (a : generate_args)
    (reset : bool) (items : list ref) (w : world) :
  heap w !! history = Some (PyList items) ->
  user_turn E history prompt a reset w
  = match format_turn E history prompt a reset
            (set_heap (<[history := PyList (items ++ [List.length (heap w)])]>
                         (heap w ++ [PyDict {[ "role" := "user"; "content" := prompt ]}])) w)
    with
    | (Ok (p, t), wc) => (Ok (p, t, <["reset_context" := PyBool reset]> (generate_kwargs a)), wc)
    | (Raise e, wc) => (Raise e, wc)
    end.
Proof.
  intros Hlist. unfold user_turn. rewrite bind_run. unfold alloc at 1.
  assert (Hlist_a : heap (set_heap (heap w ++ [PyDict {[ "role" := "user"; "content" := prompt ]}]) w)
                    !! history = Some (PyList items)).
  { cbn. by apply lookup_app_l_Some. }
  rewrite bind_run, (list_append_ok _ _ _ _ Hlist_a). rewrite bind_run.
  cbn [heap set_heap].
  change (set_heap ?h (set_heap _ w)) with (set_heap h w).
  by destruct (format_turn _ _ _ _ _ _) as [[[p t]|e] wc].
Qed.

(** Setting the collector in a session. *)
Lemma prepare_callback_run (history : ref) (items : list ref) (w : world) :
  heap w !! history = Some (PyList items) ->
  prepare_callback (Some history) w
  = (Ok history,
     set_heap (<[history := PyList (items ++ [(List.length (heap w) + 2)%nat])]>
                 (((heap w ++ [PyDict {[ "content" := "" ]}])
                   ++ [PyList [List.length (heap w)]])
                  ++ [PyDict {[ "role" := "assistant"; "content" := "" ]}])) w).
Proof.
  intros Hlist. unfold prepare_callback. rewrite bind_run. unfold alloc at 1.
  rewrite bind_run. unfold alloc at 1. rewrite bind_run. unfold alloc at 1.
  cbn [heap set_heap].
  set (h3 := (_ ++ _) ++ [PyDict {[ "role" := "assistant"; "content" := "" ]}]).
  assert (Hl3 : heap (set_heap h3 w) !! history = Some (PyList items)).
  { cbn. by do 3 apply lookup_app_l_Some. }
  change (set_heap h3 (set_heap _ (set_heap _ w))) with (set_heap h3 w).
  rewrite bind_run, (list_append_ok _ _ _ _ Hl3). cbn [mret M_ret heap set_heap].
  rewrite !length_app. cbn [List.length].
  by replace (List.length (heap w) + 1 + 1)%nat with (List.length (heap w) + 2)%nat by lia.
Qed.

Lemma assistant_with (text : string) :
  <["content" := text]> ({[ "role" := "assistant"; "content" := "" ]} : gmap string string)
  = {[ "role" := "assistant"; "content" := text ]}.
Proof.
  apply map_eq. intros k.
  destruct (decide (k = "content")) as [->|Hc]; [by simplify_map_eq|].
  destruct (decide (k = "role")) as [->|Hr]; by simplify_map_eq.
Qed.

(** A [generate] call in a session, whatever its outcome: the user
message is new and stays in the transcript; either the call raised
before the assistant message was added, or that message follows with
the text collected.  Every other object that existed is as before. *)
Lemma generate_in_session_store (E : env) (prompt : string) (a : generate_args)
    (history : ref) (items : list ref) (w w' : world) (r : outcome generate_return) :
  _history w = Some history ->
  heap w !! history = Some (PyList items) ->
  generate E prompt a w = (r, w') ->
  _history w' = Some history
  /\ _current_prompt_template w' = _current_prompt_template w
  /\ (forall x o, heap w !! x = Some o -> x <> history -> heap w' !! x = Some o)
  /\ exists u,
       heap w !! u = None
       /\ heap w' !! u = Some (PyDict {[ "role" := "user"; "content" := prompt ]})
       /\ ((heap w' !! history = Some (PyList (items ++ [u])) /\ exists e, r = Raise e)
           \/ exists v text,
                heap w !! v = None
                /\ heap w' !! history = Some (PyList (items ++ [u; v]))
                /\ heap w' !! v
                   = Some (PyDict {[ "role" := "assistant"; "content" := text ]})
                /\ forall x, r = Ok x ->
                     if streaming a then text = "" /\ exists c, x = TokenStream c
                     else x = Completion text).
Proof.
  intros Hhist Hlist. unfold generate. rewrite bind_run. unfold get_history. rewrite Hhist.
  unfold session_turn. rewrite bind_run, bind_run, (list_len_ok _ _ _ Hlist).
  rewrite (user_turn_run _ _ _ _ _ _ _ Hlist).
  set (n := List.length (heap w)).
  set (user := PyDict {[ "role" := "user"; "content" := prompt ]}).
  set (wb := set_heap (<[history := PyList (items ++ [n])]> (heap w ++ [user])) w).
  assert (Hlt : (history < n)%nat) by by eapply lookup_lt_Some.
  assert (Hnew : forall k, heap w !! (n + k)%nat = None).
  { intros k. apply lookup_ge_None. unfold n. lia. }
  destruct (format_turn E history prompt a (len items =? 1) wb) as [r1 wc] eqn:Hfmt.
  destruct (format_turn_same_store _ _ _ _ _ _ _ _ Hfmt) as [(Hheap & Hh & Ht) _].
  change (_history wb) with (_history w) in Hh.
  change (_current_prompt_template wb) with (_current_prompt_template w) in Ht.
  rewrite Hhist in Hh.
  assert (Hlist_c : heap wc !! history = Some (PyList (items ++ [n]))).
  { rewrite Hheap. cbn. by rewrite list_lookup_insert_eq by (rewrite length_app; lia). }
  assert (Huser_c : heap wc !! n = Some user).
  { rewrite Hheap. cbn. rewrite list_lookup_insert_ne by lia.
    by rewrite lookup_app_r, Nat.sub_diag by (unfold n; lia). }
  assert (Hold_c : forall x o, heap w !! x = Some o -> x <> history -> heap wc !! x = Some o).
  { intros x o Hx Hne. rewrite Hheap. cbn. rewrite list_lookup_insert_ne by done.
    by apply lookup_app_l_Some. }
  assert (Hlen_c : List.length (heap wc) = S n).
  { rewrite Hheap. cbn. rewrite length_insert, length_app. cbn. unfold n. lia. }
  destruct r1 as [[p t]|e].
  - (* the turn was rendered *)
    rewrite bind_run, (prepare_callback_run _ _ _ Hlist_c). rewrite Hlen_c.
    set (v := (S n + 2)%nat).
    set (w2 := set_heap _ wc).
    assert (Hlist2 : heap w2 !! history = Some (PyList ((items ++ [n]) ++ [v]))).
    { cbn. by rewrite list_lookup_insert_eq by (rewrite !length_app; lia). }
    assert (Hv2 : heap w2 !! v = Some (PyDict {[ "role" := "assistant"; "content" := "" ]})).
    { cbn. rewrite list_lookup_insert_ne by (unfold v; lia).
      rewrite lookup_app_r; rewrite !length_app, Hlen_c; cbn; [|unfold v; lia].
      match goal with |- _ !! ?k = _ => by replace k with 0%nat by (unfold v; lia) end. }
    assert (Huser2 : heap w2 !! n = Some user).
    { cbn. rewrite list_lookup_insert_ne by lia. by do 3 apply lookup_app_l_Some. }
    assert (Hold2 : forall x o, heap w !! x = Some o -> x <> history -> heap w2 !! x = Some o).
    { intros x o Hx Hne. cbn. rewrite list_lookup_insert_ne by done.
      do 3 apply lookup_app_l_Some. by apply Hold_c. }
    assert (Hvnew : heap w !! v = None).
    { apply lookup_ge_None. unfold v, n. lia. }
    assert (Hfinish : forall (text : string) (w3 : world),
               _history w3 = Some history ->
               _current_prompt_template w3 = _current_prompt_template w ->
               heap w3 = <[v := PyDict (<["content" := text]>
                                          {[ "role" := "assistant"; "content" := "" ]})]>
                           (heap w2) ->
               _history w3 = Some history
               /\ _current_prompt_template w3 = _current_prompt_template w
               /\ (forall x o, heap w !! x = Some o -> x <> history -> heap w3 !! x = Some o)
               /\ heap w3 !! n = Some user
               /\ heap w3 !! history = Some (PyList (items ++ [n; v]))
               /\ heap w3 !! v = Some (PyDict {[ "role" := "assistant"; "content" := text ]})).
    { intros text w3 H3h H3t H3.
      assert (Hvlt : (v < List.length (heap w2))%nat) by by eapply lookup_lt_Some.
      split; [done|]. split; [done|]. rewrite H3. split; [|split; [|split]].
      - intros x o Hx Hne. assert (x < n)%nat by by eapply lookup_lt_Some.
        rewrite list_lookup_insert_ne by (unfold v; lia). by apply Hold2.
      - rewrite list_lookup_insert_ne by (unfold v; lia). done.
      - rewrite list_lookup_insert_ne by (unfold v; lia). by rewrite Hlist2, <- app_assoc.
      - by rewrite list_lookup_insert_eq, assistant_with. }
    unfold send_request. destruct (streaming a) eqn:Hstream.
    + (* the generator is returned; nothing has run *)
      unfold call_prompt_model_streaming. rewrite !bind_run. cbn [log_call mret M_ret].
      intros [= <- <-].
      destruct (Hfinish "" {| _history := _history w2;
                              _current_prompt_template := _current_prompt_template w2;
                              heap := heap w2; calls := calls w2 ++ [main_call p t
                                (<["reset_context" := PyBool (len items =? 1)]> (generate_kwargs a))
                                a history]; warnings := warnings w2 |})
        as (H1 & H2 & H3 & H4 & H5 & H6).
      { cbn. congruence. }
      { cbn. congruence. }
      { rewrite (insert_id _ "content" "") by done. symmetry. by apply list_insert_id. }
      split; [done|]. split; [done|]. split; [done|].
      exists n. split; [by rewrite <- (Nat.add_0_r n)|]. split; [done|]. right.
      exists v, "". split; [done|]. split; [done|]. split; [done|].
      intros x [= <-]. split; [done|]. by eexists.
    + set (c := main_call p t _ a history).
      destruct (engine E (calls w2) c) as [tokens failure] eqn:Heng.
      rewrite bind_run.
      rewrite (call_prompt_model_collects E c (callback a) history v (items ++ [n])
                 {[ "role" := "assistant"; "content" := "" ]} "" tokens failure w2
                 eq_refl Hlist2 Hv2 eq_refl Heng).
      set (text := "" +:+ joined (delivered (callback a) tokens)).
      set (w3 := set_heap _ _).
      destruct (Hfinish text w3) as (H1 & H2 & H3 & H4 & H5 & H6).
      { cbn. congruence. }
      { cbn. congruence. }
      { done. }
      assert (Hlast : heap w3 !! history = Some (PyList ((items ++ [n]) ++ [v])))
        by by rewrite H5, <- app_assoc.
      assert (Hres : forall res : outcome unit,
                 (match res with
                  | Ok _ =>
                      (list_getitem history (-1)
                       ≫= λ msg, dict_getitem msg "content"
                                   ≫= λ text, mret (Completion text)) w3
                  | Raise e => (Raise e, w3)
                  end) = (r, w') ->
                 w' = w3 /\ forall x, r = Ok x -> x = Completion text).
      { intros [[]|e].
        - rewrite bind_run, (getitem_last _ _ _ _ Hlast).
          rewrite bind_run, (dict_getitem_ok _ _ _ text _ H6) by by simplify_map_eq.
          intros [= <- <-]. split; [done|]. by intros x [= <-].
        - intros [= <- <-]. by split. }
      intros Hrun. destruct (Hres _ Hrun) as [-> Hx].
      split; [done|]. split; [done|]. split; [done|].
      exists n. split; [by rewrite <- (Nat.add_0_r n)|]. split; [done|]. right.
      exists v, text. by repeat split.
  - (* rendering raised *)
    intros [= <- <-]. split; [congruence|]. split; [by rewrite Ht|]. split; [done|].
    exists n. split; [by rewrite <- (Nat.add_0_r n)|]. split; [done|]. left.
    split; [done|]. by eexists.
Qed.

(** The messages of the transcript are dicts, so none of their
references is the one of the transcript list. *)
Lemma reads_after (w w' : world) (history : ref) (items items' : list ref)
    (msgs : list (gmap string string)) :
  heap w !! history = Some (PyList items') ->
  (forall x o, heap w !! x = Some o -> x <> history -> heap w' !! x = Some o) ->
  reads (heap w) items msgs ->
  reads (heap w') items msgs.
Proof.
  intros Hlist Hold Hreads. unfold reads in *.
  eapply Forall2_impl; [exact Hreads|]. intros x m Hx.
  apply Hold; [done|]. congruence.
Qed.

Lemma reads_app (h : list pyobj) (items1 items2 : list ref)
    (msgs1 msgs2 : list (gmap string string)) :
  reads h items1 msgs1 -> reads h items2 msgs2 -> reads h (items1 ++ items2) (msgs1 ++ msgs2).
Proof. apply Forall2_app. Qed.

(** X17.  A [generate] call that returns its text in a session leaves
the transcript as it was, message for message, with two messages more
at its end: the user message with the prompt as given, and the
assistant message whose content is the text returned. *)
Theorem generate_extends_transcript
    (E : env) (prompt text : string) (a : generate_args) (w w' : world)
    (msgs : list (gmap string string)) :
  transcript w = Some msgs ->
  generate E prompt a w = (Ok (Completion text), w') ->
  transcript w'
  = Some (msgs ++ [ {[ "role" := "user"; "content" := prompt ]};
                    {[ "role" := "assistant"; "content" := text ]} ]).
Proof.
  intros (history & items & Hhist & Hlist & Hreads)%transcript_Some Hgen.
  destruct (generate_in_session_store _ _ _ _ _ _ _ _ Hhist Hlist Hgen)
    as (Hh & _ & Hold & u & _ & Hu & [[_ [e He]]|(v & text' & _ & Hl & Hv & Hret)]); [done|].
  specialize (Hret _ eq_refl).
  assert (text' = text) as ->.
  { destruct (streaming a); [by destruct Hret as [_ [c ?]]|by injection Hret]. }
  apply transcript_Some. exists history, (items ++ [u; v]).
  split; [done|]. split; [done|]. apply reads_app; [eapply reads_after; [exact Hlist|exact Hold|exact Hreads]|].
  unfold reads. by repeat constructor.
Qed.

Lemma generate_extends_transcript_witness :
  transcript (snd (generate (model chatty) "Hi" default_args (entered (model chatty))))
  = Some [ {[ "role" := "system"; "content" := "Be brief." ]};
           {[ "role" := "user"; "content" := "Hi" ]};
           {[ "role" := "assistant"; "content" := "Hello" ]} ].
Proof.
  apply (generate_extends_transcript (model chatty) "Hi" "Hello" default_args
           (entered (model chatty)) _ [ {[ "role" := "system"; "content" := "Be brief." ]} ]).
  - vm_compute; reflexivity.
  - vm_compute; reflexivity.
Defined.

(** X18.  A [generate] call that raises in a session does not take back
what it has put into the transcript: the user message stays at the end
of the earlier messages, followed, when the failure came after the
main call had begun, by the assistant message with the text collected
up to then. *)
Theorem raising_generate_keeps_user_message
    (E : env) (prompt : string) (a : generate_args) (w w' : world) (e : exn)
    (msgs : list (gmap string string)) :
  transcript w = Some msgs ->
  generate E prompt a w = (Raise e, w') ->
  exists rest,
    transcript w' = Some (msgs ++ {[ "role" := "user"; "content" := prompt ]} :: rest)
    /\ (rest = []
        \/ exists partial, rest = [ {[ "role" := "assistant"; "content" := partial ]} ]).
Proof.
  intros (history & items & Hhist & Hlist & Hreads)%transcript_Some Hgen.
  destruct (generate_in_session_store _ _ _ _ _ _ _ _ Hhist Hlist Hgen)
    as (Hh & _ & Hold & u & _ & Hu & [[Hl _]|(v & partial & _ & Hl & Hv & _)]).
  - exists []. split; [|by left]. apply transcript_Some. exists history, (items ++ [u]).
    split; [done|]. split; [done|]. apply reads_app; [eapply reads_after; [exact Hlist|exact Hold|exact Hreads]|].
  unfold reads. by repeat constructor.
  - exists [ {[ "role" := "assistant"; "content" := partial ]} ]. split; [|right; by eexists].
    apply transcript_Some. exists history, (items ++ [u; v]).
    split; [done|]. split; [done|]. apply reads_app; [eapply reads_after; [exact Hlist|exact Hold|exact Hreads]|].
  unfold reads. by repeat constructor.
Qed.

Lemma raising_generate_keeps_user_message_witness :
  exists rest,
    transcript (snd (generate (model failing) "Hi" default_args (entered (model failing))))
    = Some ([ {[ "role" := "system"; "content" := "Be brief." ]} ]
            ++ {[ "role" := "user"; "content" := "Hi" ]} :: rest).
Proof.
  destruct (raising_generate_keeps_user_message (model failing) "Hi" default_args
              (entered (model failing))
              (snd (generate (model failing) "Hi" default_args (entered (model failing))))
              (RuntimeError "engine failure")
              [ {[ "role" := "system"; "content" := "Be brief." ]} ])
    as (rest & Htr & _).
  - vm_compute; reflexivity.
  - vm_compute; reflexivity.
  - by exists rest.
Defined.

(** X19.  A list taken from [current_chat_session] is a snapshot: after
a later [generate] call, whatever its outcome, it still lists the
messages it was taken with, with their contents, while the transcript
has got longer. *)
Theorem snapshot_unaffected_by_generate
    (E : env) (prompt : string) (a : generate_args) (w w0 w' : world) (copy : ref)
    (r : outcome generate_return) (msgs : list (gmap string string)) :
  transcript w = Some msgs ->
  current_chat_session w = (Ok (Some copy), w0) ->
  generate E prompt a w0 = (r, w') ->
  (exists items, heap w' !! copy = Some (PyList items) /\ reads (heap w') items msgs)
  /\ exists more, more <> [] /\ transcript w' = Some (msgs ++ more).
Proof.
  intros (history & items & Hhist & Hlist & Hreads)%transcript_Some.
  unfold current_chat_session, get_history. rewrite bind_run, Hhist.
  unfold load_list. rewrite bind_run, Hlist. unfold alloc. rewrite bind_run.
  intros [= <- <-] Hgen.
  set (w0 := set_heap (heap w ++ [PyList items]) w) in *.
  assert (Hlt : (history < List.length (heap w))%nat) by by eapply lookup_lt_Some.
  assert (Hlist0 : heap w0 !! history = Some (PyList items)) by by apply lookup_app_l_Some.
  assert (Hcopy0 : heap w0 !! List.length (heap w) = Some (PyList items)).
  { cbn. by rewrite lookup_app_r, Nat.sub_diag by lia. }
  assert (Hreads0 : reads (heap w0) items msgs).
  { unfold reads in *. eapply Forall2_impl; [exact Hreads|].
    intros x m Hx. by apply lookup_app_l_Some. }
  assert (Hhist0 : _history w0 = Some history) by exact Hhist.
  destruct (generate_in_session_store _ _ _ _ _ _ _ _ Hhist0 Hlist0 Hgen)
    as (Hh & _ & Hold & u & _ & Hu & Hcases).
  split.
  - exists items. split; [apply Hold; [done|lia]|].
    eapply (reads_after w0 w'); [exact Hlist0|exact Hold|exact Hreads0].
  - destruct Hcases as [[Hl _]|(v & text & _ & Hl & Hv & _)].
    + exists [ {[ "role" := "user"; "content" := prompt ]} ]. split; [done|].
      apply transcript_Some. exists history, (items ++ [u]).
      split; [done|]. split; [done|]. apply reads_app; [eapply (reads_after w0 w'); [exact Hlist0|exact Hold|exact Hreads0]|].
  unfold reads. by repeat constructor.
    + exists [ {[ "role" := "user"; "content" := prompt ]};
               {[ "role" := "assistant"; "content" := text ]} ]. split; [done|].
      apply transcript_Some. exists history, (items ++ [u; v]).
      split; [done|]. split; [done|]. apply reads_app; [eapply (reads_after w0 w'); [exact Hlist0|exact Hold|exact Hreads0]|].
  unfold reads. by repeat constructor.
Qed.

Lemma snapshot_unaffected_by_generate_witness :
  exists copy w0 items,
    current_chat_session (entered (model chatty)) = (Ok (Some copy), w0)
    /\ heap (snd (generate (model chatty) "Hi" default_args w0)) !! copy = Some (PyList items)
    /\ List.length items = 1%nat.
Proof.
  exists 2%nat, (snd (current_chat_session (entered (model chatty)))).
  destruct (snapshot_unaffected_by_generate (model chatty) "Hi" default_args
              (entered (model chatty)) (snd (current_chat_session (entered (model chatty))))
              (snd (generate (model chatty) "Hi" default_args
                      (snd (current_chat_session (entered (model chatty))))))
              2%nat
              (fst (generate (model chatty) "Hi" default_args
                      (snd (current_chat_session (entered (model chatty))))))
              [ {[ "role" := "system"; "content" := "Be brief." ]} ])
    as [(items & Hcopy & Hreads) _].
  - vm_compute; reflexivity.
  - vm_compute; reflexivity.
  - vm_compute; reflexivity.
  - exists items. split; [vm_compute; reflexivity|]. split; [exact Hcopy|].
    apply Forall2_length in Hreads. exact Hreads.
Defined.

(** ** The engine calls of a turn *)

(** Rendering with the method of [GPT4All] itself. *)
Lemma format_turn_default_later (E : env) (history : ref) (prompt : string)
    (a : generate_args) (w : world) :
  format_override E = None ->
  format_turn E history prompt a false w
  = (match str_format E (_current_prompt_template w) ["%1"; "%2"] with
     | Ok t => Ok (prompt, t)
     | Raise e => Raise e
     end, w).
Proof.
  intros Hov. unfold format_turn. rewrite Hov. rewrite !bind_run. cbn [mret M_ret].
  unfold get_template, lift. rewrite !bind_run.
  by destruct (str_format E _ _).
Qed.

Lemma format_turn_default_first (E : env) (history system : ref) (more : list ref)
    (d : gmap string string) (prompt : string) (a : generate_args)
    (w w' : world) (x : string * string) :
  format_override E = None ->
  heap w !! history = Some (PyList (system :: more)) ->
  heap w !! system = Some (PyDict d) ->
  format_turn E history prompt a true w = (Ok x, w') ->
  exists content t,
    d !! "content" = Some content
    /\ str_format E (_current_prompt_template w) ["%1"; "%2"] = Ok t
    /\ x = (prompt, t)
    /\ calls w' = calls w ++ [priming_call content a].
Proof.
  intros Hov Hlist Hsys. unfold format_turn. rewrite Hov.
  rewrite bind_run, bind_run, (list_getitem_first _ _ _ _ Hlist).
  rewrite bind_run. unfold dict_getitem, load_dict. rewrite bind_run, Hsys.
  destruct (d !! "content") as [content|] eqn:Hcontent; [|done]. cbn [mret M_ret].
  destruct (call_prompt_model E (priming_call content a) w) as [[[]|e] w1] eqn:Hcall; [|done].
  apply call_prompt_model_effect in Hcall as [(_ & Ht & _) Hc].
  unfold get_template, lift. rewrite !bind_run. rewrite Ht.
  destruct (str_format E _ _) as [t|e]; [|done].
  intros [= <- <-]. by exists content, t.
Qed.

(** Rendering with an overriding method. *)
Lemma format_turn_override (E : env) (history : ref) (prompt : string)
    (a : generate_args) (reset : bool) (w w' : world) (x : string * string)
    (fct : list (gmap string string) -> string -> string -> outcome string)
    (items : list ref) (last_ref : ref) (m : gmap string string) :
  format_override E = Some fct ->
  heap w !! history = Some (PyList (items ++ [last_ref])) ->
  heap w !! last_ref = Some (PyDict m) ->
  format_turn E history prompt a reset w = (Ok x, w') ->
  exists p header,
    fct [m] header "" = Ok p
    /\ x = (p, "%1")
    /\ calls w' = calls w
    /\ warnings w' = warnings w ++ [MSG_FORMAT_DEPRECATED]
    /\ if reset then
         exists system d,
           (items ++ [last_ref]) !! 0%nat = Some system
           /\ heap w !! system = Some (PyDict d)
           /\ d !! "content" = Some header
       else header = "".
Proof.
  intros Hov Hlist Hlast. unfold format_turn. rewrite Hov.
  rewrite bind_run. unfold warn at 1.
  set (w1 := {| _history := _history w; _current_prompt_template := _current_prompt_template w;
                heap := heap w; calls := calls w;
                warnings := warnings w ++ [MSG_FORMAT_DEPRECATED] |}).
  rewrite bind_run. unfold list_last_slice, load_list. rewrite bind_run.
  change (heap w1) with (heap w). rewrite Hlist, last_snoc.
  rewrite bind_run. unfold load_dict at 1. change (heap w1) with (heap w). rewrite Hlast.
  cbn [mret M_ret]. rewrite bind_run.
  destruct reset.
  - rewrite bind_run. unfold list_getitem, load_list. rewrite bind_run.
    change (heap w1) with (heap w). rewrite Hlist.
    change (0 <? 0) with false. cbv iota. change (Z.to_nat 0) with 0%nat.
    change (0 <? 0) with false. cbv iota.
    destruct ((items ++ [last_ref]) !! 0%nat) as [system|] eqn:Hfirst; [|done].
    cbn [mret M_ret]. unfold dict_getitem, load_dict. rewrite bind_run.
    change (heap w1) with (heap w).
    destruct (heap w !! system) as [[d|]|] eqn:Hsys; try done.
    destruct (d !! "content") as [header|] eqn:Hcontent; [|done]. cbn [mret M_ret].
    unfold lift. rewrite bind_run.
    destruct (fct [m] header "") as [p|e] eqn:Hfct; [|done].
    intros [= <- <-]. exists p, header. repeat split; try done. by exists system, d.
  - cbn [mret M_ret]. unfold lift. rewrite bind_run.
    destruct (fct [m] "" "") as [p|e] eqn:Hfct; [|done].
    intros [= <- <-]. by exists p, "".
Qed.

(** What follows the rendering makes the main call and emits no
warning. *)
Lemma feed_warnings (E : env) (cb : engine_callback) (tokens : list (Z * string))
    (w w' : world) (r : outcome bool) :
  feed E cb tokens w = (r, w') -> warnings w' = warnings w.
Proof.
  revert w. induction tokens as [|[token_id response] rest IH]; intros w.
  - by intros [= _ <-].
  - cbn [feed]. rewrite bind_run.
    assert (Hinvoke : forall r1 w1, invoke E cb token_id response w = (r1, w1) ->
                                    warnings w1 = warnings w).
    { intros r1 w1. destruct cb as [|callback oc]; cbn [invoke]; [by intros [= _ <-]|].
      rewrite bind_run. pose proof (list_getitem_reads oc (-1) w) as Hg.
      destruct (list_getitem oc (-1) w) as [[msg|e] w2]; cbn in Hg; subst w2;
        [|by intros [= _ <-]].
      rewrite bind_run. pose proof (dict_getitem_reads msg "content" w) as Hd.
      destruct (dict_getitem msg "content" w) as [[content|e] w2]; cbn in Hd; subst w2;
        [|by intros [= _ <-]].
      rewrite bind_run. unfold dict_setitem, load_dict, store. rewrite bind_run.
      destruct (heap w !! msg) as [[m|]|]; by intros [= _ <-]. }
    destruct (invoke E cb token_id response w) as [[go_on|e] w1] eqn:Hinv.
    + specialize (Hinvoke _ _ eq_refl). destruct go_on.
      * intros H. rewrite <- Hinvoke. by eapply IH.
      * by intros [= _ <-].
    + specialize (Hinvoke _ _ eq_refl). by intros [= _ <-].
Qed.

Lemma send_request_warnings (E : env) (prompt prompt_template : string)
    (kwargs : gmap string pyany) (a : generate_args) (output_collector : ref)
    (w w' : world) (r : outcome generate_return) :
  send_request E prompt prompt_template kwargs a output_collector w = (r, w') ->
  warnings w' = warnings w.
Proof.
  unfold send_request. destruct (streaming a).
  - unfold call_prompt_model_streaming, log_call. rewrite !bind_run. by intros [= _ <-].
  - set (c := main_call _ _ _ _ _).
    assert (Hcall : forall r1 w1, call_prompt_model E c w = (r1, w1) ->
                                  warnings w1 = warnings w).
    { intros r1 w1. unfold call_prompt_model.
      destruct (engine E (calls w) c) as [tokens failure].
      rewrite bind_run. cbn [log_call]. rewrite bind_run.
      destruct (feed E (call_callback c) tokens _) as [[fin|e] w2] eqn:Hfeed;
        apply feed_warnings in Hfeed; cbn in Hfeed.
      - by destruct failure as [e|]; [destruct fin|]; intros [= _ <-].
      - by intros [= _ <-]. }
    rewrite bind_run.
    destruct (call_prompt_model E c w) as [[[]|e] w1] eqn:Hc; specialize (Hcall _ _ eq_refl).
    + rewrite bind_run. pose proof (list_getitem_reads output_collector (-1) w1) as Hg.
      destruct (list_getitem output_collector (-1) w1) as [[msg|e] w2]; cbn in Hg; subst w2;
        [|by intros [= _ <-]].
      rewrite bind_run. pose proof (dict_getitem_reads msg "content" w1) as Hd.
      destruct (dict_getitem msg "content" w1) as [[text|e] w2]; cbn in Hd; subst w2;
        by intros [= _ <-].
    + by intros [= _ <-].
Qed.

(** A turn that returns, split at the rendering. *)
Lemma generate_Ok_steps (E : env) (prompt : string) (a : generate_args)
    (history : ref) (items : list ref) (w w' : world) (r : generate_return) :
  _history w = Some history ->
  heap w !! history = Some (PyList items) ->
  generate E prompt a w = (Ok r, w') ->
  exists p t wc,
    format_turn E history prompt a (len items =? 1)
      (set_heap (<[history := PyList (items ++ [List.length (heap w)])]>
                   (heap w ++ [PyDict {[ "role" := "user"; "content" := prompt ]}])) w)
    = (Ok (p, t), wc)
    /\ calls w'
       = calls wc ++ [main_call p t
                        (<["reset_context" := PyBool (len items =? 1)]> (generate_kwargs a))
                        a history]
    /\ warnings w' = warnings wc.
Proof.
  intros Hhist Hlist. unfold generate. rewrite bind_run. unfold get_history. rewrite Hhist.
  unfold session_turn. rewrite bind_run, bind_run, (list_len_ok _ _ _ Hlist).
  rewrite (user_turn_run _ _ _ _ _ _ _ Hlist).
  destruct (format_turn E history prompt a (len items =? 1) _) as [[[p t]|e] wc] eqn:Hfmt;
    [|done].
  destruct (format_turn_same_store _ _ _ _ _ _ _ _ Hfmt) as [(Hheap & _ & _) _].
  assert (Hlist_c : heap wc !! history
                    = Some (PyList (items ++ [List.length (heap w)]))).
  { rewrite Hheap. cbn. apply list_lookup_insert_eq. rewrite length_app.
    assert (history < List.length (heap w))%nat by by eapply lookup_lt_Some. lia. }
  rewrite bind_run, (prepare_callback_run _ _ _ Hlist_c).
  intros Hsend. exists p, t, wc. split; [done|].
  pose proof (send_request_warnings _ _ _ _ _ _ _ _ _ Hsend) as Hw.
  apply send_request_effect in Hsend as [_ Hc]. by split.
Qed.

(** X20.  In a session of an object that does not override
[_format_chat_prompt_template], a [generate] call that returns has made
these engine calls and no other: on the first turn (the transcript held
the system message alone) the call that ingests the content of the
system message; then the main call, for the prompt as given, under the
template of the session formatted with [%1] and [%2], with the
transcript as the collector of the text, and with [reset_context] true
on the first turn only. *)
Theorem session_engine_calls
    (E : env) (prompt : string) (a : generate_args) (history : ref) (w w' : world)
    (r : generate_return) (msgs : list (gmap string string)) :
  format_override E = None ->
  _history w = Some history ->
  transcript w = Some msgs ->
  generate E prompt a w = (Ok r, w') ->
  exists t priming,
    str_format E (_current_prompt_template w) ["%1"; "%2"] = Ok t
    /\ calls w'
       = calls w ++ priming
         ++ [main_call prompt t
               (<["reset_context" := PyBool (len msgs =? 1)]> (generate_kwargs a)) a history]
    /\ match msgs with
       | [system] =>
           exists content,
             system !! "content" = Some content /\ priming = [priming_call content a]
       | _ => priming = []
       end.
Proof.
  intros Hov Hhist (history' & items & Hhist' & Hlist & Hreads)%transcript_Some Hgen.
  assert (history' = history) as -> by congruence.
  destruct (generate_Ok_steps _ _ _ _ _ _ _ _ Hhist Hlist Hgen)
    as (p & t & wc & Hfmt & Hcalls & _).
  assert (Hlen : len items = len msgs).
  { unfold len. f_equal. by eapply Forall2_length. }
  assert (Hlt : (history < List.length (heap w))%nat) by by eapply lookup_lt_Some.
  rewrite <- Hlen. destruct (len items =? 1) eqn:Hreset.
  - (* the first turn *)
    apply Z.eqb_eq in Hreset. unfold len in Hreset.
    destruct items as [|system [|? ?]]; cbn [List.length] in Hreset; try lia.
    apply Forall2_cons_inv_l in Hreads as (sys & msgs' & Hsys & Hnil & ->).
    apply Forall2_nil_inv_l in Hnil as ->.
    assert (Hne : system <> history) by congruence.
    eapply format_turn_default_first in Hfmt as (content & t' & Hcontent & Hformat & [= -> ->] & Hc);
      [|done| |].
    + exists t', [priming_call content a]. split; [exact Hformat|].
      split; [by rewrite Hcalls, Hc, <- app_assoc|by exists content].
    + cbn. by rewrite list_lookup_insert_eq by (rewrite length_app; lia).
    + cbn. rewrite list_lookup_insert_ne by done. by apply lookup_app_l_Some.
  - rewrite format_turn_default_later in Hfmt by done. cbn in Hfmt.
    destruct (str_format E (_current_prompt_template w) ["%1"; "%2"]) as [t'|e] eqn:Hformat;
      [|done].
    injection Hfmt as <- <- <-. exists t', []. split; [done|]. split; [done|].
    apply Forall2_length in Hreads.
    destruct msgs as [|m [|m' msgs']]; try done.
    destruct items as [|i [|i' items']]; try done.
Qed.

Lemma session_engine_calls_witness :
  calls (snd (generate (model chatty) "Hi" default_args (entered (model chatty))))
  = [ priming_call "Be brief." default_args;
      main_call "Hi" "Q: %1 A: "
        (<["reset_context" := PyBool true]> (generate_kwargs default_args)) default_args 1%nat ].
Proof.
  destruct (session_engine_calls (model chatty) "Hi" default_args 1%nat (entered (model chatty))
              (snd (generate (model chatty) "Hi" default_args (entered (model chatty))))
              (Completion "Hello") [ {[ "role" := "system"; "content" := "Be brief." ]} ])
    as (t & priming & Hformat & Hcalls & content & Hcontent & ->).
  - reflexivity.
  - reflexivity.
  - vm_compute; reflexivity.
  - vm_compute; reflexivity.
  - rewrite Hcalls. injection Hformat as <-. by injection Hcontent as <-.
Defined.

(** X21.  With an overriding [_format_chat_prompt_template], a [generate]
call that returns in a session has emitted the deprecation warning once
and made one engine call, no call to ingest the system prompt: the main
call under the template [%1], for the text the method gave for the user
message just added alone, with the content of the system message as the
header on the first turn and the empty header on later turns, and with
the empty footer. *)
Theorem overridden_formatter_turn
    (E : env) (prompt : string) (a : generate_args) (history : ref) (w w' : world)
    (r : generate_return) (msgs : list (gmap string string))
    (fct : list (gmap string string) -> string -> string -> outcome string) :
  format_override E = Some fct ->
  _history w = Some history ->
  transcript w = Some msgs ->
  generate E prompt a w = (Ok r, w') ->
  exists p header,
    fct [ {[ "role" := "user"; "content" := prompt ]} ] header "" = Ok p
    /\ calls w'
       = calls w ++ [main_call p "%1"
                       (<["reset_context" := PyBool (len msgs =? 1)]> (generate_kwargs a))
                       a history]
    /\ warnings w' = warnings w ++ [MSG_FORMAT_DEPRECATED]
    /\ match msgs with
       | [system] => system !! "content" = Some header
       | _ => header = ""
       end.
Proof.
  intros Hov Hhist (history' & items & Hhist' & Hlist & Hreads)%transcript_Some Hgen.
  assert (history' = history) as -> by congruence.
  destruct (generate_Ok_steps _ _ _ _ _ _ _ _ Hhist Hlist Hgen)
    as (p & t & wc & Hfmt & Hcalls & Hwarn).
  assert (Hlen : len items = len msgs).
  { unfold len. f_equal. by eapply Forall2_length. }
  assert (Hlt : (history < List.length (heap w))%nat) by by eapply lookup_lt_Some.
  eapply (format_turn_override E history prompt a _ _ _ _ fct items (List.length (heap w))
            {[ "role" := "user"; "content" := prompt ]}) in Hfmt
    as (p' & header & Hfct & [= -> ->] & Hc & Hw & Hheader); [|done| |].
  - exists p', header. split; [done|]. rewrite <- Hlen.
    split; [by rewrite Hcalls, Hc|]. split; [by rewrite Hwarn, Hw|].
    destruct (len items =? 1) eqn:Hreset.
    + apply Z.eqb_eq in Hreset. unfold len in Hreset.
      destruct items as [|system [|? ?]]; cbn [List.length] in Hreset; try lia.
      apply Forall2_cons_inv_l in Hreads as (sys & msgs' & Hsys & Hnil & ->).
      apply Forall2_nil_inv_l in Hnil as ->.
      destruct Hheader as (system' & d & [= <-] & Hd & Hcontent).
      assert (Hne : system <> history) by congruence.
      cbn in Hd. rewrite list_lookup_insert_ne in Hd by done.
      rewrite (lookup_app_l_Some _ _ _ _ Hsys) in Hd. by injection Hd as <-.
    + subst header. apply Forall2_length in Hreads.
      destruct msgs as [|m [|m' msgs']]; try done.
      destruct items as [|i [|i' items']]; try done.
  - cbn. by rewrite list_lookup_insert_eq by (rewrite length_app; lia).
  - cbn. rewrite list_lookup_insert_ne by lia. by rewrite lookup_app_r, Nat.sub_diag by lia.
Qed.

Lemma overridden_formatter_turn_witness :
  exists p,
    calls (snd (generate legacy_model "Hi" default_args (entered legacy_model)))
    = [ main_call p "%1" (<["reset_context" := PyBool true]> (generate_kwargs default_args))
          default_args 1%nat ]
    /\ warnings (snd (generate legacy_model "Hi" default_args (entered legacy_model)))
       = [MSG_FORMAT_DEPRECATED].
Proof.
  destruct (overridden_formatter_turn legacy_model "Hi" default_args 1%nat
              (entered legacy_model)
              (snd (generate legacy_model "Hi" default_args (entered legacy_model)))
              (Completion "Hello") [ {[ "role" := "system"; "content" := "Be brief." ]} ]
              _ eq_refl eq_refl)
    as (p & header & _ & Hcalls & Hwarn & _).
  - vm_compute; reflexivity.
  - vm_compute; reflexivity.
  - exists p. split; [exact Hcalls|exact Hwarn].
Defined.

End ChatMore.

(* ===================================================================== *)
(** * Properties of [_format_chat_prompt_template]                        *)
(* ===================================================================== *)

Section FormatterFacts.
Import Chat Formatter Scenario.

(** ** The method [_format_chat_prompt_template] of [GPT4All] *)

Lemma format_messages_app (E : env) (tmpl : string)
    (ms1 ms2 : list (gmap string string)) (acc : string) :
  format_messages E tmpl (ms1 ++ ms2) acc
  = match format_messages E tmpl ms1 acc with
    | Ok acc' => format_messages E tmpl ms2 acc'
    | Raise e => Raise e
    end.
Proof.
  revert acc. induction ms1 as [|m ms1 IH]; intros acc; [done|]. cbn.
  by destruct (format_message E tmpl m acc).
Qed.

(** The piece of a message does not depend on the prompt built so far. *)
Lemma format_message_acc (E : env) (tmpl : string) (m : gmap string string) (acc : string) :
  format_message E tmpl m acc
  = match format_message E tmpl m "" with
    | Ok piece => Ok (acc +:+ piece)
    | Raise e => Raise e
    end.
Proof.
  unfold format_message. destruct (m !! "role") as [r|]; [|done].
  destruct (String.eqb r "user"), (String.eqb r "assistant"), (m !! "content") as [content|];
    try done; try (by rewrite string_app_nil_r);
    destruct (str_format E tmpl [content]) as [user_message|e]; try done;
    cbn; by rewrite ?string_app_assoc, ?string_app_nil_r.
Qed.

Lemma format_messages_acc (E : env) (tmpl : string) (ms : list (gmap string string))
    (acc : string) :
  format_messages E tmpl ms acc
  = match format_messages E tmpl ms "" with
    | Ok body => Ok (acc +:+ body)
    | Raise e => Raise e
    end.
Proof.
  revert acc. induction ms as [|m ms IH]; intros acc; cbn.
  - by rewrite string_app_nil_r.
  - rewrite (format_message_acc E tmpl m acc).
    destruct (format_message E tmpl m "") as [piece|e]; [|done].
    rewrite (IH (acc +:+ piece)), (IH piece).
    destruct (format_messages E tmpl ms "") as [body|e]; [|done].
    by rewrite string_app_assoc.
Qed.

(** X22.  The prompt [_format_chat_prompt_template] builds is made of
independent pieces: the header followed by an empty line when the header
is not empty, the text of the messages in order, and an empty line
followed by the footer when the footer is not empty; so the text for
two lists of messages one after the other is the text for the first
followed by the text for the second. *)
Theorem format_chat_prompt_template_pieces
    (E : env) (tmpl : string) (ms1 ms2 : list (gmap string string))
    (default_prompt_header default_prompt_footer body1 body2 : string) :
  _format_chat_prompt_template E tmpl ms1 "" "" = Ok body1 ->
  _format_chat_prompt_template E tmpl ms2 "" "" = Ok body2 ->
  _format_chat_prompt_template E tmpl (ms1 ++ ms2) "" "" = Ok (body1 +:+ body2)
  /\ _format_chat_prompt_template E tmpl ms1 default_prompt_header default_prompt_footer
     = Ok ((if String.eqb default_prompt_header "" then ""
            else default_prompt_header +:+ nl +:+ nl)
           +:+ body1
           +:+ (if String.eqb default_prompt_footer "" then ""
                else nl +:+ nl +:+ default_prompt_footer)).
Proof.
  unfold _format_chat_prompt_template. cbn [String.eqb negb].
  destruct (format_messages E tmpl ms1 "") as [b1|e] eqn:H1; [|done].
  destruct (format_messages E tmpl ms2 "") as [b2|e] eqn:H2; [|done].
  rewrite !string_app_nil_r. intros [= ->] [= ->]. split.
  - by rewrite format_messages_app, H1, format_messages_acc, H2, string_app_nil_r.
  - rewrite format_messages_acc, H1.
    destruct (String.eqb default_prompt_header ""), (String.eqb default_prompt_footer "");
      cbn [negb]; by rewrite ?string_app_assoc.
Qed.

Lemma format_chat_prompt_template_pieces_witness :
  _format_chat_prompt_template (model chatty) "Q: {0} A: "
    ([ {[ "role" := "user"; "content" := "Hi" ]} ]
     ++ [ {[ "role" := "assistant"; "content" := "Hello" ]} ]) "" ""
  = Ok ("Q: Hi A: " +:+ "Hello" +:+ nl)
  /\ _format_chat_prompt_template (model chatty) "Q: {0} A: "
       [ {[ "role" := "user"; "content" := "Hi" ]} ] "Be brief." ""
     = Ok ("Be brief." +:+ nl +:+ nl +:+ "Q: Hi A: ").
Proof.
  destruct (format_chat_prompt_template_pieces (model chatty) "Q: {0} A: "
              [ {[ "role" := "user"; "content" := "Hi" ]} ]
              [ {[ "role" := "assistant"; "content" := "Hello" ]} ]
              "Be brief." "" "Q: Hi A: " ("Hello" +:+ nl)) as [Happ Hwrap].
  - vm_compute; reflexivity.
  - vm_compute; reflexivity.
  - split; [exact Happ|exact Hwrap].
Defined.

(** X23.  [_format_chat_prompt_template] passes over every message whose
role is neither [user] nor [assistant], whether it has a content or
not: the prompt is the same without it.  A message without a role
raises [KeyError] when the messages before it are rendered. *)
Theorem format_chat_prompt_template_roles
    (E : env) (tmpl : string) (before after : list (gmap string string))
    (m : gmap string string) (default_prompt_header default_prompt_footer : string) :
  (forall r, m !! "role" = Some r -> r <> "user" /\ r <> "assistant") ->
  _format_chat_prompt_template E tmpl (before ++ m :: after)
    default_prompt_header default_prompt_footer
  = match m !! "role" with
    | Some _ =>
        _format_chat_prompt_template E tmpl (before ++ after)
          default_prompt_header default_prompt_footer
    | None =>
        match _format_chat_prompt_template E tmpl before default_prompt_header "" with
        | Ok _ => Raise KeyError
        | Raise e => Raise e
        end
    end.
Proof.
  intros Hrole. unfold _format_chat_prompt_template.
  rewrite !format_messages_app. cbn [format_messages].
  destruct (format_messages E tmpl before _) as [acc|e]; [|by destruct (m !! "role")].
  unfold format_message. destruct (m !! "role") as [r|]; [|done].
  destruct (Hrole r eq_refl) as [Hu Ha].
  destruct (String.eqb_spec r "user"); [done|].
  by destruct (String.eqb_spec r "assistant").
Qed.

Lemma format_chat_prompt_template_roles_witness :
  _format_chat_prompt_template (model chatty) "Q: {0} A: "
    ([ {[ "role" := "user"; "content" := "Hi" ]} ]
     ++ {[ "role" := "system" ]} :: [ {[ "role" := "assistant"; "content" := "Hello" ]} ])
    "" ""
  = Ok ("Q: Hi A: Hello" +:+ nl).
Proof.
  rewrite (format_chat_prompt_template_roles (model chatty) "Q: {0} A: "
             [ {[ "role" := "user"; "content" := "Hi" ]} ]
             [ {[ "role" := "assistant"; "content" := "Hello" ]} ]
             {[ "role" := "system" ]} "" "").
  - vm_compute; reflexivity.
  - intros r [= <-]. split; discriminate.
Defined.

End FormatterFacts.
